(** * GameSave-Manager: the backup store and the save monitor

    A shallow embedding of [BackupManager] (src/main.js), of [SaveMonitor]
    and of [ConfigManager] (src/utils/configManager.js), with the properties
    of the change-detection and backup-lifecycle engine stated over it.

    The methods are functions in a state-and-exception monad over a
    [World]: the file system, the clock and random source, the timers and
    watchers of the runtime, and the events emitted so far. How the model
    reads the code:
    - an [async] method runs to its end without interleaving: [await] is
      sequencing;
    - every call of [fs.copy], [fs.removeSync], [fs.writeJsonSync] and of
      a file read can throw: the world carries, for each kind of call, the
      list of faults the next calls are going to meet (an empty list: none
      fails), and a failed copy or write may leave partial bytes behind;
    - a file is [Raw] bytes or the JSON value its text parses to, so that
      [fs.readJsonSync] is a case distinction and not a parser;
    - a timestamp is the time value in milliseconds of its ISO string, a
      digest is the MD5 of the bytes in lower-case hexadecimal. *)

From Stdlib Require Import ZArith List Ascii String Lia Sorted Permutation.
From Stdlib.Strings Require Import Byte.
From stdpp Require Import base decidable option list gmap strings pretty sorting.

Local Open Scope Z_scope.

(** ** MD5 (what [crypto.createHash('md5')] computes, RFC 1321) *)

Module MD5.

Definition mask32 (x : Z) : Z := Z.land x 4294967295.

Definition rotl32 (x : Z) (c : Z) : Z :=
  mask32 (Z.lor (Z.shiftl x c) (Z.shiftr (mask32 x) (32 - c))).

Definition not32 (x : Z) : Z := Z.lxor (mask32 x) 4294967295.

Definition S_table : list Z :=
  [7; 12; 17; 22; 7; 12; 17; 22; 7; 12; 17; 22; 7; 12; 17; 22;
   5; 9; 14; 20; 5; 9; 14; 20; 5; 9; 14; 20; 5; 9; 14; 20;
   4; 11; 16; 23; 4; 11; 16; 23; 4; 11; 16; 23; 4; 11; 16; 23;
   6; 10; 15; 21; 6; 10; 15; 21; 6; 10; 15; 21; 6; 10; 15; 21].

Definition K_table : list Z :=
  [0xd76aa478; 0xe8c7b756; 0x242070db; 0xc1bdceee;
   0xf57c0faf; 0x4787c62a; 0xa8304613; 0xfd469501;
   0x698098d8; 0x8b44f7af; 0xffff5bb1; 0x895cd7be;
   0x6b901122; 0xfd987193; 0xa679438e; 0x49b40821;
   0xf61e2562; 0xc040b340; 0x265e5a51; 0xe9b6c7aa;
   0xd62f105d; 0x02441453; 0xd8a1e681; 0xe7d3fbc8;
   0x21e1cde6; 0xc33707d6; 0xf4d50d87; 0x455a14ed;
   0xa9e3e905; 0xfcefa3f8; 0x676f02d9; 0x8d2a4c8a;
   0xfffa3942; 0x8771f681; 0x6d9d6122; 0xfde5380c;
   0xa4beea44; 0x4bdecfa9; 0xf6bb4b60; 0xbebfbc70;
   0x289b7ec6; 0xeaa127fa; 0xd4ef3085; 0x04881d05;
   0xd9d4d039; 0xe6db99e5; 0x1fa27cf8; 0xc4ac5665;
   0xf4292244; 0x432aff97; 0xab9423a7; 0xfc93a039;
   0x655b59c3; 0x8f0ccc92; 0xffeff47d; 0x85845dd1;
   0x6fa87e4f; 0xfe2ce6e0; 0xa3014314; 0x4e0811a1;
   0xf7537e82; 0xbd3af235; 0x2ad7d2bb; 0xeb86d391].

(** The four chaining words A, B, C, D. *)
Record state := State { sA : Z; sB : Z; sC : Z; sD : Z }.

Definition init : state :=
  State 0x67452301 0xefcdab89 0x98badcfe 0x10325476.

(** Little-endian 32-bit word of four bytes. *)
Definition word_of_bytes (bs : list Z) : Z :=
  fold_right (fun b acc => b + 256 * acc) 0 bs.

Fixpoint words_of_block (n : nat) (bs : list Z) : list Z :=
  match n with
  | O => []
  | S n' => word_of_bytes (take 4 bs) :: words_of_block n' (drop 4 bs)
  end.

Definition round_fun (i : Z) (b c d : Z) : Z * Z :=
  if i <? 16 then (Z.lor (Z.land b c) (Z.land (not32 b) d), i)
  else if i <? 32 then (Z.lor (Z.land d b) (Z.land (not32 d) c), (5 * i + 1) mod 16)
  else if i <? 48 then (Z.lxor (Z.lxor b c) d, (3 * i + 5) mod 16)
  else (Z.lxor c (Z.lor b (not32 d)), (7 * i) mod 16).

Definition step (m : list Z) (st : state) (i : nat) : state :=
  let '(State a b c d) := st in
  let '(f, g) := round_fun (Z.of_nat i) b c d in
  let f' := mask32 (f + a + nth i K_table 0 + nth (Z.to_nat g) m 0) in
  State d (mask32 (b + rotl32 f' (nth i S_table 0))) b c.

Definition compress (st : state) (block : list Z) : state :=
  let m := words_of_block 16 block in
  let '(State a b c d) := fold_left (step m) (seq 0 64) st in
  State (mask32 (sA st + a)) (mask32 (sB st + b))
        (mask32 (sC st + c)) (mask32 (sD st + d)).

(** Little-endian bytes of the low [n] bytes of [x]. *)
Fixpoint le_bytes (n : nat) (x : Z) : list Z :=
  match n with
  | O => []
  | S n' => (x mod 256) :: le_bytes n' (x / 256)
  end.

Definition pad (msg : list Z) : list Z :=
  let len := Z.of_nat (length msg) in
  let zeros := Z.to_nat ((55 - len) mod 64) in
  msg ++ [128] ++ repeat 0 zeros ++ le_bytes 8 (8 * len).

Fixpoint blocks (n : nat) (bs : list Z) : list (list Z) :=
  match n with
  | O => []
  | S n' => take 64 bs :: blocks n' (drop 64 bs)
  end.

Definition digest_bytes (msg : list Z) : list Z :=
  let p := pad msg in
  let '(State a b c d) := fold_left compress (blocks (length p / 64) p) init in
  le_bytes 4 a ++ le_bytes 4 b ++ le_bytes 4 c ++ le_bytes 4 d.

Definition hex_digit (n : Z) : ascii :=
  nth (Z.to_nat n)
      ["0"; "1"; "2"; "3"; "4"; "5"; "6"; "7";
       "8"; "9"; "a"; "b"; "c"; "d"; "e"; "f"]%char "0"%char.

Fixpoint hex_of_bytes (bs : list Z) : string :=
  match bs with
  | [] => EmptyString
  | b :: bs' => String (hex_digit (b / 16)) (String (hex_digit (b mod 16)) (hex_of_bytes bs'))
  end.

(** [hash.update(data)] over the whole content, then [hash.digest('hex')]. *)
Definition hexdigest (content : list byte) : string :=
  hex_of_bytes (digest_bytes (map (fun b => Z.of_N (Byte.to_N b)) content)).

End MD5.

(** ** JavaScript values the code relies on *)

(** [Array.prototype.slice(start, end)]: a negative index counts from the
    end of the array, and both ends are clamped to the array. *)
Definition js_index {A} (l : list A) (k : Z) : nat :=
  let len := Z.of_nat (length l) in
  Z.to_nat (if k <? 0 then Z.max (len + k) 0 else Z.min k len).

Definition js_slice {A} (l : list A) (start stop : Z) : list A :=
  let i := js_index l start in
  let j := js_index l stop in
  take (j - i)%nat (drop i l).

Definition js_slice_from {A} (l : list A) (start : Z) : list A :=
  js_slice l start (Z.of_nat (length l)).

(** [Array.prototype.sort(cmp)] is a stable sort: [a] goes before [b]
    unless [cmp a b > 0]. *)
Fixpoint js_insert {A} (cmp : A → A → Z) (x : A) (l : list A) : list A :=
  match l with
  | [] => [x]
  | y :: l' => if cmp x y <=? 0 then x :: y :: l' else y :: js_insert cmp x l'
  end.

Fixpoint js_sort {A} (cmp : A → A → Z) (l : list A) : list A :=
  match l with
  | [] => []
  | x :: l' => js_insert cmp x (js_sort cmp l')
  end.

(** ** Paths ([path.join], [path.basename], [path.dirname] on POSIX paths
    that need no normalisation) *)

Definition sep : ascii := "/"%char.

Definition path_join (dir name : string) : string :=
  dir +:+ String sep EmptyString +:+ name.

(** The text before and after the last separator of a path. *)
Fixpoint split_last_sep (p : string) : option (string * string) :=
  match p with
  | EmptyString => None
  | String c rest =>
      match split_last_sep rest with
      | Some (d, b) => Some (String c d, b)
      | None => if Ascii.eqb c sep then Some (EmptyString, rest) else None
      end
  end.

Definition path_basename (p : string) : string :=
  match split_last_sep p with
  | Some (_, b) => b
  | None => p
  end.

Definition path_dirname (p : string) : string :=
  match split_last_sep p with
  | Some (EmptyString, _) => String sep EmptyString
  | Some (d, _) => d
  | None => "."
  end.

(** ** The ledger *)

(** One record of [metadata.json]. [timestamp] is the time value (in
    milliseconds) that [new Date(r.timestamp)] yields for the ISO string
    written by [toISOString()]. *)
Record BackupInfo := mkBackupInfo {
  id : string;
  originalFileName : string;
  backupFileName : string;
  timestamp : Z;
  size : Z;
  hash : string;
  originalPath : string;
  screenshot : option string
}.

(** What [fs.readJsonSync] can return: an object whose [backups] is an
    array of records, or a JSON value without an array [backups] (every
    use of [metadata.backups] as an array then ends in a [TypeError]). *)
Inductive json :=
| JLedger (backups : list BackupInfo)
| JOther (text : list byte).

(** ** The file system *)

(** A file holds bytes that are not JSON text, or JSON text (kept as the
    value it parses to). *)
Inductive content :=
| Raw (bytes : list byte)
| Json (v : json).

Inductive node :=
| File (c : content)
| Dir (dsize : Z).

Definition dq : string := String (ascii_of_nat 34) EmptyString.

Definition json_str (s : string) : string := dq +:+ s +:+ dq.

Definition json_field (k v : string) : string := json_str k +:+ ":" +:+ v.

Definition json_record (r : BackupInfo) : string :=
  "{" +:+ String.concat ","
    [ json_field "id" (json_str (id r));
      json_field "originalFileName" (json_str (originalFileName r));
      json_field "backupFileName" (json_str (backupFileName r));
      json_field "timestamp" (pretty (timestamp r));
      json_field "size" (pretty (size r));
      json_field "hash" (json_str (hash r));
      json_field "originalPath" (json_str (originalPath r));
      json_field "screenshot"
        (match screenshot r with Some p => json_str p | None => "null" end) ]
  +:+ "}".

(** The text [fs.writeJsonSync] writes for a ledger (layout and escapes
    left out: no operation below looks inside this text). *)
Definition json_text (v : json) : list byte :=
  match v with
  | JLedger backups =>
      list_byte_of_string
        ("{" +:+ json_field "backups"
                   ("[" +:+ String.concat "," (map json_record backups) +:+ "]")
             +:+ "}")
  | JOther text => text
  end.

Definition content_bytes (c : content) : list byte :=
  match c with
  | Raw bytes => bytes
  | Json v => json_text v
  end.

(** What one fallible I/O call is scheduled to do: succeed, or throw,
    possibly after leaving [partial] bytes at its destination. *)
Inductive fault :=
| Pass
| Fail (partial : option (list byte)).

Inductive exn :=
| ENOENT (path : string)
| EIO (path : string)
| EISDIR (path : string)
| SamePath (path : string)
| TypeErr
| Error (message : string).

Definition exn_message (e : exn) : string :=
  match e with
  | ENOENT p => "ENOENT: no such file or directory, " +:+ p
  | EIO p => "EIO: i/o error, " +:+ p
  | EISDIR p => "EISDIR: illegal operation on a directory, " +:+ p
  | SamePath p => "Source and destination must not be the same."
  | TypeErr => "TypeError"
  | Error message => message
  end.

Inductive event :=
| FileChangeDetected (path : string)
| MonitoringStarted (path : string)
| MonitoringStopped
| BackupCreated (id : string) (timestamp : Z) (size : Z) (hash : string) (originalPath : string)
| ErrorEvent (message : string).

(** The environment of the program: the file system, the I/O faults that
    are going to happen, the clock and random source, the timers and
    watchers of the runtime, the names of the events that have a listener
    on the monitor, and the events the monitor has emitted. *)
Record World := mkWorld {
  nodes : gmap string node;
  copyFaults : list fault;
  writeFaults : list fault;
  removeFaults : list fault;
  readFaults : list fault;
  clock : Z;
  random : string;
  timers : gset nat;
  watchers : gset nat;
  nextHandle : nat;
  listeners : gset string;
  emitted : list event
}.

Definition set_nodes (f : gmap string node → gmap string node) (w : World) : World :=
  mkWorld (f (nodes w)) (copyFaults w) (writeFaults w) (removeFaults w) (readFaults w)
          (clock w) (random w) (timers w) (watchers w) (nextHandle w) (listeners w) (emitted w).

Definition set_copyFaults (l : list fault) (w : World) : World :=
  mkWorld (nodes w) l (writeFaults w) (removeFaults w) (readFaults w)
          (clock w) (random w) (timers w) (watchers w) (nextHandle w) (listeners w) (emitted w).

Definition set_writeFaults (l : list fault) (w : World) : World :=
  mkWorld (nodes w) (copyFaults w) l (removeFaults w) (readFaults w)
          (clock w) (random w) (timers w) (watchers w) (nextHandle w) (listeners w) (emitted w).

Definition set_removeFaults (l : list fault) (w : World) : World :=
  mkWorld (nodes w) (copyFaults w) (writeFaults w) l (readFaults w)
          (clock w) (random w) (timers w) (watchers w) (nextHandle w) (listeners w) (emitted w).

Definition set_readFaults (l : list fault) (w : World) : World :=
  mkWorld (nodes w) (copyFaults w) (writeFaults w) (removeFaults w) l
          (clock w) (random w) (timers w) (watchers w) (nextHandle w) (listeners w) (emitted w).

Definition set_timers (f : gset nat → gset nat) (w : World) : World :=
  mkWorld (nodes w) (copyFaults w) (writeFaults w) (removeFaults w) (readFaults w)
          (clock w) (random w) (f (timers w)) (watchers w) (nextHandle w) (listeners w) (emitted w).

Definition set_watchers (f : gset nat → gset nat) (w : World) : World :=
  mkWorld (nodes w) (copyFaults w) (writeFaults w) (removeFaults w) (readFaults w)
          (clock w) (random w) (timers w) (f (watchers w)) (nextHandle w) (listeners w) (emitted w).

Definition set_nextHandle (n : nat) (w : World) : World :=
  mkWorld (nodes w) (copyFaults w) (writeFaults w) (removeFaults w) (readFaults w)
          (clock w) (random w) (timers w) (watchers w) n (listeners w) (emitted w).

Definition set_clock (now : Z) (rnd : string) (w : World) : World :=
  mkWorld (nodes w) (copyFaults w) (writeFaults w) (removeFaults w) (readFaults w)
          now rnd (timers w) (watchers w) (nextHandle w) (listeners w) (emitted w).

Definition set_listeners (f : gset string → gset string) (w : World) : World :=
  mkWorld (nodes w) (copyFaults w) (writeFaults w) (removeFaults w) (readFaults w)
          (clock w) (random w) (timers w) (watchers w) (nextHandle w) (f (listeners w))
          (emitted w).

Definition push_event (e : event) (w : World) : World :=
  mkWorld (nodes w) (copyFaults w) (writeFaults w) (removeFaults w) (readFaults w)
          (clock w) (random w) (timers w) (watchers w) (nextHandle w) (listeners w) (emitted w ++ [e]).

(** ** Computations that read and change a state and may throw *)

Inductive result (A : Type) :=
| Ok (a : A)
| Throw (e : exn).
Arguments Ok {A} a.
Arguments Throw {A} e.

Definition M (S A : Type) : Type := S → result A * S.

Global Instance M_ret {S} : MRet (M S) := λ A a s, (Ok a, s).

Global Instance M_bind {S} : MBind (M S) := λ A B f m s,
  match m s with
  | (Ok a, s') => f a s'
  | (Throw e, s') => (Throw e, s')
  end.

Definition throw {S A} (e : exn) : M S A := λ s, (Throw e, s).

(** [try { body } catch (e) { handler e }]: what [body] did to the state
    before it threw stays done. *)
Definition try_catch {S A} (body : M S A) (handler : exn → M S A) : M S A := λ s,
  match body s with
  | (Ok a, s') => (Ok a, s')
  | (Throw e, s') => handler e s'
  end.

Definition modify {S} (f : S → S) : M S unit := λ s, (Ok tt, f s).

(** ** [fs-extra] and the other primitives *)

Definition next_fault (l : list fault) : fault * list fault :=
  match l with
  | [] => (Pass, [])
  | f :: l' => (f, l')
  end.

Definition fs_existsSync (p : string) : M World bool := λ w,
  (Ok (bool_decide (is_Some (nodes w !! p))), w).

(** [fs.statSync(p).size] *)
Definition fs_statSync (p : string) : M World Z := λ w,
  match nodes w !! p with
  | None => (Throw (ENOENT p), w)
  | Some (File c) => (Ok (Z.of_nat (length (content_bytes c))), w)
  | Some (Dir sz) => (Ok sz, w)
  end.

(** [fs.mkdirSync(p, { recursive: true })]; directory entries are not
    tracked, a directory is a name. *)
Definition fs_mkdirSync (p : string) : M World unit := λ w,
  match nodes w !! p with
  | Some (File _) => (Throw (Error "EEXIST"), w)
  | Some (Dir _) => (Ok tt, w)
  | None => (Ok tt, set_nodes <[p := Dir 0]> w)
  end.

(** [fs.copy(src, dest)]: refuses a missing source, identical paths and
    a destination of the other kind; otherwise the scheduled fault
    decides whether the bytes arrive. *)
Definition fs_copy (src dest : string) : M World unit := λ w,
  match nodes w !! src with
  | None => (Throw (ENOENT src), w)
  | Some n =>
      if bool_decide (src = dest) then (Throw (SamePath src), w) else
      match n, nodes w !! dest with
      | File _, Some (Dir _) => (Throw (EISDIR dest), w)
      | Dir _, Some (File _) => (Throw (Error "ENOTDIR"), w)
      | _, _ =>
          let (f, rest) := next_fault (copyFaults w) in
          let w1 := set_copyFaults rest w in
          match f with
          | Pass => (Ok tt, set_nodes <[dest := n]> w1)
          | Fail None => (Throw (EIO dest), w1)
          | Fail (Some part) => (Throw (EIO dest), set_nodes <[dest := File (Raw part)]> w1)
          end
      end
  end.

(** [fs.removeSync(p)]: removing what is not there is no error. *)
Definition fs_removeSync (p : string) : M World unit := λ w,
  let (f, rest) := next_fault (removeFaults w) in
  let w1 := set_removeFaults rest w in
  match f with
  | Pass => (Ok tt, set_nodes (delete p) w1)
  | Fail _ => (Throw (EIO p), w1)
  end.

(** [fs.writeJsonSync(p, v, { spaces: 2 })] *)
Definition fs_writeJsonSync (p : string) (v : json) : M World unit := λ w,
  match nodes w !! p with
  | Some (Dir _) => (Throw (EISDIR p), w)
  | _ =>
      let (f, rest) := next_fault (writeFaults w) in
      let w1 := set_writeFaults rest w in
      match f with
      | Pass => (Ok tt, set_nodes <[p := File (Json v)]> w1)
      | Fail None => (Throw (EIO p), w1)
      | Fail (Some part) => (Throw (EIO p), set_nodes <[p := File (Raw part)]> w1)
      end
  end.

(** [fs.readJsonSync(p)]: throws when the file cannot be read or its
    text does not parse. *)
Definition fs_readJsonSync (p : string) : M World json := λ w,
  match nodes w !! p with
  | None => (Throw (ENOENT p), w)
  | Some (Dir _) => (Throw (EISDIR p), w)
  | Some (File c) =>
      let (f, rest) := next_fault (readFaults w) in
      let w1 := set_readFaults rest w in
      match f, c with
      | Pass, Json v => (Ok v, w1)
      | Pass, Raw _ => (Throw (Error "SyntaxError"), w1)
      | Fail _, _ => (Throw (EIO p), w1)
      end
  end.

(** The chunks a read stream hands to its ['data'] listener. *)
Fixpoint chunks (fuel : nat) (n : nat) (l : list byte) : list (list byte) :=
  match fuel, l with
  | S fuel', _ :: _ => take n l :: chunks fuel' n (drop n l)
  | _, _ => []
  end.

Definition highWaterMark : nat := Z.to_nat 65536.

(** [fs.createReadStream(p)] run to its ['end'] or ['error'] event. *)
Definition fs_readStream (p : string) : M World (list (list byte)) := λ w,
  match nodes w !! p with
  | None => (Throw (ENOENT p), w)
  | Some (Dir _) => (Throw (EISDIR p), w)
  | Some (File c) =>
      let (f, rest) := next_fault (readFaults w) in
      let w1 := set_readFaults rest w in
      match f with
      | Pass => let bs := content_bytes c in (Ok (chunks (length bs) highWaterMark bs), w1)
      | Fail _ => (Throw (EIO p), w1)
      end
  end.

(** [Date.now()], also the time value of [new Date()]. *)
Definition Date_now : M World Z := λ w, (Ok (clock w), w).

(** [Math.random().toString(36).substring(2, 15)] *)
Definition Math_random36 : M World string := λ w, (Ok (random w), w).

(** [emitter.on(name, listener)] of Node's [EventEmitter]. *)
Definition on (name : string) : M World unit := modify (set_listeners (union {[name]})).

(** [emitter.emit(name, ...)] of Node's [EventEmitter]: an ['error'] event
    that no listener is registered for is not delivered, its error is
    thrown; every other event goes to the listeners there are, which are
    taken to return. *)
Definition emit (e : event) : M World unit := λ w,
  match e with
  | ErrorEvent message =>
      if bool_decide ("error" ∈ listeners w) then (Ok tt, push_event e w)
      else (Throw (Error message), w)
  | _ => (Ok tt, push_event e w)
  end.

(** [crypto.createHash('md5')]: the bytes given to [update] so far. *)
Definition Hash := list byte.
Definition createHash : Hash := [].
Definition hash_update (h : Hash) (data : list byte) : Hash := h ++ data.
Definition hash_digest_hex (h : Hash) : string := MD5.hexdigest h.

Fixpoint for_each {S A} (l : list A) (body : A → M S unit) : M S unit :=
  match l with
  | [] => mret tt
  | x :: l' => body x;; for_each l' body
  end.

(** ** BackupManager (src/main.js) *)

Record BackupManager := mkBackupManager {
  backupPath : string;
  maxBackups : Z
}.

Definition metadataFile (self : BackupManager) : string :=
  path_join (backupPath self) "metadata.json".

Definition emptyLedger : json := JLedger [].

Definition ensureBackupDir (self : BackupManager) : M World unit :=
  try_catch
    (dirExists ← fs_existsSync (backupPath self);
     (if negb dirExists then fs_mkdirSync (backupPath self) else mret tt);;
     metaExists ← fs_existsSync (metadataFile self);
     if negb metaExists then fs_writeJsonSync (metadataFile self) emptyLedger
     else mret tt)
    (λ error, throw error).

(** [new BackupManager(backupPath)] *)
Definition newBackupManager (path : string) : M World BackupManager :=
  let self := mkBackupManager path 50 in
  ensureBackupDir self;; mret self.

Definition setMaxBackups (self : BackupManager) (max : Z) : BackupManager :=
  mkBackupManager (backupPath self) max.

Definition getMetadata (self : BackupManager) : M World json :=
  try_catch
    (metaExists ← fs_existsSync (metadataFile self);
     if (metaExists : bool) then fs_readJsonSync (metadataFile self)
     else mret emptyLedger)
    (λ _, mret emptyLedger).

Definition generateBackupId : M World string :=
  now ← Date_now;
  rnd ← Math_random36;
  mret ("backup_" +:+ pretty now +:+ "_" +:+ rnd).

Definition calculateFileHash (filePath : string) : M World string :=
  data ← fs_readStream filePath;
  mret (hash_digest_hex (fold_left hash_update data createHash)).

(** The comparator [(a, b) => new Date(b.timestamp) - new Date(a.timestamp)]. *)
Definition newestFirst (a b : BackupInfo) : Z := timestamp b - timestamp a.

(** [cleanupOldBackups(metadata)]: takes [metadata.backups] and returns
    what the call leaves in it. *)
Definition cleanupOldBackups (self : BackupManager) (backups : list BackupInfo)
  : M World (list BackupInfo) :=
  if Z.of_nat (length backups) <=? maxBackups self then mret backups else
  let sorted := js_sort newestFirst backups in
  let backupsToDelete := js_slice_from sorted (maxBackups self) in
  let backupsToKeep := js_slice sorted 0 (maxBackups self) in
  for_each backupsToDelete (λ backup,
    let backupFilePath := path_join (backupPath self) (backupFileName backup) in
    try_catch
      (fileExists ← fs_existsSync backupFilePath;
       if (fileExists : bool) then fs_removeSync backupFilePath else mret tt)
      (λ _, mret tt));;
  mret backupsToKeep.

(** [createBackup(sourceFilePath)]: the record, or [None] for [null]. A
    [metadata] without an array [backups] makes [push] throw. *)
Definition createBackup (self : BackupManager) (sourceFilePath : string)
  : M World (option BackupInfo) :=
  try_catch
    (sourceExists ← fs_existsSync sourceFilePath;
     if negb sourceExists then throw (Error "source file does not exist") else
     statsSize ← fs_statSync sourceFilePath;
     timestamp ← Date_now;
     backupId ← generateBackupId;
     let fileName := path_basename sourceFilePath in
     let backupFileName := backupId +:+ "_" +:+ fileName in
     let backupFilePath := path_join (backupPath self) backupFileName in
     ensureBackupDir self;;
     fs_copy sourceFilePath backupFilePath;;
     copied ← fs_existsSync backupFilePath;
     if negb copied then throw (Error "copy failed, backup file missing") else
     fileHash ← calculateFileHash sourceFilePath;
     metadata ← getMetadata self;
     match metadata with
     | JOther _ => throw TypeErr
     | JLedger backups =>
         let isDuplicate :=
           match last backups with
           | Some lastBackup => bool_decide (hash lastBackup = fileHash)
           | None => false
           end in
         let backupInfo :=
           mkBackupInfo backupId fileName backupFileName timestamp statsSize
                        fileHash sourceFilePath None in
         backups' ← cleanupOldBackups self (backups ++ [backupInfo]);
         fs_writeJsonSync (metadataFile self) (JLedger backups');;
         metaExists ← fs_existsSync (metadataFile self);
         (if (metaExists : bool) then
            saved ← fs_readJsonSync (metadataFile self);
            match saved with
            | JLedger _ => mret tt
            | JOther _ => throw TypeErr
            end
          else throw (Error "metadata file was not saved"));;
         (if isDuplicate then
            try_catch (fs_removeSync backupFilePath) (λ _, mret tt)
          else mret tt);;
         mret (Some backupInfo)
     end)
    (λ _, mret None).

(** [getBackupList()] *)
Definition getBackupList (self : BackupManager) : M World (list BackupInfo) :=
  try_catch
    (metadata ← getMetadata self;
     match metadata with
     | JLedger backups => mret (js_sort newestFirst backups)
     | JOther _ => throw TypeErr
     end)
    (λ _, mret []).

(** [restoreBackup(backupId, targetPath)] *)
Definition restoreBackup (self : BackupManager) (backupId targetPath : string)
  : M World bool :=
  try_catch
    (metadata ← getMetadata self;
     match metadata with
     | JOther _ => throw TypeErr
     | JLedger backups =>
         match find (λ b, bool_decide (id b = backupId)) backups with
         | None => throw (Error "backup does not exist")
         | Some backup =>
             let backupFilePath := path_join (backupPath self) (backupFileName backup) in
             archived ← fs_existsSync backupFilePath;
             if negb archived then throw (Error "backup file does not exist") else
             targetExists ← fs_existsSync targetPath;
             (if (targetExists : bool) then
                let tempBackupPath := targetPath +:+ ".temp_backup" in
                fs_copy targetPath tempBackupPath;;
                try_catch
                  (fs_copy backupFilePath targetPath;;
                   fs_removeSync tempBackupPath)
                  (λ error,
                     fs_copy tempBackupPath targetPath;;
                     fs_removeSync tempBackupPath;;
                     throw error)
              else
                let targetDir := path_dirname targetPath in
                dirExists ← fs_existsSync targetDir;
                (if negb dirExists then fs_mkdirSync targetDir else mret tt);;
                fs_copy backupFilePath targetPath);;
             mret true
         end
     end)
    (λ _, mret false).

(** [deleteBackup(backupId)] *)
Definition deleteBackup (self : BackupManager) (backupId : string) : M World bool :=
  try_catch
    (metadata ← getMetadata self;
     match metadata with
     | JOther _ => throw TypeErr
     | JLedger backups =>
         match list_find (λ b, id b = backupId) backups with
         | None => mret false
         | Some (backupIndex, backup) =>
             let backupFilePath := path_join (backupPath self) (backupFileName backup) in
             fileExists ← fs_existsSync backupFilePath;
             (if (fileExists : bool) then fs_removeSync backupFilePath else mret tt);;
             fs_writeJsonSync (metadataFile self) (JLedger (delete backupIndex backups));;
             mret true
         end
     end)
    (λ _, mret false).

(** ** BackupManager: the other methods *)

(** [getBackupInfo(backupId)]: the record, or [None] for [null]. There
    is no [try] around it: a ledger without an array [backups] ends in a
    [TypeError]. *)
Definition getBackupInfo (self : BackupManager) (backupId : string)
  : M World (option BackupInfo) :=
  metadata ← getMetadata self;
  match metadata with
  | JOther _ => throw TypeErr
  | JLedger backups => mret (find (λ b, bool_decide (id b = backupId)) backups)
  end.

Record BackupStats := mkBackupStats {
  totalBackups : nat;
  totalSize : Z;
  oldestBackup : option Z;
  newestBackup : option Z
}.

(** [Math.min(...l)] and [Math.max(...l)] of an array that is not empty. *)
Definition Math_min (l : list Z) : option Z :=
  match l with
  | [] => None
  | x :: l' => Some (fold_left Z.min l' x)
  end.

Definition Math_max (l : list Z) : option Z :=
  match l with
  | [] => None
  | x :: l' => Some (fold_left Z.max l' x)
  end.

(** [getBackupStats()], without a [try] as well. *)
Definition getBackupStats (self : BackupManager) : M World BackupStats :=
  metadata ← getMetadata self;
  match metadata with
  | JOther _ => throw TypeErr
  | JLedger backups =>
      mret (mkBackupStats
              (length backups)
              (fold_left (λ sum backup, sum + size backup) backups 0)
              (Math_min (timestamp <$> backups))
              (Math_max (timestamp <$> backups)))
  end.

Definition set_screenshot (v : option string) (r : BackupInfo) : BackupInfo :=
  mkBackupInfo (id r) (originalFileName r) (backupFileName r) (timestamp r) (size r)
               (hash r) (originalPath r) v.

(** [updateBackupScreenshot(backupId, screenshotPath)]: the record that
    [find] returns is changed in place, in the ledger that is written. *)
Definition updateBackupScreenshot (self : BackupManager) (backupId screenshotPath : string)
  : M World bool :=
  try_catch
    (metadata ← getMetadata self;
     match metadata with
     | JOther _ => throw TypeErr
     | JLedger backups =>
         match list_find (λ b, id b = backupId) backups with
         | Some (backupIndex, backup) =>
             fs_writeJsonSync (metadataFile self)
               (JLedger (<[backupIndex := set_screenshot (Some screenshotPath) backup]>
                           backups));;
             mret true
         | None => mret false
         end
     end)
    (λ _, mret false).

(** ** SaveMonitor (src/utils/configManager.js) *)

Record SaveMonitor := mkSaveMonitor {
  saveFilePath : string;
  backupManager : BackupManager;
  watcher : option nat;
  isMonitoring : bool;
  lastHash : option string;
  checkInterval : option nat;
  debounceTimeout : option nat;
  debounceDelay : Z
}.

(** [new SaveMonitor(saveFilePath, backupManager)] *)
Definition newSaveMonitor (path : string) (mgr : BackupManager) : SaveMonitor :=
  mkSaveMonitor path mgr None false None None None 1000.

(** A monitor object together with the environment it runs in. *)
Record Session := mkSession {
  monitor : SaveMonitor;
  world : World
}.

Definition liftW {A} (m : M World A) : M Session A := λ s,
  let (r, w') := m (world s) in (r, mkSession (monitor s) w').

Definition this : M Session SaveMonitor := λ s, (Ok (monitor s), s).

Definition update_this (f : SaveMonitor → SaveMonitor) : M Session unit :=
  modify (λ s, mkSession (f (monitor s)) (world s)).

Definition set_watcher (v : option nat) (m : SaveMonitor) : SaveMonitor :=
  mkSaveMonitor (saveFilePath m) (backupManager m) v (isMonitoring m) (lastHash m)
                (checkInterval m) (debounceTimeout m) (debounceDelay m).

Definition set_isMonitoring (v : bool) (m : SaveMonitor) : SaveMonitor :=
  mkSaveMonitor (saveFilePath m) (backupManager m) (watcher m) v (lastHash m)
                (checkInterval m) (debounceTimeout m) (debounceDelay m).

Definition set_lastHash (v : option string) (m : SaveMonitor) : SaveMonitor :=
  mkSaveMonitor (saveFilePath m) (backupManager m) (watcher m) (isMonitoring m) v
                (checkInterval m) (debounceTimeout m) (debounceDelay m).

Definition set_checkInterval (v : option nat) (m : SaveMonitor) : SaveMonitor :=
  mkSaveMonitor (saveFilePath m) (backupManager m) (watcher m) (isMonitoring m) (lastHash m)
                v (debounceTimeout m) (debounceDelay m).

Definition set_debounceTimeout (v : option nat) (m : SaveMonitor) : SaveMonitor :=
  mkSaveMonitor (saveFilePath m) (backupManager m) (watcher m) (isMonitoring m) (lastHash m)
                (checkInterval m) v (debounceDelay m).

(** [chokidar.watch(path, ...)]: a new open watcher. *)
Definition chokidar_watch : M World nat := λ w,
  let h := nextHandle w in
  (Ok h, set_nextHandle (S h) (set_watchers (union {[h]}) w)).

Definition watcher_close (h : nat) : M World unit :=
  modify (set_watchers (λ ws, ws ∖ {[h]})).

(** [setInterval] and [setTimeout]: a new pending timer. *)
Definition setTimer : M World nat := λ w,
  let h := nextHandle w in
  (Ok h, set_nextHandle (S h) (set_timers (union {[h]}) w)).

(** [clearInterval] and [clearTimeout] *)
Definition clearTimer (h : nat) : M World unit :=
  modify (set_timers (λ ts, ts ∖ {[h]})).

Module Monitor.

Definition calculateFileHash (filePath : string) : M World string :=
  data ← fs_readStream filePath;
  mret (hash_digest_hex (fold_left hash_update data createHash)).

Definition createBackupIfNeeded : M Session bool :=
  try_catch
    (self ← this;
     statsSize ← liftW (fs_statSync (saveFilePath self));
     if statsSize <? 1 then mret false else
     backupInfo ← liftW (createBackup (backupManager self) (saveFilePath self));
     match backupInfo with
     | Some info =>
         liftW (emit (BackupCreated (id info) (timestamp info) (size info)
                                    (hash info) (saveFilePath self)));;
         mret true
     | None => mret false
     end)
    (λ error,
       liftW (emit (ErrorEvent ("backup creation failed: " +:+ exn_message error)));;
       mret false).

Definition checkFileChanges : M Session unit :=
  try_catch
    (self ← this;
     fileExists ← liftW (fs_existsSync (saveFilePath self));
     if negb fileExists then
       liftW (emit (ErrorEvent "save file was deleted or moved"))
     else
       currentHash ← liftW (calculateFileHash (saveFilePath self));
       self ← this;
       if negb (bool_decide (Some currentHash = lastHash self)) then
         update_this (set_lastHash (Some currentHash));;
         backupResult ← createBackupIfNeeded;
         (if (backupResult : bool) then mret tt else mret tt)
       else mret tt)
    (λ error,
       liftW (emit (ErrorEvent ("file check failed: " +:+ exn_message error)))).

Definition handleFileChange : M Session unit :=
  self ← this;
  match debounceTimeout self with
  | Some t => liftW (clearTimer t)
  | None => mret tt
  end;;
  t ← liftW setTimer;
  update_this (set_debounceTimeout (Some t)).

Definition start : M Session bool :=
  self ← this;
  if isMonitoring self then mret false else
  try_catch
    (fileExists ← liftW (fs_existsSync (saveFilePath self));
     if negb fileExists then throw (Error "save file does not exist") else
     initial ← liftW (calculateFileHash (saveFilePath self));
     update_this (set_lastHash (Some initial));;
     w ← liftW chokidar_watch;
     update_this (set_watcher (Some w));;
     t ← liftW setTimer;
     update_this (set_checkInterval (Some t));;
     update_this (set_isMonitoring true);;
     liftW (emit (MonitoringStarted (saveFilePath self)));;
     createBackupIfNeeded;;
     mret true)
    (λ error, liftW (emit (ErrorEvent (exn_message error)));; mret false).

Definition stop : M Session bool :=
  self ← this;
  if negb (isMonitoring self) then mret false else
  match watcher self with
  | Some w => liftW (watcher_close w);; update_this (set_watcher None)
  | None => mret tt
  end;;
  match checkInterval self with
  | Some t => liftW (clearTimer t);; update_this (set_checkInterval None)
  | None => mret tt
  end;;
  match debounceTimeout self with
  | Some t => liftW (clearTimer t);; update_this (set_debounceTimeout None)
  | None => mret tt
  end;;
  update_this (set_isMonitoring false);;
  liftW (emit MonitoringStopped);;
  mret true.

Definition forceCheck : M Session bool :=
  self ← this;
  if isMonitoring self then checkFileChanges;; mret true else mret false.

Definition forceBackup : M Session bool :=
  self ← this;
  if isMonitoring self then
    try_catch
      (backupResult ← createBackupIfNeeded;
       if (backupResult : bool) then mret true else mret true)
      (λ _, mret false)
  else mret false.

End Monitor.

(** ** ConfigManager (src/utils/configManager.js) *)

Module Config.

(** The JavaScript values a configuration holds; the properties of an
    object are kept in their order. *)
Inductive jsval :=
| VUndefined
| VNull
| VBool (b : bool)
| VNum (n : Z)
| VNaN
| VStr (s : string)
| VObj (fields : jsfields)
with jsfields :=
| FNil
| FCons (key : string) (value : jsval) (rest : jsfields).

(** A configuration object, by property name. *)
Abbreviation settings := (gmap string jsval).

Scheme jsval_mutual := Induction for jsval Sort Prop
  with jsfields_mutual := Induction for jsfields Sort Prop.

(** [!v] is [negb (truthy v)]. *)
Definition truthy (v : jsval) : bool :=
  match v with
  | VUndefined | VNull | VNaN => false
  | VBool b => b
  | VNum n => negb (n =? 0)
  | VStr EmptyString => false
  | VStr _ => true
  | VObj _ => true
  end.

(** [obj.key]: a missing property reads as [undefined]. *)
Definition prop (obj : settings) (key : string) : jsval :=
  default VUndefined (obj !! key).

(** [{ ...a, ...b }]: the properties of [b] win. *)
Definition spread (a b : settings) : settings := b ∪ a.

(** What is left of a property value once it has gone through
    [JSON.stringify] and [JSON.parse]: [undefined] drops the property,
    [NaN] becomes [null]. *)
Fixpoint reparse_value (v : jsval) : option jsval :=
  match v with
  | VUndefined => None
  | VNaN => Some VNull
  | VObj fields => Some (VObj (reparse_fields fields))
  | _ => Some v
  end
with reparse_fields (l : jsfields) : jsfields :=
  match l with
  | FNil => FNil
  | FCons k x l' =>
      match reparse_value x with
      | Some y => FCons k y (reparse_fields l')
      | None => reparse_fields l'
      end
  end.

Definition reparse (obj : settings) : settings := omap reparse_value obj.

(** Every property has a value that is its own JSON reading. *)
Definition settled (cfg : settings) : Prop :=
  ∀ k v, cfg !! k = Some v → reparse_value v = Some v.

(** The configuration file: text that is not JSON, the text of an
    object (kept as the object that was written), or the text of [null], a
    number or a boolean, whose spread has no property. *)
Inductive cfile :=
| CText (bytes : list byte)
| CObject (obj : settings)
| CScalar.

(** The configuration directory and the file in it, with the faults
    the next I/O calls are going to meet. *)
Record Disk := mkDisk {
  dirPresent : bool;
  file : option cfile;
  mkdirFaults : list fault;
  cfgWriteFaults : list fault;
  cfgRemoveFaults : list fault;
  cfgReadFaults : list fault
}.

Record ConfigManager := mkConfigManager {
  configDir : string
}.

Definition configFile (self : ConfigManager) : string :=
  path_join (configDir self) "config.json".

Definition defaultConfig : settings :=
  list_to_map
    [ ("saveFilePath", VStr EmptyString);
      ("backupPath", VStr EmptyString);
      ("maxBackups", VNum 50);
      ("autoStart", VBool false);
      ("autoStartMonitoring", VBool false);
      ("minimizeToTray", VBool true);
      ("checkInterval", VNum 5000);
      ("firstRun", VBool true);
      ("windowState",
       VObj (FCons "width" (VNum 1000) (FCons "height" (VNum 700)
               (FCons "x" VNull (FCons "y" VNull FNil))))) ].
Arguments defaultConfig : simpl never.

Definition existsDir : M Disk bool := λ d, (Ok (dirPresent d), d).

Definition existsFile : M Disk bool := λ d, (Ok (bool_decide (is_Some (file d))), d).

(** [fs.mkdirSync(configDir, { recursive: true })] *)
Definition mkdirSync (self : ConfigManager) : M Disk unit := λ d,
  let (f, rest) := next_fault (mkdirFaults d) in
  let d1 := mkDisk (dirPresent d) (file d) rest (cfgWriteFaults d) (cfgRemoveFaults d)
                   (cfgReadFaults d) in
  match f with
  | Pass => (Ok tt, mkDisk true (file d) rest (cfgWriteFaults d) (cfgRemoveFaults d)
                           (cfgReadFaults d))
  | Fail _ => (Throw (EIO (configDir self)), d1)
  end.

(** [fs.readJsonSync(configFile)], spread: the properties of the value
    that was parsed. *)
Definition readJsonSync (self : ConfigManager) : M Disk settings := λ d,
  match file d with
  | None => (Throw (ENOENT (configFile self)), d)
  | Some c =>
      let (f, rest) := next_fault (cfgReadFaults d) in
      let d1 := mkDisk (dirPresent d) (file d) (mkdirFaults d) (cfgWriteFaults d)
                       (cfgRemoveFaults d) rest in
      match f, c with
      | Pass, CObject obj => (Ok (reparse obj), d1)
      | Pass, CScalar => (Ok ∅, d1)
      | Pass, CText _ => (Throw (Error "SyntaxError"), d1)
      | Fail _, _ => (Throw (EIO (configFile self)), d1)
      end
  end.

(** [fs.writeJsonSync(configFile, obj, { spaces: 2 })] *)
Definition writeJsonSync (self : ConfigManager) (obj : settings) : M Disk unit := λ d,
  if negb (dirPresent d) then (Throw (ENOENT (configFile self)), d) else
  let (f, rest) := next_fault (cfgWriteFaults d) in
  let put c := mkDisk (dirPresent d) c (mkdirFaults d) rest (cfgRemoveFaults d)
                      (cfgReadFaults d) in
  match f with
  | Pass => (Ok tt, put (Some (CObject obj)))
  | Fail None => (Throw (EIO (configFile self)), put (file d))
  | Fail (Some part) => (Throw (EIO (configFile self)), put (Some (CText part)))
  end.

(** [fs.removeSync(configFile)] *)
Definition removeSync (self : ConfigManager) : M Disk unit := λ d,
  let (f, rest) := next_fault (cfgRemoveFaults d) in
  let put c := mkDisk (dirPresent d) c (mkdirFaults d) (cfgWriteFaults d) rest
                      (cfgReadFaults d) in
  match f with
  | Pass => (Ok tt, put None)
  | Fail _ => (Throw (EIO (configFile self)), put (file d))
  end.

Definition getConfig (self : ConfigManager) : M Disk settings :=
  try_catch
    (fileExists ← existsFile;
     if (fileExists : bool) then
       config ← readJsonSync self;
       mret (spread defaultConfig config)
     else mret defaultConfig)
    (λ _, mret defaultConfig).

Definition saveConfig (self : ConfigManager) (config : settings) : M Disk bool :=
  try_catch
    (currentConfig ← getConfig self;
     let newConfig := spread currentConfig config in
     writeJsonSync self newConfig;;
     mret true)
    (λ _, mret false).

Definition updateConfig (self : ConfigManager) (updates : settings) : M Disk bool :=
  currentConfig ← getConfig self;
  let newConfig := spread currentConfig updates in
  saveConfig self newConfig.

Definition resetConfig (self : ConfigManager) : M Disk bool :=
  try_catch
    (removeSync self;;
     saveConfig self defaultConfig;;
     mret true)
    (λ _, mret false).

Definition isFirstRun (self : ConfigManager) : M Disk jsval :=
  config ← getConfig self;
  mret (prop config "firstRun").

Definition setFirstRunComplete (self : ConfigManager) : M Disk bool :=
  updateConfig self {[ "firstRun" := VBool false ]}.

Definition getBackupPath (self : ConfigManager) : M Disk jsval :=
  config ← getConfig self;
  if negb (truthy (prop config "backupPath")) then
    let defaultPath := path_join (configDir self) "backups" in
    updateConfig self {[ "backupPath" := VStr defaultPath ]};;
    mret (VStr defaultPath)
  else mret (prop config "backupPath").

Definition ensureConfigExists (self : ConfigManager) : M Disk unit :=
  try_catch
    (dirExists ← existsDir;
     (if negb dirExists then mkdirSync self else mret tt);;
     fileExists ← existsFile;
     if negb fileExists then saveConfig self defaultConfig;; mret tt else mret tt)
    (λ _, mret tt).

(** [new ConfigManager()], for the home directory [homedir]. *)
Definition newConfigManager (homedir : string) : M Disk ConfigManager :=
  let self := mkConfigManager (path_join homedir ".gamesave-manager") in
  ensureConfigExists self;; mret self.

End Config.

(** * Notions used in the statements *)

(** [a] is at least as new as [b]. *)
Definition notOlder (a b : BackupInfo) : Prop := timestamp b ≤ timestamp a.

(** The path of the archive file of a record. *)
Definition archivePath (self : BackupManager) (r : BackupInfo) : string :=
  path_join (backupPath self) (backupFileName r).

(** [fs.statSync(p).size] for a node. *)
Definition node_size (n : node) : Z :=
  match n with
  | File c => Z.of_nat (length (content_bytes c))
  | Dir sz => sz
  end.

(** No fault is scheduled. *)
Definition fault_free (w : World) : Prop :=
  copyFaults w = [] ∧ writeFaults w = [] ∧ removeFaults w = [] ∧ readFaults w = [].

(** What a handler that ends in [this.emit('error', ...); return a] does
    in the world [w]. *)
Definition reported {A} (message : string) (a : A) (self : SaveMonitor) (w : World)
  : result A * Session :=
  match emit (ErrorEvent message) w with
  | (Ok _, w') => (Ok a, mkSession self w')
  | (Throw e, w') => (Throw e, mkSession self w')
  end.

(** Whether a call returned, rather than threw. *)
Definition returned {A} (r : result A) : bool :=
  match r with
  | Ok _ => true
  | Throw _ => false
  end.

(** The session [s] with another [lastHash]. *)
Definition with_lastHash (h : option string) (s : Session) : Session :=
  mkSession (set_lastHash h (monitor s)) (world s).

(** ** The life of a session *)

(** The calls the application and the runtime make into a monitor: the
    public methods, and the callbacks [start] and [handleFileChange]
    register with the watcher and the timers. *)
Inductive call :=
| CallStart
| CallStop
| CallForceCheck
| CallForceBackup
| WatcherChange
| WatcherUnlink
| PollTick
| DebounceExpiry.

Definition perform (c : call) : M Session unit :=
  match c with
  | CallStart => Monitor.start;; mret tt
  | CallStop => Monitor.stop;; mret tt
  | CallForceCheck => Monitor.forceCheck;; mret tt
  | CallForceBackup => Monitor.forceBackup;; mret tt
  | WatcherChange =>
      self ← this;
      liftW (emit (FileChangeDetected (saveFilePath self)));;
      Monitor.handleFileChange
  | WatcherUnlink => liftW (emit (ErrorEvent "save file was deleted"))
  | PollTick => Monitor.checkFileChanges
  | DebounceExpiry =>
      self ← this;
      match debounceTimeout self with
      | Some t => liftW (clearTimer t)
      | None => mret tt
      end;;
      Monitor.checkFileChanges
  end.

(** A callback runs only while its watcher is open or its timer pending. *)
Definition enabled (c : call) (s : Session) : Prop :=
  match c with
  | WatcherChange | WatcherUnlink =>
      ∃ h, watcher (monitor s) = Some h ∧ h ∈ watchers (world s)
  | PollTick => ∃ h, checkInterval (monitor s) = Some h ∧ h ∈ timers (world s)
  | DebounceExpiry => ∃ h, debounceTimeout (monitor s) = Some h ∧ h ∈ timers (world s)
  | _ => True
  end.

(** The sessions a new monitor can get into: by calls that are made one
    after the other, each when the one before has settled, and by changes
    of the world around it that leave its watchers and timers alone. *)
Inductive reachable : Session → Prop :=
| reachable_new path mgr w :
    watchers w = ∅ → timers w = ∅ →
    reachable (mkSession (newSaveMonitor path mgr) w)
| reachable_call c s :
    reachable s → enabled c s → reachable (snd (perform c s))
| reachable_world s w :
    reachable s →
    watchers w = watchers (world s) → timers w = timers (world s) →
    reachable (mkSession (monitor s) w).

(** The monitor holds no watcher and no timer. *)
Definition idle (m : SaveMonitor) : Prop :=
  watcher m = None ∧ checkInterval m = None ∧ debounceTimeout m = None.

(** Both monitors hold the same handles and agree on [isMonitoring]. *)
Definition same_handles (m m' : SaveMonitor) : Prop :=
  watcher m' = watcher m ∧ checkInterval m' = checkInterval m ∧
  debounceTimeout m' = debounceTimeout m ∧ isMonitoring m' = isMonitoring m.

(** The computation leaves the handles of the monitor as they are. *)
Definition keeps {A} (m : M Session A) : Prop :=
  ∀ s r s', m s = (r, s') → same_handles (monitor s) (monitor s').

(** A monitor that is not running holds no handle. *)
Definition handles_ok (m : SaveMonitor) : Prop :=
  isMonitoring m = false → idle m.

(** ** The watchers and timers of the runtime *)

(** What the runtime keeps for the monitors: the open watchers, the
    pending timers and the next handle. *)
Definition runtime (w : World) : gset nat * gset nat * nat :=
  (watchers w, timers w, nextHandle w).

(** The computation leaves the part [f] of the world as it is. *)
Definition preserves {X A} (f : World → X) (m : M World A) : Prop :=
  ∀ w r w', m w = (r, w') → f w' = f w.

(** The computation opens and closes no watcher and no timer. *)
Definition quiet {A} (m : M World A) : Prop := preserves runtime m.

Definition calm {A} (m : M Session A) : Prop :=
  ∀ s r s', m s = (r, s') → runtime (world s') = runtime (world s).

(** The watchers and the timers a monitor holds a handle of. *)
Definition heldWatchers (m : SaveMonitor) : gset nat :=
  match watcher m with Some h => {[h]} | None => ∅ end.

Definition heldTimers (m : SaveMonitor) : gset nat :=
  match checkInterval m with Some h => {[h]} | None => ∅ end ∪
  match debounceTimeout m with Some h => {[h]} | None => ∅ end.

(** Every open watcher and every pending timer is one the monitor holds
    the handle of. *)
Definition no_leak (s : Session) : Prop :=
  watchers (world s) ⊆ heldWatchers (monitor s) ∧
  timers (world s) ⊆ heldTimers (monitor s).

(** [n] change events in a row, each handled by the callback that
    [start()] registered for the watcher's ['change'] event. *)
Definition burst (n : nat) (s : Session) : Session :=
  Nat.iter n (λ s, snd (perform WatcherChange s)) s.

(** [start()] is asynchronous, and other calls run while it waits. It
    runs without a break up to its first [await]: the guard, the test that
    the save file exists and the call of [calculateFileHash], whose stream
    is read only while the call waits. [start_enter] is that part: it gives
    what [start()] settles with, or [None] when the call now waits for the
    digest. *)
Definition start_enter : M Session (option bool) :=
  self ← this;
  if isMonitoring self then mret (Some false) else
  try_catch
    (fileExists ← liftW (fs_existsSync (saveFilePath self));
     if negb fileExists then throw (Error "save file does not exist") else mret None)
    (λ error, liftW (emit (ErrorEvent (exn_message error)));; mret (Some false)).

(** The rest of [start()]: the stream has been read, the digest
    arrives and the call goes on. The guard is not looked at again. *)
Definition start_resume : M Session bool :=
  self ← this;
  try_catch
    (initial ← liftW (Monitor.calculateFileHash (saveFilePath self));
     update_this (set_lastHash (Some initial));;
     w ← liftW chokidar_watch;
     update_this (set_watcher (Some w));;
     t ← liftW setTimer;
     update_this (set_checkInterval (Some t));;
     update_this (set_isMonitoring true);;
     liftW (emit (MonitoringStarted (saveFilePath self)));;
     Monitor.createBackupIfNeeded;;
     mret true)
    (λ error, liftW (emit (ErrorEvent (exn_message error)));; mret false).

(** * Scenarios *)

Module Scenario.

Definition save : string := "/saves/slot1.sav".
Definition root : string := "/backups".

Definition bytesA : list byte := list_byte_of_string "AAAA".
Definition bytesB : list byte := list_byte_of_string "BBBB".
Definition bytesC : list byte := list_byte_of_string "CCCC".

Definition recordOf (stamp : Z) (tag : string) (bytes : list byte) : BackupInfo :=
  let backupId := "backup_" +:+ pretty stamp +:+ "_" +:+ tag in
  mkBackupInfo backupId "slot1.sav" (backupId +:+ "_slot1.sav") stamp
               (Z.of_nat (length bytes)) (MD5.hexdigest bytes) save None.

Definition recordA : BackupInfo := recordOf 100 "aaaa" bytesA.
Definition recordB : BackupInfo := recordOf 200 "bbbb" bytesB.
Definition recordC : BackupInfo := recordOf 300 "cccc" bytesC.

Definition store (max : Z) : BackupManager := mkBackupManager root max.

Definition archiveOf (r : BackupInfo) (bytes : list byte) : string * node :=
  (archivePath (store 0) r, File (Raw bytes)).

(** A disk with the save file, the archive directory, its ledger and
    some archive files. *)
Definition disk (source : list byte) (ledger : list BackupInfo)
  (archives : list (string * node)) : gmap string node :=
  list_to_map ([(save, File (Raw source)); (root, Dir 0);
                (metadataFile (store 0), File (Json (JLedger ledger)))] ++ archives).

(** A world at time 1000 in which the copies meet the faults [copies]
    and no other I/O call fails. *)
Definition worldOf (n : gmap string node) (copies : list fault) : World :=
  mkWorld n copies [] [] [] 1000 "k3x9" ∅ ∅ 0 ∅ [].

(** A running monitor that last saw the digest [seen]. *)
Definition running (max : Z) (seen : list byte) : SaveMonitor :=
  mkSaveMonitor save (store max) (Some 0%nat) true (Some (MD5.hexdigest seen))
                (Some 1%nat) None 1000.

(** The world a run ends with. *)
Definition worldAfter {A} (r : result A * World) : World := snd r.

Definition fullDisk : gmap string node :=
  disk bytesC [recordA; recordB; recordC]
       [archiveOf recordA bytesA; archiveOf recordB bytesB; archiveOf recordC bytesC].

(** Two records on disk, the source has new content. *)
Definition twoDisk : gmap string node :=
  disk bytesC [recordA; recordB]
       [archiveOf recordA bytesA; archiveOf recordB bytesB].

(** One record on disk, the source still has its content. *)
Definition sameDisk : gmap string node :=
  disk bytesA [recordA] [archiveOf recordA bytesA].

(** One record on disk, the source has been changed to [bytesB]. *)
Definition changedDisk : gmap string node :=
  disk bytesB [recordA] [archiveOf recordA bytesA].

(** An empty source and an empty ledger. *)
Definition emptyDisk : gmap string node := disk [] [] [].

(** The ledger file holds bytes that are not JSON. *)
Definition corruptDisk : gmap string node :=
  <[metadataFile (store 0) := File (Raw bytesA)]> sameDisk.

(** The record of a capture made in [worldOf]. *)
Definition captured (bytes : list byte) : BackupInfo := recordOf 1000 "k3x9" bytes.

Definition twoWorld : World := worldOf twoDisk [].
Definition sameWorld : World := worldOf sameDisk [].
Definition emptyWorld : World := worldOf emptyDisk [].
Definition corruptWorld : World := worldOf corruptDisk [].

Definition partial : list byte := list_byte_of_string "AA".

(** The copy of the archive over the target fails half-way; the copy
    back succeeds in [rollbackWorld] and fails in [brokenWorld]. *)
Definition rollbackWorld : World :=
  worldOf changedDisk [Pass; Fail (Some partial); Pass].
Definition brokenWorld : World :=
  worldOf changedDisk [Pass; Fail (Some partial); Fail None].

(** The worlds a restore goes through in [rollbackWorld]: after the
    ledger is read, after the target is set aside, after the failed copy
    and after the copy back. *)
Definition rollback1 : World := worldAfter (getMetadata (store 2) rollbackWorld).
Definition rollback2 : World :=
  worldAfter (fs_copy save (save +:+ ".temp_backup") rollback1).
Definition rollback3 : World :=
  worldAfter (fs_copy (archivePath (store 2) recordA) save rollback2).
Definition rollback4 : World :=
  worldAfter (fs_copy (save +:+ ".temp_backup") save rollback3).

(** The runtime of a started monitor: watcher 0 and poll timer 1. *)
Definition withHandles (w : World) : World :=
  set_nextHandle 2 (set_timers (λ _, {[1%nat]}) (set_watchers (λ _, {[0%nat]}) w)).

(** A running session whose source changed, and whose next copy fails. *)
Definition failingSession : Session :=
  mkSession (running 2 bytesA) (withHandles (worldOf changedDisk [Fail None])).

(** A running session whose source changed. *)
Definition changedSession : Session :=
  mkSession (running 2 bytesA) (withHandles (worldOf changedDisk [])).

(** A running session whose source is empty. *)
Definition emptySession : Session :=
  mkSession (running 2 []) (withHandles emptyWorld).

(** *** Four saves under a ceiling of two backups *)

Definition bytesD : list byte := list_byte_of_string "DDDD".

(** The session after [m]. *)
Definition after {A} (m : M Session A) (s : Session) : Session := snd (m s).

(** The save file is overwritten at time [now]. *)
Definition saved (now : Z) (rnd : string) (bytes : list byte) (s : Session) : Session :=
  mkSession (monitor s)
            (set_clock now rnd (set_nodes <[save := File (Raw bytes)]> (world s))).

(** A new manager and monitor on a disk that holds only the save file. *)
Definition fresh : Session :=
  mkSession (newSaveMonitor save (store 2))
            (snd (newBackupManager root
                    (worldOf {[ save := File (Raw bytesA) ]} []))).

(** The monitor is started: the first capture is made. *)
Definition started : Session := after Monitor.start fresh.

(** Three changes, each followed by a change signal. *)
Definition story : Session :=
  after Monitor.checkFileChanges (saved 4000 "r4" bytesD
    (after Monitor.checkFileChanges (saved 3000 "r3" bytesC
      (after Monitor.checkFileChanges (saved 2000 "r2" bytesB started))))).

(** The user asks for a backup although nothing has changed. *)
Definition again : Session :=
  after Monitor.forceBackup
        (mkSession (monitor story) (set_clock 5000 "r5" (world story))).

End Scenario.

Import Scenario.

(** * More scenarios *)

Module Cases.

(** The disk of [fullDisk] in a world without faults. *)
Definition fullWorld : World := worldOf fullDisk [].

(** One record on disk, the source has been changed. *)
Definition changedWorld : World := worldOf changedDisk [].

(** The copy of a capture fails after two bytes. *)
Definition failedCopyWorld : World := worldOf changedDisk [Fail (Some partial)].

(** The write of the ledger fails. *)
Definition failedWriteWorld : World :=
  mkWorld sameDisk [] [Fail None] [] [] 1000 "k3x9" ∅ ∅ 0 ∅ [].

(** The stream of the source is read, the read of the ledger fails. *)
Definition flakyWorld : World :=
  mkWorld twoDisk [] [] [] [Pass; Fail None] 1000 "k3x9" ∅ ∅ 0 ∅ [].

(** A ledger whose only record is dated after the clock of [worldOf]. *)
Definition recordF : BackupInfo := recordOf 5000 "ffff" bytesA.

Definition futureWorld : World :=
  worldOf (disk bytesB [recordF] [archiveOf recordF bytesA]) [].

(** Two backups under a ceiling of two; the save file has not changed
    since the second, and the application is started again, twice. *)
Definition restartWorld : World :=
  worldOf (disk bytesB [recordA; recordB]
                [archiveOf recordA bytesA; archiveOf recordB bytesB]) [].

Definition restartedOnce : World := worldAfter (createBackup (store 2) save restartWorld).

Definition restartedTwice : World :=
  worldAfter (createBackup (store 2) save (set_clock 2000 "r2" restartedOnce)).

(** A disk that holds the save file and nothing else. *)
Definition bareWorld : World := worldOf {[ save := File (Raw bytesA) ]} [].

(** A new monitor whose save file is missing. *)
Definition lostSession : Session :=
  mkSession (newSaveMonitor save (store 2)) (worldOf ∅ []).

(** The same, once the application has registered its listener for
    ['error'] events. *)
Definition heardSession : Session := after (liftW (on "error")) lostSession.

(** A running session whose save file has been deleted, without and
    with a listener for ['error'] events. *)
Definition vanishedSession : Session :=
  mkSession (running 2 bytesA) (withHandles (worldOf ∅ [])).

Definition vanishedHeardSession : Session := after (liftW (on "error")) vanishedSession.

Definition home : Config.ConfigManager := Config.mkConfigManager "/home/u/.gamesave-manager".

(** A configuration directory without a file, and one whose file sets
    two of the settings. *)
Definition emptyHome : Config.Disk := Config.mkDisk true None [] [] [] [].

Definition someSettings : gmap string Config.jsval :=
  {[ "maxBackups" := Config.VNum 5; "saveFilePath" := Config.VStr "/saves/slot1.sav" ]}.

Definition usedHome : Config.Disk :=
  Config.mkDisk true (Some (Config.CObject someSettings)) [] [] [] [].

(** The settings a form with an empty number field sends. *)
Definition formSettings : gmap string Config.jsval :=
  {[ "maxBackups" := Config.VNaN; "backupPath" := Config.VStr "/backups" ]}.

End Cases.

Import Cases.

(** * Properties *)

(** ** Sorting and slicing *)

Section JsArrays.
Context {A : Type}.

Lemma js_insert_perm (cmp : A → A → Z) x l : js_insert cmp x l ≡ₚ x :: l.
Proof.
  induction l as [|y l IH]; simpl; [done|].
  destruct (cmp x y <=? 0); [done|].
  rewrite IH. apply perm_swap.
Qed.

Lemma js_sort_perm (cmp : A → A → Z) l : js_sort cmp l ≡ₚ l.
Proof.
  induction l as [|x l IH]; simpl; [done|].
  by rewrite js_insert_perm, IH.
Qed.

Lemma js_sort_length (cmp : A → A → Z) l : length (js_sort cmp l) = length l.
Proof. apply Permutation_length, js_sort_perm. Qed.

Lemma js_index_nonneg (l : list A) k :
  0 ≤ k → js_index l k = (Z.to_nat k `min` length l)%nat.
Proof. intros Hk. unfold js_index. destruct (Z.ltb_spec k 0); lia. Qed.

Lemma js_slice_prefix (l : list A) k :
  0 ≤ k → js_slice l 0 k = take (Z.to_nat k) l.
Proof.
  intros Hk. unfold js_slice.
  rewrite (js_index_nonneg l 0), (js_index_nonneg l k) by lia.
  simpl. rewrite Nat.sub_0_r, drop_0.
  destruct (decide (Z.to_nat k ≤ length l)%nat).
  - by rewrite Nat.min_l by lia.
  - rewrite Nat.min_r by lia.
    rewrite (take_ge l (length l)), (take_ge l (Z.to_nat k)) by lia. done.
Qed.

Lemma js_slice_from_suffix (l : list A) k :
  0 ≤ k → js_slice_from l k = drop (Z.to_nat k) l.
Proof.
  intros Hk. unfold js_slice_from, js_slice.
  rewrite (js_index_nonneg l k), (js_index_nonneg l (Z.of_nat (length l))) by lia.
  rewrite Nat2Z.id, Nat.min_id.
  destruct (decide (Z.to_nat k ≤ length l)%nat).
  - rewrite Nat.min_l by lia. apply take_ge. rewrite length_drop. lia.
  - rewrite Nat.min_r by lia. rewrite !drop_ge by lia. by rewrite take_nil.
Qed.

Lemma js_slice_split (l : list A) k :
  0 ≤ k → js_slice l 0 k ++ js_slice_from l k = l.
Proof.
  intros Hk. rewrite js_slice_prefix, js_slice_from_suffix by done.
  apply take_drop.
Qed.

End JsArrays.

Lemma js_insert_newestFirst_sorted x l :
  StronglySorted notOlder l → StronglySorted notOlder (js_insert newestFirst x l).
Proof.
  induction 1 as [|y l Hl IH Hy]; simpl.
  - repeat constructor.
  - unfold newestFirst at 1. destruct (Z.leb_spec (timestamp y - timestamp x) 0).
    + constructor; [by constructor|].
      constructor; [unfold notOlder; lia|].
      eapply Forall_impl; [exact Hy|]. unfold notOlder. intros; lia.
    + constructor; [done|].
      rewrite js_insert_perm. constructor; [unfold notOlder; lia|done].
Qed.

Lemma js_sort_newestFirst_sorted l :
  StronglySorted notOlder (js_sort newestFirst l).
Proof.
  induction l; simpl; [constructor|]. by apply js_insert_newestFirst_sorted.
Qed.

(** ** Running computations *)

Section Running.
Context {S : Type}.

Lemma bind_ok {A B} (m : M S A) (f : A → M S B) s b s' :
  (m ≫= f) s = (Ok b, s') → ∃ a s1, m s = (Ok a, s1) ∧ f a s1 = (Ok b, s').
Proof.
  unfold mbind, M_bind. destruct (m s) as [[a|e] s1]; [eauto|discriminate].
Qed.

Lemma bind_run {A B} (m : M S A) (f : A → M S B) s a s1 :
  m s = (Ok a, s1) → (m ≫= f) s = f a s1.
Proof. unfold mbind, M_bind. by intros ->. Qed.

Lemma bind_throw {A B} (m : M S A) (f : A → M S B) s e s1 :
  m s = (Throw e, s1) → (m ≫= f) s = (Throw e, s1).
Proof. unfold mbind, M_bind. by intros ->. Qed.

Lemma try_catch_run {A} (body : M S A) handler s a s1 :
  body s = (Ok a, s1) → try_catch body handler s = (Ok a, s1).
Proof. unfold try_catch. by intros ->. Qed.

Lemma try_catch_throw {A} (body : M S A) handler s e s1 :
  body s = (Throw e, s1) → try_catch body handler s = handler e s1.
Proof. unfold try_catch. by intros ->. Qed.

End Running.

Tactic Notation "inv_bind" hyp(H) "as" simple_intropattern(a) ident(s) ident(Hs) :=
  apply bind_ok in H as (a & s & Hs & H).

Tactic Notation "run_step" "by" tactic3(tac) :=
  erewrite bind_run by tac; cbn beta iota.

(** ** Eviction *)

(** The loop of [cleanupOldBackups] never throws, touches only the
    archive files of the records it is given and, when no removal
    fails, leaves none of them. *)
Lemma evict_loop self (l : list BackupInfo) w :
  ∃ n' rf',
    for_each l (λ backup,
      let backupFilePath := path_join (backupPath self) (backupFileName backup) in
      try_catch
        (fileExists ← fs_existsSync backupFilePath;
         if (fileExists : bool) then fs_removeSync backupFilePath else mret tt)
        (λ _, mret tt)) w
    = (Ok tt, set_removeFaults rf' (set_nodes (λ _, n') w)) ∧
    (∀ p, p ∉ archivePath self <$> l → n' !! p = nodes w !! p) ∧
    (∀ p, n' !! p = None ∨ n' !! p = nodes w !! p) ∧
    (removeFaults w = [] →
       rf' = [] ∧ ∀ p, p ∈ archivePath self <$> l → n' !! p = None).
Proof.
  revert w. induction l as [|b l IH]; intros w.
  - exists (nodes w), (removeFaults w). split; [by destruct w|].
    split; [done|]. split; [by right|]. intros Hrf. split; [done|].
    intros p Hp. by apply elem_of_nil in Hp.
  - cbn [for_each].
    set (p0 := path_join (backupPath self) (backupFileName b)).
    assert (∃ n1 rf1,
      try_catch
        (fileExists ← fs_existsSync p0;
         if (fileExists : bool) then fs_removeSync p0 else mret tt)
        (λ _, mret tt) w = (Ok tt, set_removeFaults rf1 (set_nodes (λ _, n1) w)) ∧
      (∀ p, p ≠ p0 → n1 !! p = nodes w !! p) ∧
      (∀ p, n1 !! p = None ∨ n1 !! p = nodes w !! p) ∧
      (removeFaults w = [] → rf1 = [] ∧ n1 !! p0 = None)) as (n1 & rf1 & Hrun & Hother & Hmono & Hgone).
    { unfold try_catch, mbind, M_bind, fs_existsSync, fs_removeSync.
      destruct (bool_decide (is_Some (nodes w !! p0))) eqn:Hex.
      - destruct (removeFaults w) as [|[|part] rf] eqn:Hrf; cbn.
        + exists (delete p0 (nodes w)), []. destruct w; cbn in *. subst.
          split; [done|]. split; [intros; by rewrite lookup_delete_ne|].
          split; [|by rewrite lookup_delete_eq].
          intros p. destruct (decide (p0 = p)) as [-> |];
            [left; apply lookup_delete_eq|right; by rewrite lookup_delete_ne].
        + exists (delete p0 (nodes w)), rf. destruct w; cbn in *. subst.
          split; [done|]. split; [intros; by rewrite lookup_delete_ne|].
          split; [|done].
          intros p. destruct (decide (p0 = p)) as [-> |];
            [left; apply lookup_delete_eq|right; by rewrite lookup_delete_ne].
        + exists (nodes w), rf. destruct w; cbn in *. subst.
          split; [done|]. split; [done|]. split; [by right|done].
      - exists (nodes w), (removeFaults w). split; [by destruct w|].
        split; [done|]. split; [by right|]. intros Hrf. split; [done|].
        apply bool_decide_eq_false in Hex.
        destruct (nodes w !! p0) eqn:E; [|done]. exfalso. apply Hex. eauto. }
    destruct (IH (set_removeFaults rf1 (set_nodes (λ _, n1) w)))
      as (n2 & rf2 & Hrun2 & Hother2 & Hmono2 & Hgone2).
    exists n2, rf2. split.
    { erewrite bind_run by exact Hrun. etrans; [exact Hrun2|]. by destruct w. }
    cbn in Hother2, Hmono2, Hgone2.
    split; [|split].
    + intros p Hp. rewrite fmap_cons, not_elem_of_cons in Hp. destruct Hp as [Hp0 Hp].
      rewrite Hother2 by done. by apply Hother.
    + intros p. destruct (Hmono2 p) as [-> | ->]; [by left|apply Hmono].
    + intros Hrf. destruct (Hgone Hrf) as [-> Hp0]. destruct (Hgone2 eq_refl) as [-> Hl].
      split; [done|]. intros p Hp. rewrite fmap_cons, elem_of_cons in Hp.
      destruct Hp as [-> | Hp]; [|by apply Hl].
      destruct (Hmono2 (archivePath self b)) as [-> | ->]; [done|exact Hp0].
Qed.

(** C1. Eviction ([cleanupOldBackups]) for a retention ceiling
    [maxBackups >= 0]: a ledger of at most [maxBackups] records is left
    as it is, and so is the world. A longer ledger is split into the
    records kept and the records removed: together they are the old
    ledger, exactly [maxBackups] records are kept, every kept record is at
    least as new as every removed one, no file other than the archive files
    of the removed records is touched, and when no removal fails none of
    these archive files is left. In both cases at most [maxBackups] records
    remain. *)
Theorem cleanupOldBackups_retention self backups w :
  0 ≤ maxBackups self →
  ∃ kept removed w',
    cleanupOldBackups self backups w = (Ok kept, w') ∧
    kept ++ removed ≡ₚ backups ∧
    (Z.of_nat (length backups) ≤ maxBackups self →
       kept = backups ∧ removed = [] ∧ w' = w) ∧
    (maxBackups self < Z.of_nat (length backups) →
       Z.of_nat (length kept) = maxBackups self) ∧
    Z.of_nat (length kept) ≤ maxBackups self ∧
    (∀ k d, k ∈ kept → d ∈ removed → timestamp d ≤ timestamp k) ∧
    (∀ p, p ∉ archivePath self <$> removed → nodes w' !! p = nodes w !! p) ∧
    (removeFaults w = [] →
       ∀ d, d ∈ removed → nodes w' !! archivePath self d = None).
Proof.
  intros Hmax. unfold cleanupOldBackups.
  destruct (Z.leb_spec (Z.of_nat (length backups)) (maxBackups self)) as [Hle|Hgt].
  - exists backups, [], w. rewrite app_nil_r.
    repeat split; try done; try lia.
    + intros k d _ Hd. by apply elem_of_nil in Hd.
    + intros _ d Hd. by apply elem_of_nil in Hd.
  - set (sorted := js_sort newestFirst backups).
    destruct (evict_loop self (js_slice_from sorted (maxBackups self)) w)
      as (n' & rf' & Hrun & Hother & _ & Hgone).
    exists (js_slice sorted 0 (maxBackups self)),
           (js_slice_from sorted (maxBackups self)),
           (set_removeFaults rf' (set_nodes (λ _, n') w)).
    assert (Hlen : Z.of_nat (length (js_slice sorted 0 (maxBackups self)))
                   = maxBackups self).
    { rewrite js_slice_prefix by done. rewrite length_take.
      unfold sorted. rewrite js_sort_length. lia. }
    split; [by erewrite bind_run by exact Hrun|].
    split; [rewrite js_slice_split by done; apply js_sort_perm|].
    split; [lia|]. split; [done|]. split; [lia|].
    split; [|split].
    + intros k d Hk Hd.
      pose proof (js_sort_newestFirst_sorted backups) as Hs. fold sorted in Hs.
      rewrite <- (js_slice_split sorted (maxBackups self)) in Hs by done.
      eapply (StronglySorted_app_1_elem_of notOlder); eauto.
    + intros p Hp. cbn. by apply Hother.
    + intros Hrf d Hd. cbn. apply (Hgone Hrf). by apply list_elem_of_fmap_2.
Qed.

Lemma cleanupOldBackups_retention_witness :
  0 ≤ maxBackups (store 2) ∧
  ∃ kept removed w',
    cleanupOldBackups (store 2) [recordA; recordB; recordC] (worldOf fullDisk [])
    = (Ok kept, w') ∧
    kept ++ removed ≡ₚ [recordA; recordB; recordC] ∧
    Z.of_nat (length kept) ≤ 2 ∧
    (∀ k d, k ∈ kept → d ∈ removed → timestamp d ≤ timestamp k) ∧
    (∀ d, d ∈ removed → nodes w' !! archivePath (store 2) d = None).
Proof.
  split; [vm_compute; discriminate|].
  destruct (cleanupOldBackups_retention (store 2) [recordA; recordB; recordC]
              (worldOf fullDisk []))
    as (kept & removed & w' & Hrun & Hperm & _ & _ & Hlen & Hnew & _ & Hgone).
  { vm_compute; discriminate. }
  exists kept, removed, w'.
  split; [exact Hrun|]. split; [exact Hperm|]. split; [exact Hlen|].
  split; [exact Hnew|]. apply Hgone. reflexivity.
Defined.

(** ** What the primitives do to the file system *)

Lemma fs_existsSync_inv p w r s :
  fs_existsSync p w = (r, s) →
  s = w ∧ r = Ok (bool_decide (is_Some (nodes w !! p))).
Proof. unfold fs_existsSync. by intros [= <- <-]. Qed.

Lemma fs_readJsonSync_nodes p w r s :
  fs_readJsonSync p w = (r, s) → nodes s = nodes w.
Proof.
  unfold fs_readJsonSync. intros H.
  destruct (nodes w !! p) as [[c|sz]|]; try by injection H as <- <-.
  destruct (next_fault (readFaults w)) as [[|part] rest], c;
    by injection H as <- <-.
Qed.

Lemma fs_writeJsonSync_ok p v w s :
  fs_writeJsonSync p v w = (Ok tt, s) →
  nodes s = <[p := File (Json v)]> (nodes w).
Proof.
  unfold fs_writeJsonSync. intros H.
  destruct (nodes w !! p) as [[c|sz]|]; try discriminate;
    destruct (next_fault (writeFaults w)) as [[|[part|]] rest];
    try discriminate; by injection H as <-.
Qed.

Lemma fs_removeSync_nodes p w r s :
  fs_removeSync p w = (r, s) →
  nodes s = nodes w ∨ (r = Ok tt ∧ nodes s = delete p (nodes w)).
Proof.
  unfold fs_removeSync. intros H.
  destruct (next_fault (removeFaults w)) as [[|part] rest];
    injection H as <- <-; cbn; auto.
Qed.

(** ** Paths of the archive directory *)

Lemma append_inj_r (d a b : string) : d +:+ a = d +:+ b → a = b.
Proof. induction d as [|c d IH]; simpl; [done|]. intros [= H]. auto. Qed.

Lemma path_join_inj d a b : path_join d a = path_join d b → a = b.
Proof.
  unfold path_join. intros H. apply append_inj_r in H. by injection H.
Qed.

Lemma append_length (a b : string) :
  String.length (a +:+ b) = (String.length a + String.length b)%nat.
Proof. induction a as [|c a IH]; simpl; [done|]. by rewrite IH. Qed.

(** The sibling that [restoreBackup] sets a target aside in is never the
    target itself. *)
Lemma temp_backup_ne (p : string) : p +:+ ".temp_backup" ≠ p.
Proof.
  intros H. apply (f_equal String.length) in H.
  rewrite append_length in H. simpl in H. lia.
Qed.

(** No archive file is named like the ledger. *)
Lemma archive_ne_metadata self (now rnd fileName : string) :
  path_join (backupPath self) (("backup_" +:+ now +:+ "_" +:+ rnd) +:+ "_" +:+ fileName)
  ≠ metadataFile self.
Proof. unfold metadataFile. intros H. apply path_join_inj in H. discriminate. Qed.

(** ** The retention bound of a capture *)

Lemma cleanupOldBackups_bound self l w kept w' :
  0 ≤ maxBackups self →
  cleanupOldBackups self l w = (Ok kept, w') →
  Z.of_nat (length kept) ≤ maxBackups self ∧
  (Z.of_nat (length l) ≤ maxBackups self → kept = l ∧ w' = w).
Proof.
  intros Hmax. unfold cleanupOldBackups.
  destruct (Z.leb_spec (Z.of_nat (length l)) (maxBackups self)) as [Hle|Hgt].
  - intros [= <- <-]. split; [lia|done].
  - intros H. apply bind_ok in H as (? & s1 & _ & [= <- <-]).
    split; [|lia]. rewrite js_slice_prefix by done. rewrite length_take. lia.
Qed.

Lemma generateBackupId_inv w r s :
  generateBackupId w = (r, s) →
  s = w ∧ r = Ok ("backup_" +:+ pretty (clock w) +:+ "_" +:+ random w).
Proof. unfold generateBackupId. cbn. by intros [= <- <-]. Qed.

(** C10. After every successful capture ([createBackup] returning a
    record) under a retention ceiling [maxBackups >= 0], the ledger
    written to [metadata.json] is the outcome of eviction on the ledger
    that was read, with the new record appended, and holds at most
    [maxBackups] records. *)
Theorem createBackup_retention self sourceFilePath w info w' :
  0 ≤ maxBackups self →
  createBackup self sourceFilePath w = (Ok (Some info), w') →
  ∃ persisted,
    nodes w' !! metadataFile self = Some (File (Json (JLedger persisted))) ∧
    Z.of_nat (length persisted) ≤ maxBackups self ∧
    (∃ old w0 w1 w2,
       getMetadata self w0 = (Ok (JLedger old), w1) ∧
       cleanupOldBackups self (old ++ [info]) w1 = (Ok persisted, w2)).
Proof.
  intros Hmax H. unfold createBackup in H.
  unfold try_catch at 1 in H.
  match type of H with
  | match ?b w with _ => _ end = _ =>
      destruct (b w) as [[r|e] s0] eqn:Hbody; [|discriminate]
  end.
  injection H as -> ->.
  inv_bind Hbody as sourceExists s1 H1. destruct (negb sourceExists); [discriminate|].
  inv_bind Hbody as statsSize s2 H2.
  inv_bind Hbody as now s3 H3.
  inv_bind Hbody as backupId s4 H4.
  apply generateBackupId_inv in H4 as [-> [= ->]].
  inv_bind Hbody as [] s5 H5.
  inv_bind Hbody as [] s6 H6.
  inv_bind Hbody as copied s7 H7. destruct (negb copied); [discriminate|].
  inv_bind Hbody as fileHash s8 H8.
  inv_bind Hbody as metadata s9 H9.
  destruct metadata as [old|]; [|discriminate].
  inv_bind Hbody as persisted s10 H10.
  inv_bind Hbody as [] s11 H11.
  inv_bind Hbody as metaExists s12 H12.
  inv_bind Hbody as [] s13 H13.
  inv_bind Hbody as [] s14 H14.
  injection Hbody as <- <-.
  exists persisted.
  apply cleanupOldBackups_bound in H10 as Hb; [|done].
  destruct Hb as [Hb _].
  split; [|split; [done|eauto 10]].
  apply fs_writeJsonSync_ok in H11.
  apply fs_existsSync_inv in H12 as [-> _].
  assert (nodes s13 = nodes s11) as Hs13.
  { destruct (metaExists : bool); [|discriminate].
    inv_bind H13 as saved s12 H12. apply fs_readJsonSync_nodes in H12.
    destruct saved; [|discriminate]. by injection H13 as <-. }
  assert (nodes s14 !! metadataFile self = nodes s13 !! metadataFile self) as ->.
  { destruct (match last old with Some _ => _ | None => _ end).
    - unfold try_catch in H14.
      match type of H14 with
      | match ?b s13 with _ => _ end = _ =>
          destruct (b s13) as [[r|e] sr] eqn:Hrm
      end.
      + injection H14 as _ <-.
        apply fs_removeSync_nodes in Hrm as [-> | [_ ->]]; [done|].
        rewrite lookup_delete_ne; [done|]. apply archive_ne_metadata.
      + injection H14 as <-.
        by apply fs_removeSync_nodes in Hrm as [-> | [[=] _]].
    - by injection H14 as <-. }
  rewrite Hs13, H11. apply lookup_insert_eq.
Qed.

Lemma createBackup_retention_witness :
  0 ≤ maxBackups (store 2) ∧
  createBackup (store 2) save twoWorld
  = (Ok (Some (captured bytesC)), worldAfter (createBackup (store 2) save twoWorld)) ∧
  ∃ persisted,
    nodes (worldAfter (createBackup (store 2) save twoWorld)) !! metadataFile (store 2)
    = Some (File (Json (JLedger persisted))) ∧
    Z.of_nat (length persisted) ≤ 2.
Proof.
  assert (Hmax : 0 ≤ maxBackups (store 2)) by (vm_compute; discriminate).
  assert (Hrun : createBackup (store 2) save twoWorld
                 = (Ok (Some (captured bytesC)),
                    worldAfter (createBackup (store 2) save twoWorld)))
    by (vm_compute; reflexivity).
  split; [exact Hmax|]. split; [exact Hrun|].
  destruct (createBackup_retention (store 2) save twoWorld _ _ Hmax Hrun)
    as (persisted & Hp & Hl & _).
  exists persisted. split; [exact Hp|exact Hl].
Defined.

(** ** Timers and watchers *)

Lemma cleared_handle (h : nat) (X : gset nat) : h ∉ X ∖ {[h]}.
Proof. rewrite elem_of_difference, elem_of_singleton. by intros [_ []]. Qed.

Lemma cleared_handle_later (h h' : nat) (X : gset nat) : h ∉ X → h ∉ X ∖ {[h']}.
Proof. rewrite elem_of_difference. by intros Hn [? _]. Qed.

(** ** The digest of a file *)

Lemma fold_hash_update (data : list (list byte)) (h : Hash) :
  fold_left hash_update data h = h ++ concat data.
Proof.
  revert h. induction data as [|d data IH]; intros h; simpl.
  - by rewrite app_nil_r.
  - rewrite IH. unfold hash_update. by rewrite <- app_assoc.
Qed.

Lemma chunks_concat fuel n (l : list byte) :
  (0 < n)%nat → (length l ≤ fuel)%nat → concat (chunks fuel n l) = l.
Proof.
  intros Hn. revert l. induction fuel as [|fuel IH]; intros l Hl.
  - destruct l; [done|simpl in Hl; lia].
  - destruct l as [|b l]; [done|].
    cbn [chunks concat]. rewrite IH; [apply take_drop|].
    rewrite length_drop. simpl in *. lia.
Qed.

Lemma highWaterMark_pos : (0 < highWaterMark)%nat.
Proof. unfold highWaterMark. lia. Qed.

(** Reading a file in chunks and hashing them is hashing its bytes. *)
Lemma calculateFileHash_run p w c rest :
  nodes w !! p = Some (File c) →
  next_fault (readFaults w) = (Pass, rest) →
  calculateFileHash p w
  = (Ok (MD5.hexdigest (content_bytes c)), set_readFaults rest w).
Proof.
  intros Hp Hf. unfold calculateFileHash, mbind, M_bind, fs_readStream.
  rewrite Hp, Hf. cbn [mret M_ret].
  rewrite fold_hash_update. unfold createHash, hash_digest_hex.
  rewrite app_nil_l, chunks_concat; [done|apply highWaterMark_pos|done].
Qed.

Lemma Monitor_calculateFileHash_eq p : Monitor.calculateFileHash p = calculateFileHash p.
Proof. reflexivity. Qed.

(** A digest is reported only for a file that was read to its end. *)
Lemma calculateFileHash_ok p w h w' :
  calculateFileHash p w = (Ok h, w') →
  ∃ c, nodes w !! p = Some (File c) ∧ h = MD5.hexdigest (content_bytes c)
       ∧ nodes w' = nodes w.
Proof.
  unfold calculateFileHash, mbind, M_bind, fs_readStream.
  destruct (nodes w !! p) as [[c|sz]|] eqn:Hp; try discriminate.
  destruct (next_fault (readFaults w)) as [[|part] rest]; [|discriminate].
  cbn [mret M_ret]. intros [= <- <-]. exists c. split; [done|]. split; [|done].
  rewrite fold_hash_update. unfold createHash, hash_digest_hex.
  by rewrite app_nil_l, chunks_concat by (apply highWaterMark_pos || done).
Qed.

Lemma le_bytes_length n x : length (MD5.le_bytes n x) = n.
Proof. revert x. induction n as [|n IH]; intros x; simpl; [done|]. by rewrite IH. Qed.

Lemma hex_of_bytes_length bs :
  String.length (MD5.hex_of_bytes bs) = (2 * length bs)%nat.
Proof. induction bs as [|b bs IH]; simpl; [done|]. rewrite IH. lia. Qed.

(** The digest has a fixed size: 32 hexadecimal characters. *)
Lemma hexdigest_length content : String.length (MD5.hexdigest content) = 32%nat.
Proof.
  unfold MD5.hexdigest, MD5.digest_bytes. rewrite hex_of_bytes_length.
  destruct (fold_left _ _ _) as [a b c d].
  by rewrite !length_app, !le_bytes_length.
Qed.

(** Two computations over files with the same bytes give the same digest,
    however the stream cuts the bytes into chunks. *)
Lemma calculateFileHash_deterministic p1 w1 p2 w2 c1 c2 h1 h2 w1' w2' :
  nodes w1 !! p1 = Some (File c1) →
  nodes w2 !! p2 = Some (File c2) →
  content_bytes c1 = content_bytes c2 →
  calculateFileHash p1 w1 = (Ok h1, w1') →
  calculateFileHash p2 w2 = (Ok h2, w2') →
  h1 = h2 ∧ String.length h1 = 32%nat.
Proof.
  intros Hp1 Hp2 Hc H1 H2.
  apply calculateFileHash_ok in H1 as (c1' & Hc1 & -> & _).
  apply calculateFileHash_ok in H2 as (c2' & Hc2 & -> & _).
  rewrite Hp1 in Hc1. rewrite Hp2 in Hc2. simplify_eq.
  split; [by rewrite Hc|apply hexdigest_length].
Qed.

(** ** Captures started by the monitor *)

Lemma createBackup_total self p w : ∃ r w', createBackup self p w = (Ok r, w').
Proof.
  unfold createBackup, try_catch.
  match goal with |- context [match ?b w with _ => _ end] => destruct (b w) as [[r|e] s] end;
    cbn; eauto.
Qed.

(** [createBackupIfNeeded] by cases: a missing source is reported as an
    error event, a source of less than one byte is skipped, and any other
    source is handed to [createBackup]. *)
Lemma createBackupIfNeeded_run (s : Session) :
  Monitor.createBackupIfNeeded s =
  let self := monitor s in
  match nodes (world s) !! saveFilePath self with
  | None =>
      reported ("backup creation failed: " +:+ exn_message (ENOENT (saveFilePath self)))
               false self (world s)
  | Some n =>
      if node_size n <? 1 then (Ok false, s) else
      match createBackup (backupManager self) (saveFilePath self) (world s) with
      | (Ok (Some info), w') =>
          (Ok true,
           mkSession self
             (push_event (BackupCreated (id info) (timestamp info) (size info)
                                        (hash info) (saveFilePath self)) w'))
      | (Ok None, w') => (Ok false, mkSession self w')
      | (Throw e, w') =>
          reported ("backup creation failed: " +:+ exn_message e) false self w'
      end
  end.
Proof.
  destruct s as [self w].
  unfold Monitor.createBackupIfNeeded, try_catch, mbind, M_bind, this, liftW, fs_statSync,
    reported.
  cbn [monitor world].
  destruct (nodes w !! saveFilePath self) as [[c|sz]|]; cbn [node_size].
  - destruct (_ <? 1); [reflexivity|]. cbn [world monitor].
    destruct (createBackup _ _ w) as [[[info|]|e] w']; [reflexivity..|].
    cbn [world monitor]. by destruct (emit _ w') as [[[]|e'] w''].
  - destruct (sz <? 1); [reflexivity|]. cbn [world monitor].
    destruct (createBackup _ _ w) as [[[info|]|e] w']; [reflexivity..|].
    cbn [world monitor]. by destruct (emit _ w') as [[[]|e'] w''].
  - cbn [world monitor]. by destruct (emit _ w) as [[[]|e'] w''].
Qed.

(** With a listener the error is delivered and the method returns. *)
Lemma reported_heard {A} message (a : A) self w :
  "error" ∈ listeners w →
  reported message a self w = (Ok a, mkSession self (push_event (ErrorEvent message) w)).
Proof. intros Hl. unfold reported, emit. by rewrite bool_decide_eq_true_2. Qed.

(** Without one the error is thrown and nothing is delivered. *)
Lemma reported_unheard {A} message (a : A) self w :
  "error" ∉ listeners w →
  reported message a self w = (Throw (Error message), mkSession self w).
Proof. intros Hl. unfold reported, emit. by rewrite bool_decide_eq_false_2. Qed.

(** [createBackupIfNeeded] never changes the monitor object. *)
Lemma createBackupIfNeeded_monitor (s : Session) r s' :
  Monitor.createBackupIfNeeded s = (r, s') → monitor s' = monitor s.
Proof.
  rewrite createBackupIfNeeded_run. cbn zeta. unfold reported.
  destruct (nodes (world s) !! _) as [n|].
  - destruct (node_size n <? 1); [by intros [= <- <-]|].
    destruct (createBackup _ _ _) as [[[info|]|e] w']; try by intros [= <- <-].
    destruct (emit _ w') as [[[]|e'] w'']; by intros [= <- <-].
  - destruct (emit _ _) as [[[]|e'] w'']; by intros [= <- <-].
Qed.

(** It returns whenever the source is there, and whenever somebody
    listens for errors. *)
Lemma createBackupIfNeeded_returns (s : Session) :
  is_Some (nodes (world s) !! saveFilePath (monitor s)) ∨ "error" ∈ listeners (world s) →
  ∃ b s', Monitor.createBackupIfNeeded s = (Ok b, s') ∧ monitor s' = monitor s.
Proof.
  intros Hs.
  assert (∃ b s', Monitor.createBackupIfNeeded s = (Ok b, s')) as (b & s' & Hb);
    [|exists b, s'; split; [done|by eapply createBackupIfNeeded_monitor]].
  rewrite createBackupIfNeeded_run. cbn zeta.
  destruct (nodes (world s) !! _) as [n|].
  - destruct (node_size n <? 1); [eauto|].
    destruct (createBackup_total (backupManager (monitor s)) (saveFilePath (monitor s))
                (world s)) as (r & w' & ->).
    destruct r; eauto.
  - destruct Hs as [[? [=]]|Hl]. rewrite reported_heard by done. eauto.
Qed.

(** It throws when the source is missing and nobody listens for errors,
    and then it has changed nothing. *)
Lemma createBackupIfNeeded_throws (s : Session) :
  nodes (world s) !! saveFilePath (monitor s) = None →
  "error" ∉ listeners (world s) →
  Monitor.createBackupIfNeeded s
  = (Throw (Error ("backup creation failed: " +:+
                   exn_message (ENOENT (saveFilePath (monitor s))))), s).
Proof.
  intros Hp Hl. rewrite createBackupIfNeeded_run. cbn zeta. rewrite Hp.
  rewrite reported_unheard by done. by destruct s.
Qed.

(** C5, as the code has it. The check for an empty source is made by the
    monitor, in [createBackupIfNeeded], before the backup store is called:
    for a source file of zero bytes it returns [false] and leaves the whole
    session as it was, so no archive file is written, no ledger record is
    appended and no error event is emitted. *)
Theorem createBackupIfNeeded_skips_empty (s : Session) (c : content) :
  nodes (world s) !! saveFilePath (monitor s) = Some (File c) →
  content_bytes c = [] →
  Monitor.createBackupIfNeeded s = (Ok false, s).
Proof.
  intros Hp Hc. rewrite createBackupIfNeeded_run. cbn zeta.
  rewrite Hp. cbn [node_size]. by rewrite Hc.
Qed.

Lemma createBackupIfNeeded_skips_empty_witness :
  nodes (world emptySession) !! saveFilePath (monitor emptySession)
  = Some (File (Raw [])) ∧
  content_bytes (Raw []) = [] ∧
  Monitor.createBackupIfNeeded emptySession = (Ok false, emptySession).
Proof.
  assert (H1 : nodes (world emptySession) !! saveFilePath (monitor emptySession)
               = Some (File (Raw []))) by (vm_compute; reflexivity).
  assert (H2 : content_bytes (Raw []) = []) by reflexivity.
  split; [exact H1|]. split; [exact H2|].
  exact (createBackupIfNeeded_skips_empty emptySession (Raw []) H1 H2).
Defined.

(** C5 is not what [createBackup] does: the backup store archives a
    source of zero bytes like any other and appends its record. *)
Lemma createBackup_empty_source_counterexample :
  nodes emptyWorld !! save = Some (File (Raw [])) ∧
  nodes emptyWorld !! metadataFile (store 2) = Some (File (Json (JLedger []))) ∧
  ∃ w',
    createBackup (store 2) save emptyWorld = (Ok (Some (captured [])), w') ∧
    size (captured []) = 0 ∧
    nodes w' !! archivePath (store 2) (captured []) = Some (File (Raw [])) ∧
    nodes w' !! metadataFile (store 2) = Some (File (Json (JLedger [captured []]))).
Proof.
  split; [vm_compute; reflexivity|]. split; [vm_compute; reflexivity|].
  exists (worldAfter (createBackup (store 2) save emptyWorld)).
  split; [|split; [|split]]; vm_compute; reflexivity.
Qed.

Lemma createBackupIfNeeded_lastHash h s r s' :
  Monitor.createBackupIfNeeded s = (r, s') →
  Monitor.createBackupIfNeeded (with_lastHash h s) = (r, with_lastHash h s').
Proof.
  rewrite !createBackupIfNeeded_run. cbn zeta. unfold reported, emit.
  destruct s as [self w]. cbn.
  destruct (nodes w !! saveFilePath self) as [n|].
  - destruct (node_size n <? 1); [by intros [= <- <-]|].
    destruct (createBackup _ _ w) as [[[info|]|e] w']; try by intros [= <- <-].
    destruct (bool_decide _); by intros [= <- <-].
  - destruct (bool_decide _); by intros [= <- <-].
Qed.

(** On a running monitor [forceBackup()] returns whether
    [createBackupIfNeeded] returned, and leaves the state that left. *)
Lemma forceBackup_run (s : Session) r s' :
  isMonitoring (monitor s) = true →
  Monitor.createBackupIfNeeded s = (r, s') →
  Monitor.forceBackup s = (Ok (returned r), s').
Proof.
  intros Hs Hc. unfold Monitor.forceBackup.
  erewrite (bind_run this) by reflexivity. cbn beta.
  rewrite Hs. unfold try_catch, mbind, M_bind. rewrite Hc.
  by destruct r as [[]|e].
Qed.

(** C6, as the code has it. On a running session [forceBackup()] does
    what [createBackupIfNeeded] does, and returns [true] when that returns
    (a new backup, a duplicate, a skipped capture, or a failure that an
    ['error'] listener was told of). It returns [false] when
    [createBackupIfNeeded] throws, which it does only when the source is
    missing and no ['error'] listener is registered. It never reads
    [lastHash]: with any other [lastHash] the call does the same. And
    whenever the source is a file of at least one byte, [createBackup] is
    called, [forceBackup()] returns [true] whether or not a record came
    back, and the world it leaves is the one [createBackup] leaves, with the
    [backup-created] event added when a record came back. *)
Theorem forceBackup_spec (s : Session) :
  isMonitoring (monitor s) = true →
  ∃ r s',
    Monitor.createBackupIfNeeded s = (r, s') ∧
    Monitor.forceBackup s = (Ok (returned r), s') ∧
    monitor s' = monitor s ∧
    (∀ h, Monitor.forceBackup (with_lastHash h s)
          = (Ok (returned r), with_lastHash h s')) ∧
    (returned r = false ↔
       nodes (world s) !! saveFilePath (monitor s) = None ∧
       "error" ∉ listeners (world s)) ∧
    (∀ c, nodes (world s) !! saveFilePath (monitor s) = Some (File c) →
          content_bytes c ≠ [] →
          ∃ info w',
            createBackup (backupManager (monitor s)) (saveFilePath (monitor s)) (world s)
            = (Ok info, w') ∧
            r = Ok (bool_decide (is_Some info)) ∧
            Monitor.forceBackup s = (Ok true, s') ∧
            world s' =
              match info with
              | Some info =>
                  push_event (BackupCreated (id info) (timestamp info) (size info)
                                            (hash info) (saveFilePath (monitor s))) w'
              | None => w'
              end).
Proof.
  intros Hrun.
  destruct (Monitor.createBackupIfNeeded s) as [r s'] eqn:Hb.
  exists r, s'. split; [done|].
  split; [by apply forceBackup_run|].
  split; [by eapply createBackupIfNeeded_monitor|].
  split; [|split].
  - intros h. apply forceBackup_run; [by destruct s|].
    by apply createBackupIfNeeded_lastHash.
  - destruct (nodes (world s) !! saveFilePath (monitor s)) as [n|] eqn:Hp.
    + destruct (createBackupIfNeeded_returns s) as (b & s1 & Hb1 & _);
        [left; by rewrite Hp|].
      rewrite Hb1 in Hb. injection Hb as <- <-. cbn. split; [done|by intros [[=] _]].
    + destruct (decide ("error" ∈ listeners (world s))) as [Hl|Hl].
      * destruct (createBackupIfNeeded_returns s) as (b & s1 & Hb1 & _); [by right|].
        rewrite Hb1 in Hb. injection Hb as <- <-. cbn.
        split; [done|by intros [_ ?]].
      * rewrite createBackupIfNeeded_throws in Hb by done.
        injection Hb as <- <-. by cbn.
  - intros c Hp Hc. pose proof Hb as Hb'.
    rewrite createBackupIfNeeded_run in Hb. cbn zeta in Hb.
    rewrite Hp in Hb. cbn [node_size] in Hb.
    destruct (content_bytes c) as [|x l]; [done|].
    destruct (_ <? 1) eqn:Hlt; [apply Z.ltb_lt in Hlt; simpl in Hlt; lia|].
    destruct (createBackup_total (backupManager (monitor s)) (saveFilePath (monitor s))
                (world s)) as (info & w' & Hcreate).
    rewrite Hcreate in Hb. exists info, w'. split; [done|].
    destruct info as [info|]; injection Hb as <- <-;
      (split; [done|]; split; [by apply (forceBackup_run _ _ _ Hrun Hb')|done]).
Qed.

Lemma forceBackup_spec_witness :
  isMonitoring (monitor changedSession) = true ∧
  ∃ s',
    Monitor.forceBackup changedSession = (Ok true, s') ∧
    monitor s' = monitor changedSession ∧
    ∃ r w',
      createBackup (store 2) save (world changedSession) = (Ok r, w') ∧
      world s' =
        match r with
        | Some info =>
            push_event (BackupCreated (id info) (timestamp info) (size info)
                                      (hash info) save) w'
        | None => w'
        end.
Proof.
  assert (Hrun : isMonitoring (monitor changedSession) = true) by reflexivity.
  split; [exact Hrun|].
  destruct (forceBackup_spec changedSession Hrun)
    as (b & s' & _ & _ & Hmon & _ & _ & Hcreate).
  exists s'.
  destruct (Hcreate (Raw bytesB)) as (r & w' & Hr & _ & Hforce & Hw).
  - vm_compute; reflexivity.
  - vm_compute; discriminate.
  - split; [exact Hforce|]. split; [exact Hmon|].
    exists r, w'. split; [exact Hr|exact Hw].
Defined.

(** C6 is not unconditional: on a running session whose source is
    empty, [forceBackup()] returns [true] and leaves the session as it was,
    while a call of [createBackup] would have written an archive file. *)
Lemma forceBackup_empty_source_counterexample :
  isMonitoring (monitor emptySession) = true ∧
  Monitor.forceBackup emptySession = (Ok true, emptySession) ∧
  nodes (world emptySession) !! archivePath (store 2) (captured []) = None ∧
  ∃ w',
    createBackup (store 2) save (world emptySession) = (Ok (Some (captured [])), w') ∧
    nodes w' !! archivePath (store 2) (captured []) = Some (File (Raw [])).
Proof.
  split; [reflexivity|]. split; [vm_compute; reflexivity|].
  split; [vm_compute; reflexivity|].
  exists (worldAfter (createBackup (store 2) save (world emptySession))).
  split; vm_compute; reflexivity.
Qed.

Lemma liftW_run {A} (m : M World A) (s : Session) r w' :
  m (world s) = (r, w') → liftW m s = (r, mkSession (monitor s) w').
Proof. unfold liftW. by intros ->. Qed.

(** C2, as the code has it. When a change signal reads the source and
    finds a digest other than [lastHash], [lastHash] is set to the new
    digest before the backup is attempted, and [checkFileChanges] ends in
    the state [createBackupIfNeeded] leaves, whatever it returns: also after
    a failed capture [lastHash] is the digest of the content last seen. *)
Theorem checkFileChanges_updates_lastHash (s : Session) (c : content) rest :
  let h := MD5.hexdigest (content_bytes c) in
  nodes (world s) !! saveFilePath (monitor s) = Some (File c) →
  next_fault (readFaults (world s)) = (Pass, rest) →
  lastHash (monitor s) ≠ Some h →
  ∃ b s',
    Monitor.createBackupIfNeeded
      (mkSession (set_lastHash (Some h) (monitor s)) (set_readFaults rest (world s)))
    = (Ok b, s') ∧
    Monitor.checkFileChanges s = (Ok tt, s') ∧
    lastHash (monitor s') = Some h.
Proof.
  intros h Hp Hf Hne.
  destruct (createBackupIfNeeded_returns
              (mkSession (set_lastHash (Some h) (monitor s))
                         (set_readFaults rest (world s)))) as (b & s' & Hb & Hm);
    [left; cbn; by rewrite Hp|].
  exists b, s'. split; [done|]. split; [|by rewrite Hm].
  unfold Monitor.checkFileChanges.
  apply try_catch_run.
  erewrite (bind_run this) by reflexivity. cbn beta.
  erewrite bind_run by (apply liftW_run; reflexivity).
  rewrite Hp. rewrite bool_decide_eq_true_2 by eauto. cbn [negb].
  erewrite bind_run
    by (apply liftW_run; rewrite Monitor_calculateFileHash_eq;
        by apply calculateFileHash_run).
  erewrite (bind_run this) by reflexivity. cbn beta. cbn [monitor].
  rewrite bool_decide_eq_false_2 by (intros Heq; by apply Hne).
  cbn [negb].
  erewrite bind_run by reflexivity.
  erewrite bind_run by exact Hb. by destruct b.
Qed.

Lemma checkFileChanges_updates_lastHash_witness :
  nodes (world failingSession) !! saveFilePath (monitor failingSession)
  = Some (File (Raw bytesB)) ∧
  next_fault (readFaults (world failingSession)) = (Pass, []) ∧
  lastHash (monitor failingSession) ≠ Some (MD5.hexdigest bytesB) ∧
  ∃ s',
    Monitor.checkFileChanges failingSession = (Ok tt, s') ∧
    lastHash (monitor s') = Some (MD5.hexdigest bytesB).
Proof.
  assert (H1 : nodes (world failingSession) !! saveFilePath (monitor failingSession)
               = Some (File (Raw bytesB))) by (vm_compute; reflexivity).
  assert (H2 : next_fault (readFaults (world failingSession)) = (Pass, []))
    by reflexivity.
  assert (H3 : lastHash (monitor failingSession)
               ≠ Some (MD5.hexdigest (content_bytes (Raw bytesB))))
    by (vm_compute; discriminate).
  split; [exact H1|]. split; [exact H2|]. split; [exact H3|].
  destruct (checkFileChanges_updates_lastHash failingSession (Raw bytesB) [] H1 H2 H3)
    as (b & s' & _ & Hcheck & Hlast).
  exists s'. split; [exact Hcheck|exact Hlast].
Defined.

(** C2 is not what [checkFileChanges] does: the copy fails, so the
    capture fails and the ledger stays as it was, and still [lastHash] has
    moved on to the digest of the new content. *)
Lemma checkFileChanges_failed_capture_counterexample :
  lastHash (monitor failingSession) = Some (MD5.hexdigest bytesA) ∧
  nodes (world failingSession) !! save = Some (File (Raw bytesB)) ∧
  fst (createBackup (store 2) save (world failingSession)) = Ok None ∧
  ∃ s',
    Monitor.checkFileChanges failingSession = (Ok tt, s') ∧
    nodes (world s') !! metadataFile (store 2) = Some (File (Json (JLedger [recordA]))) ∧
    lastHash (monitor s') = Some (MD5.hexdigest bytesB) ∧
    lastHash (monitor s') ≠ lastHash (monitor failingSession).
Proof.
  split; [reflexivity|]. split; [vm_compute; reflexivity|].
  split; [vm_compute; reflexivity|].
  exists (snd (Monitor.checkFileChanges failingSession)).
  split; [|split; [|split]]; try (vm_compute; reflexivity). vm_compute. discriminate.
Qed.

(** A running session whose save file has been deleted. Without a
    listener for ['error'] events the error is thrown, and
    [forceBackup()] returns [false] and changes nothing; with one, the
    listener is told and [forceBackup()] returns [true]. *)
Example forceBackup_missing_source :
  isMonitoring (monitor vanishedSession) = true ∧
  Monitor.forceBackup vanishedSession = (Ok false, vanishedSession) ∧
  ∃ message,
    Monitor.forceBackup vanishedHeardSession
    = (Ok true,
       mkSession (monitor vanishedHeardSession)
                 (push_event (ErrorEvent message) (world vanishedHeardSession))).
Proof.
  split; [reflexivity|]. split; [vm_compute; reflexivity|].
  eexists. vm_compute. reflexivity.
Qed.

(** ** The life of a session *)

Lemma same_handles_refl m : same_handles m m.
Proof. by repeat split. Qed.

Lemma same_handles_trans m1 m2 m3 :
  same_handles m1 m2 → same_handles m2 m3 → same_handles m1 m3.
Proof. unfold same_handles. intros (?&?&?&?) (?&?&?&?). repeat split; congruence. Qed.

Lemma keeps_ret {A} (a : A) : keeps (mret a).
Proof. intros s r s' [= <- <-]. apply same_handles_refl. Qed.

Lemma keeps_throw {A} e : keeps (@throw Session A e).
Proof. intros s r s' [= <- <-]. apply same_handles_refl. Qed.

Lemma keeps_this : keeps this.
Proof. intros s r s' [= <- <-]. apply same_handles_refl. Qed.

Lemma keeps_liftW {A} (m : M World A) : keeps (liftW m).
Proof.
  intros s r s'. unfold liftW. destruct (m (world s)) as [r' w'].
  intros [= <- <-]. apply same_handles_refl.
Qed.

Lemma keeps_bind {A B} (m : M Session A) (f : A → M Session B) :
  keeps m → (∀ a, keeps (f a)) → keeps (m ≫= f).
Proof.
  intros Hm Hf s r s'. unfold mbind, M_bind.
  destruct (m s) as [[a|e] s1] eqn:H1; intros H2.
  - eapply same_handles_trans; [by eapply Hm|by eapply Hf].
  - injection H2 as <- <-. by eapply Hm.
Qed.

Lemma keeps_try_catch {A} (m : M Session A) h :
  keeps m → (∀ e, keeps (h e)) → keeps (try_catch m h).
Proof.
  intros Hm Hh s r s'. unfold try_catch.
  destruct (m s) as [[a|e] s1] eqn:H1; intros H2.
  - injection H2 as <- <-. by eapply Hm.
  - eapply same_handles_trans; [by eapply Hm|by eapply Hh].
Qed.

Lemma keeps_set_lastHash h : keeps (update_this (set_lastHash h)).
Proof. intros s r s' [= <- <-]. by repeat split. Qed.

Lemma keeps_createBackupIfNeeded : keeps Monitor.createBackupIfNeeded.
Proof.
  intros s r s' H. apply createBackupIfNeeded_monitor in H. rewrite H.
  apply same_handles_refl.
Qed.

Lemma keeps_checkFileChanges : keeps Monitor.checkFileChanges.
Proof.
  unfold Monitor.checkFileChanges.
  apply keeps_try_catch; [|intros e; apply keeps_liftW].
  apply keeps_bind; [apply keeps_this|]. intros self.
  apply keeps_bind; [apply keeps_liftW|]. intros fileExists.
  destruct (negb fileExists); [apply keeps_liftW|].
  apply keeps_bind; [apply keeps_liftW|]. intros currentHash.
  apply keeps_bind; [apply keeps_this|]. intros self'.
  destruct (negb _); [|apply keeps_ret].
  apply keeps_bind; [apply keeps_set_lastHash|]. intros _.
  apply keeps_bind; [apply keeps_createBackupIfNeeded|]. intros b.
  destruct b; apply keeps_ret.
Qed.

Lemma keeps_forceCheck : keeps Monitor.forceCheck.
Proof.
  unfold Monitor.forceCheck.
  apply keeps_bind; [apply keeps_this|]. intros self.
  destruct (isMonitoring self); [|apply keeps_ret].
  apply keeps_bind; [apply keeps_checkFileChanges|]. intros _. apply keeps_ret.
Qed.

Lemma keeps_forceBackup : keeps Monitor.forceBackup.
Proof.
  unfold Monitor.forceBackup.
  apply keeps_bind; [apply keeps_this|]. intros self.
  destruct (isMonitoring self); [|apply keeps_ret].
  apply keeps_try_catch; [|intros e; apply keeps_ret].
  apply keeps_bind; [apply keeps_createBackupIfNeeded|]. intros b.
  destruct b; apply keeps_ret.
Qed.

(** [start()] leaves the handles as they are, or ends with the monitor
    running. *)
Lemma start_handles s r s' :
  Monitor.start s = (r, s') →
  same_handles (monitor s) (monitor s') ∨ isMonitoring (monitor s') = true.
Proof.
  unfold Monitor.start. erewrite (bind_run this) by reflexivity. cbn beta.
  destruct (isMonitoring (monitor s)); [intros [= <- <-]; left; apply same_handles_refl|].
  unfold try_catch.
  match goal with |- context [match ?b s with _ => _ end] =>
    destruct (b s) as [[a|e] s1] eqn:Hbody end.
  - intros [= <- <-]. right.
    inv_bind Hbody as fileExists s2 H2. destruct (negb fileExists); [discriminate|].
    inv_bind Hbody as initial s3 H3.
    inv_bind Hbody as [] s4 H4. inv_bind Hbody as wh s5 H5.
    inv_bind Hbody as [] s6 H6. inv_bind Hbody as th s7 H7.
    inv_bind Hbody as [] s8 H8. inv_bind Hbody as [] s9 H9.
    inv_bind Hbody as [] s10 H10. inv_bind Hbody as b s11 H11.
    injection Hbody as _ <-.
    apply keeps_createBackupIfNeeded in H11 as (_ & _ & _ & ->).
    apply keeps_liftW in H10 as (_ & _ & _ & ->).
    by injection H9 as <-.
  - intros H. left.
    assert (same_handles (monitor s) (monitor s1)) as Hs1.
    { destruct (liftW (fs_existsSync (saveFilePath (monitor s))) s)
        as [[ex|e0] t1] eqn:E1; [|discriminate].
      erewrite bind_run in Hbody by exact E1. cbn beta in Hbody.
      injection E1 as <- <-.
      destruct (bool_decide _) eqn:Hex;
        [|injection Hbody as _ <-; apply same_handles_refl].
      cbn [negb] in Hbody.
      match type of Hbody with (liftW ?m ≫= _) ?t = _ =>
        destruct (liftW m t) as [[ih|e1] t2] eqn:E2 end.
      2:{ erewrite bind_throw in Hbody by exact E2. injection Hbody as _ <-.
          by eapply keeps_liftW in E2. }
      erewrite bind_run in Hbody by exact E2. cbn beta in Hbody.
      unfold liftW in E2. cbn [world monitor] in E2.
      destruct (Monitor.calculateFileHash _ (world s)) as [r2 w2] eqn:Hh.
      injection E2 as -> <-.
      rewrite Monitor_calculateFileHash_eq in Hh.
      apply calculateFileHash_ok in Hh as (c & Hc & _ & Hn).
      do 7 (erewrite bind_run in Hbody by reflexivity; cbn beta in Hbody).
      match type of Hbody with (Monitor.createBackupIfNeeded ≫= _) ?u = _ =>
        destruct (createBackupIfNeeded_returns u) as (b & u' & Hu & _) end.
      { left. cbn. rewrite Hn, Hc. eauto. }
      erewrite bind_run in Hbody by exact Hu. discriminate. }
    eapply same_handles_trans; [exact Hs1|].
    revert H. apply keeps_bind; [apply keeps_liftW|]. intros _. apply keeps_ret.
Qed.

Lemma same_handles_ok m m' : same_handles m m' → handles_ok m → handles_ok m'.
Proof.
  unfold handles_ok, idle. intros (Hw & Hc & Hd & Hr) Hok Hoff.
  rewrite Hw, Hc, Hd. apply Hok. by rewrite <- Hr.
Qed.

Lemma stop_handles s r s' :
  Monitor.stop s = (r, s') →
  (isMonitoring (monitor s) = false ∧ s' = s) ∨
  (idle (monitor s') ∧ isMonitoring (monitor s') = false).
Proof.
  destruct s as [[path mgr wt running lh ci db dd] w].
  destruct running; cbn.
  - destruct wt as [hw|], ci as [hc|], db as [hd|]; cbn;
      intros [= <- <-]; right; by repeat split.
  - intros [= <- <-]. by left.
Qed.

Lemma handleFileChange_running s r s' :
  Monitor.handleFileChange s = (r, s') →
  isMonitoring (monitor s') = isMonitoring (monitor s).
Proof.
  destruct s as [[path mgr wt running lh ci db dd] w].
  destruct db as [hd|]; cbn; by intros [= <- <-].
Qed.

Lemma then_unit_world {A} (m : M Session A) s :
  monitor (snd ((m;; mret tt) s)) = monitor (snd (m s)).
Proof. unfold mbind, M_bind. by destruct (m s) as [[a|e] s1]. Qed.

(** In every session a new monitor can get into, the monitor holds
    handles only while it is running. *)
Lemma reachable_handles_ok s : reachable s → handles_ok (monitor s).
Proof.
  induction 1 as [path mgr w _ _|c s Hs IH Hen|s w Hs IH _ _].
  - intros _. by repeat split.
  - destruct c; cbn [perform enabled] in *.
    + rewrite then_unit_world.
      destruct (Monitor.start s) as [r s'] eqn:Hrun.
      apply start_handles in Hrun as [Hsame|Hon].
      * by eapply same_handles_ok.
      * intros Hoff. cbn in Hoff. congruence.
    + rewrite then_unit_world.
      destruct (Monitor.stop s) as [r s'] eqn:Hrun.
      apply stop_handles in Hrun as [[_ ->]|[Hidle _]]; [done|by intros _].
    + rewrite then_unit_world.
      destruct (Monitor.forceCheck s) as [r s'] eqn:Hrun.
      apply keeps_forceCheck in Hrun. by eapply same_handles_ok.
    + rewrite then_unit_world.
      destruct (Monitor.forceBackup s) as [r s'] eqn:Hrun.
      apply keeps_forceBackup in Hrun. by eapply same_handles_ok.
    + destruct Hen as (h & Hw & _).
      assert (isMonitoring (monitor s) = true) as Hon.
      { destruct (isMonitoring (monitor s)) eqn:E; [done|].
        destruct (IH E) as (Hnone & _). congruence. }
      erewrite (bind_run this) by reflexivity. cbn beta.
      erewrite bind_run by (apply liftW_run; reflexivity). cbn beta.
      match goal with |- handles_ok (monitor (snd (Monitor.handleFileChange ?t))) =>
        destruct (Monitor.handleFileChange t) as [r s'] eqn:Hrun end.
      apply handleFileChange_running in Hrun. cbn in Hrun.
      intros Hoff. cbn in Hoff. congruence.
    + destruct (liftW _ s) as [r s'] eqn:Hrun.
      apply keeps_liftW in Hrun. by eapply same_handles_ok.
    + destruct (Monitor.checkFileChanges s) as [r s'] eqn:Hrun.
      apply keeps_checkFileChanges in Hrun. by eapply same_handles_ok.
    + match goal with |- handles_ok (monitor (snd (?m s))) =>
        destruct (m s) as [r s'] eqn:Hrun; assert (keeps m) as Hk end.
      { apply keeps_bind; [apply keeps_this|]. intros self.
        apply keeps_bind; [|intros _; apply keeps_checkFileChanges].
        destruct (debounceTimeout self); [apply keeps_liftW|apply keeps_ret]. }
      apply Hk in Hrun. by eapply same_handles_ok.
  - done.
Qed.

Lemma stop_not_running s :
  isMonitoring (monitor s) = false → Monitor.stop s = (Ok false, s).
Proof.
  destruct s as [[path mgr wt running lh ci db dd] w]. cbn. by intros ->.
Qed.

Lemma stop_running s :
  isMonitoring (monitor s) = true →
  ∃ s1,
    Monitor.stop s = (Ok true, s1) ∧
    idle (monitor s1) ∧
    isMonitoring (monitor s1) = false ∧
    (∀ h, watcher (monitor s) = Some h → h ∉ watchers (world s1)) ∧
    (∀ h, checkInterval (monitor s) = Some h → h ∉ timers (world s1)) ∧
    (∀ h, debounceTimeout (monitor s) = Some h → h ∉ timers (world s1)).
Proof.
  destruct s as [[path mgr wt running lh ci db dd] w]. cbn. intros ->.
  destruct wt as [hw|], ci as [hc|], db as [hd|]; cbn;
    (eexists; split; [reflexivity|]; cbn;
     split; [by repeat split|]; split; [reflexivity|];
     repeat split; intros h Hh; try discriminate Hh; injection Hh as ->;
     auto using cleared_handle, cleared_handle_later).
Qed.

(** C9. [stop()] is idempotent. On a monitor that is not running it
    returns [false] and changes nothing. From every session state a
    first [stop()] leaves a state that a second [stop()] does not change,
    in which the monitor is not running. When the monitor was running, the
    first call returns [true], the watcher and both timer handles are
    cleared and are no longer open or pending in the runtime. And in every
    session a new monitor can get into, the monitor holds no handle after
    [stop()], so that none of its callbacks can run. *)
Theorem stop_idempotent (s : Session) :
  (isMonitoring (monitor s) = false → Monitor.stop s = (Ok false, s)) ∧
  ∃ r s1,
    Monitor.stop s = (Ok r, s1) ∧
    Monitor.stop s1 = (Ok false, s1) ∧
    isMonitoring (monitor s1) = false ∧
    (isMonitoring (monitor s) = true →
       r = true ∧
       idle (monitor s1) ∧
       (∀ h, watcher (monitor s) = Some h → h ∉ watchers (world s1)) ∧
       (∀ h, checkInterval (monitor s) = Some h → h ∉ timers (world s1)) ∧
       (∀ h, debounceTimeout (monitor s) = Some h → h ∉ timers (world s1))) ∧
    (reachable s →
       idle (monitor s1) ∧
       ¬ enabled WatcherChange s1 ∧ ¬ enabled WatcherUnlink s1 ∧
       ¬ enabled PollTick s1 ∧ ¬ enabled DebounceExpiry s1).
Proof.
  assert (∀ t, idle (monitor t) →
            ¬ enabled WatcherChange t ∧ ¬ enabled WatcherUnlink t ∧
            ¬ enabled PollTick t ∧ ¬ enabled DebounceExpiry t) as Hquiet.
  { intros t (Hw & Hc & Hd). cbn.
    repeat split; intros (h & Hh & _); congruence. }
  split; [apply stop_not_running|].
  destruct (isMonitoring (monitor s)) eqn:Hrun.
  - destruct (stop_running s Hrun) as (s1 & Hfirst & Hidle & Hoff & Hgone).
    exists true, s1. split; [exact Hfirst|].
    split; [by apply stop_not_running|]. split; [exact Hoff|].
    split; [intros _; split; [reflexivity|]; split; [exact Hidle|exact Hgone]|].
    intros _. split; [exact Hidle|by apply Hquiet].
  - exists false, s. split; [by apply stop_not_running|].
    split; [by apply stop_not_running|]. split; [exact Hrun|].
    split; [done|].
    intros Hr. pose proof (reachable_handles_ok s Hr Hrun) as Hidle.
    split; [exact Hidle|by apply Hquiet].
Qed.

Lemma stop_idempotent_witness :
  reachable started ∧
  isMonitoring (monitor started) = true ∧
  ∃ s1,
    Monitor.stop started = (Ok true, s1) ∧
    Monitor.stop s1 = (Ok false, s1) ∧
    isMonitoring (monitor s1) = false ∧
    idle (monitor s1) ∧
    (0 ∉ watchers (world s1))%nat ∧
    (1 ∉ timers (world s1))%nat ∧
    ¬ enabled PollTick s1.
Proof.
  assert (Hreach : reachable started).
  { assert (E : snd (perform CallStart fresh) = started) by (vm_compute; reflexivity).
    rewrite <- E. apply reachable_call; [|exact I].
    apply reachable_new; vm_compute; reflexivity. }
  assert (Hrun : isMonitoring (monitor started) = true) by (vm_compute; reflexivity).
  split; [exact Hreach|]. split; [exact Hrun|].
  destruct (stop_idempotent started)
    as (_ & r & s1 & Hfirst & Hsecond & Hoff & Hwas & Hquiet).
  destruct (Hwas Hrun) as (-> & Hidle & Hw & Hc & _).
  destruct (Hquiet Hreach) as (_ & _ & _ & Hpoll & _).
  exists s1. split; [exact Hfirst|]. split; [exact Hsecond|]. split; [exact Hoff|].
  split; [exact Hidle|]. split; [|split; [|exact Hpoll]].
  - apply Hw. vm_compute. reflexivity.
  - apply Hc. vm_compute. reflexivity.
Defined.

(** ** Reading the ledger *)

Lemma getMetadata_run self w :
  getMetadata self w =
  match nodes w !! metadataFile self with
  | None => (Ok emptyLedger, w)
  | Some _ =>
      match fs_readJsonSync (metadataFile self) w with
      | (Ok v, w') => (Ok v, w')
      | (Throw _, w') => (Ok emptyLedger, w')
      end
  end.
Proof.
  unfold getMetadata, try_catch, mbind, M_bind, fs_existsSync.
  destruct (nodes w !! metadataFile self) as [n|] eqn:Hm.
  - rewrite bool_decide_eq_true_2 by eauto. cbn beta iota.
    by destruct (fs_readJsonSync _ w) as [[v|e] w'].
  - by rewrite bool_decide_eq_false_2 by (by intros [? ?]).
Qed.

Lemma getMetadata_total self w :
  ∃ v w', getMetadata self w = (Ok v, w') ∧ nodes w' = nodes w.
Proof.
  rewrite getMetadata_run.
  destruct (nodes w !! metadataFile self); [|by eexists _, _].
  destruct (fs_readJsonSync _ w) as [[v|e] w'] eqn:Hread;
    apply fs_readJsonSync_nodes in Hread; by eexists _, _.
Qed.

Lemma getBackupList_total self w : ∃ l w', getBackupList self w = (Ok l, w').
Proof.
  unfold getBackupList, try_catch.
  match goal with |- context [match ?b w with _ => _ end] => destruct (b w) as [[r|e] s] end;
    cbn; eauto.
Qed.

Lemma restoreBackup_total self i p w : ∃ b w', restoreBackup self i p w = (Ok b, w').
Proof.
  unfold restoreBackup, try_catch at 1.
  match goal with |- context [match ?b w with _ => _ end] => destruct (b w) as [[r|e] s] end;
    cbn; eauto.
Qed.

Lemma deleteBackup_total self i w : ∃ b w', deleteBackup self i w = (Ok b, w').
Proof.
  unfold deleteBackup, try_catch.
  match goal with |- context [match ?b w with _ => _ end] => destruct (b w) as [[r|e] s] end;
    cbn; eauto.
Qed.

(** C8. Reading the ledger never throws and changes no file. It
    yields the empty ledger when [metadata.json] is absent, when it is not
    a file, when its text is not JSON, and when reading it fails. And none
    of the operations that read the ledger throws, in any state of the
    archive directory. *)
Theorem getMetadata_recovers self w :
  (∃ v w', getMetadata self w = (Ok v, w') ∧ nodes w' = nodes w) ∧
  (nodes w !! metadataFile self = None →
     getMetadata self w = (Ok emptyLedger, w)) ∧
  (∀ sz, nodes w !! metadataFile self = Some (Dir sz) →
     getMetadata self w = (Ok emptyLedger, w)) ∧
  (∀ bytes, nodes w !! metadataFile self = Some (File (Raw bytes)) →
     ∃ w', getMetadata self w = (Ok emptyLedger, w')) ∧
  (∀ c part rest,
     nodes w !! metadataFile self = Some (File c) →
     readFaults w = Fail part :: rest →
     ∃ w', getMetadata self w = (Ok emptyLedger, w')) ∧
  (∀ src, ∃ r w', createBackup self src w = (Ok r, w')) ∧
  (∃ l w', getBackupList self w = (Ok l, w')) ∧
  (∀ i p, ∃ b w', restoreBackup self i p w = (Ok b, w')) ∧
  (∀ i, ∃ b w', deleteBackup self i w = (Ok b, w')).
Proof.
  split; [apply getMetadata_total|].
  repeat split.
  - intros Hm. by rewrite getMetadata_run, Hm.
  - intros sz Hm. rewrite getMetadata_run, Hm. unfold fs_readJsonSync. by rewrite Hm.
  - intros bytes Hm. rewrite getMetadata_run, Hm. unfold fs_readJsonSync. rewrite Hm.
    destruct (next_fault (readFaults w)) as [[|part] rest]; by eexists.
  - intros c part rest Hm Hf.
    rewrite getMetadata_run, Hm. unfold fs_readJsonSync. rewrite Hm, Hf. by eexists.
  - intros src. apply createBackup_total.
  - apply getBackupList_total.
  - intros i p. apply restoreBackup_total.
  - intros i. apply deleteBackup_total.
Qed.

Lemma getMetadata_recovers_witness :
  nodes corruptWorld !! metadataFile (store 2) = Some (File (Raw bytesA)) ∧
  ∃ w', getMetadata (store 2) corruptWorld = (Ok emptyLedger, w').
Proof.
  assert (H : nodes corruptWorld !! metadataFile (store 2) = Some (File (Raw bytesA)))
    by (vm_compute; reflexivity).
  split; [exact H|].
  destruct (getMetadata_recovers (store 2) corruptWorld) as (_ & _ & _ & Hraw & _).
  exact (Hraw bytesA H).
Defined.

(** ** Restoring *)

Lemma getMetadata_readable self w v rest :
  nodes w !! metadataFile self = Some (File (Json v)) →
  next_fault (readFaults w) = (Pass, rest) →
  getMetadata self w = (Ok v, set_readFaults rest w).
Proof.
  intros Hm Hf. rewrite getMetadata_run, Hm. unfold fs_readJsonSync. by rewrite Hm, Hf.
Qed.

Lemma fs_existsSync_true p w n :
  nodes w !! p = Some n → fs_existsSync p w = (Ok true, w).
Proof. intros H. unfold fs_existsSync. by rewrite bool_decide_eq_true_2 by eauto. Qed.

Lemma fs_existsSync_false p w :
  nodes w !! p = None → fs_existsSync p w = (Ok false, w).
Proof.
  intros H. unfold fs_existsSync. rewrite H.
  by rewrite bool_decide_eq_false_2 by (by intros [? ?]).
Qed.

Lemma fs_removeSync_pass p w :
  removeFaults w = [] →
  fs_removeSync p w = (Ok tt, set_nodes (delete p) w).
Proof.
  intros H. unfold fs_removeSync. rewrite H. cbn.
  by destruct w; cbn in *; subst.
Qed.

Lemma fs_copy_frame src dest w r w' :
  fs_copy src dest w = (r, w') →
  (∀ p, p ≠ dest → nodes w' !! p = nodes w !! p) ∧
  (r = Ok tt → nodes w' !! dest = nodes w !! src).
Proof.
  unfold fs_copy. intros H.
  destruct (nodes w !! src) as [n|] eqn:Hs; [|by injection H as <- <-].
  destruct (bool_decide (src = dest)); [by injection H as <- <-|].
  assert (∀ f rest, next_fault (copyFaults w) = (f, rest) →
    (match f with
     | Pass => (Ok tt, set_nodes <[dest := n]> (set_copyFaults rest w))
     | Fail None => (Throw (EIO dest), set_copyFaults rest w)
     | Fail (Some part) =>
         (Throw (EIO dest), set_nodes <[dest := File (Raw part)]> (set_copyFaults rest w))
     end) = (r, w') →
    (∀ p, p ≠ dest → nodes w' !! p = nodes w !! p) ∧
    (r = Ok tt → nodes w' !! dest = Some n)) as Hgo.
  { intros f rest _ Hr. destruct f as [|[part|]]; injection Hr as <- <-; cbn.
    - split; [intros; by rewrite lookup_insert_ne|intros _; apply lookup_insert_eq].
    - split; [intros; by rewrite lookup_insert_ne|done].
    - done. }
  destruct (next_fault (copyFaults w)) as [f rest] eqn:Hf.
  destruct n as [c|sz], (nodes w !! dest) as [[c'|sz']|];
    try (by injection H as <- <-); by eapply Hgo.
Qed.

Lemma fs_removeSync_frame p w r w' :
  fs_removeSync p w = (r, w') →
  (∀ q, q ≠ p → nodes w' !! q = nodes w !! q) ∧
  (∀ e, r = Throw e → nodes w' = nodes w).
Proof.
  intros H. apply fs_removeSync_nodes in H as [-> | [-> ->]].
  - done.
  - split; [intros; by rewrite lookup_delete_ne|done].
Qed.

Lemma fs_removeSync_ok p w w' :
  fs_removeSync p w = (Ok tt, w') → nodes w' = delete p (nodes w).
Proof.
  unfold fs_removeSync.
  destruct (next_fault (removeFaults w)) as [[|part] rest]; [|discriminate].
  by intros [= <-].
Qed.

(** C4, as the code has it. Restoring a record whose archive file is
    present onto an existing target file: when the copy that sets the
    target aside succeeds, the copy of the archive over the target throws
    (whatever it has done to the target) and the copy back from the
    temporary sibling succeeds, [restoreBackup] returns [false] and the
    target holds the content it had before the call; the temporary sibling
    is gone when its removal succeeds. *)
Theorem restoreBackup_rollback self backupId targetPath w backups backup c
    w1 w2 e w3 w4 :
  let archive := archivePath self backup in
  let temp := targetPath +:+ ".temp_backup" in
  getMetadata self w = (Ok (JLedger backups), w1) →
  find (λ b, bool_decide (id b = backupId)) backups = Some backup →
  is_Some (nodes w !! archive) →
  nodes w !! targetPath = Some (File c) →
  fs_copy targetPath temp w1 = (Ok tt, w2) →
  fs_copy archive targetPath w2 = (Throw e, w3) →
  fs_copy temp targetPath w3 = (Ok tt, w4) →
  ∃ w',
    restoreBackup self backupId targetPath w = (Ok false, w') ∧
    nodes w' !! targetPath = Some (File c) ∧
    (∀ w5, fs_removeSync temp w4 = (Ok tt, w5) → nodes w' !! temp = None).
Proof.
  intros archive temp Hmeta Hfind [a Ha] Ht Hc1 Hc2 Hc3.
  assert (Htt : temp ≠ targetPath) by apply temp_backup_ne.
  destruct (getMetadata_total self w) as (v & w1' & Hmeta' & Hn1).
  rewrite Hmeta in Hmeta'. injection Hmeta' as <- <-.
  destruct (fs_copy_frame _ _ _ _ _ Hc1) as [_ Hok1].
  destruct (fs_copy_frame _ _ _ _ _ Hc2) as [Hfr2 _].
  destruct (fs_copy_frame _ _ _ _ _ Hc3) as [_ Hok3].
  assert (nodes w4 !! targetPath = Some (File c)) as Ht4.
  { rewrite Hok3, Hfr2, Hok1 by done. by rewrite Hn1. }
  destruct (fs_removeSync temp w4) as [r5 w5] eqn:Hrm.
  destruct (fs_removeSync_frame _ _ _ _ Hrm) as [Hfr5 _].
  exists w5. split; [|split].
  - unfold restoreBackup.
    assert (∃ e', (fs_removeSync temp ≫= λ _ : (), throw e) w4 = (@Throw unit e', w5))
      as [e' He'].
    { destruct r5 as [[]|e5].
      - erewrite bind_run by exact Hrm. by eexists.
      - erewrite bind_throw by exact Hrm. by eexists. }
    erewrite try_catch_throw; [reflexivity|].
    run_step by exact Hmeta. rewrite Hfind. fold archive.
    run_step by (eapply fs_existsSync_true; rewrite Hn1; exact Ha). cbn [negb].
    run_step by (eapply fs_existsSync_true; rewrite Hn1; exact Ht).
    apply bind_throw. fold temp.
    run_step by exact Hc1.
    erewrite try_catch_throw by (apply bind_throw; exact Hc2).
    run_step by exact Hc3. exact He'.
  - by rewrite Hfr5.
  - intros w5' [= -> <-]. apply fs_removeSync_ok in Hrm. rewrite Hrm.
    apply lookup_delete_eq.
Qed.

Lemma restoreBackup_rollback_witness :
  getMetadata (store 2) rollbackWorld = (Ok (JLedger [recordA]), rollback1) ∧
  find (λ b, bool_decide (id b = id recordA)) [recordA] = Some recordA ∧
  is_Some (nodes rollbackWorld !! archivePath (store 2) recordA) ∧
  nodes rollbackWorld !! save = Some (File (Raw bytesB)) ∧
  fs_copy save (save +:+ ".temp_backup") rollback1 = (Ok tt, rollback2) ∧
  fs_copy (archivePath (store 2) recordA) save rollback2
  = (Throw (EIO save), rollback3) ∧
  nodes rollback3 !! save = Some (File (Raw partial)) ∧
  fs_copy (save +:+ ".temp_backup") save rollback3 = (Ok tt, rollback4) ∧
  ∃ w',
    restoreBackup (store 2) (id recordA) save rollbackWorld = (Ok false, w') ∧
    nodes w' !! save = Some (File (Raw bytesB)) ∧
    nodes w' !! (save +:+ ".temp_backup") = None.
Proof.
  assert (H1 : getMetadata (store 2) rollbackWorld = (Ok (JLedger [recordA]), rollback1))
    by (vm_compute; reflexivity).
  assert (H2 : find (λ b, bool_decide (id b = id recordA)) [recordA] = Some recordA)
    by (vm_compute; reflexivity).
  assert (H3 : is_Some (nodes rollbackWorld !! archivePath (store 2) recordA))
    by (exists (File (Raw bytesA)); vm_compute; reflexivity).
  assert (H4 : nodes rollbackWorld !! save = Some (File (Raw bytesB)))
    by (vm_compute; reflexivity).
  assert (H5 : fs_copy save (save +:+ ".temp_backup") rollback1 = (Ok tt, rollback2))
    by (vm_compute; reflexivity).
  assert (H6 : fs_copy (archivePath (store 2) recordA) save rollback2
               = (Throw (EIO save), rollback3)) by (vm_compute; reflexivity).
  assert (H7 : fs_copy (save +:+ ".temp_backup") save rollback3 = (Ok tt, rollback4))
    by (vm_compute; reflexivity).
  split; [exact H1|]. split; [exact H2|]. split; [exact H3|]. split; [exact H4|].
  split; [exact H5|]. split; [exact H6|]. split; [vm_compute; reflexivity|].
  split; [exact H7|].
  destruct (restoreBackup_rollback (store 2) (id recordA) save rollbackWorld
              [recordA] recordA (Raw bytesB) rollback1 rollback2 (EIO save)
              rollback3 rollback4 H1 H2 H3 H4 H5 H6 H7)
    as (w' & Hrun & Htarget & Htemp).
  exists w'. split; [exact Hrun|]. split; [exact Htarget|].
  apply (Htemp (worldAfter (fs_removeSync (save +:+ ".temp_backup") rollback4))).
  vm_compute; reflexivity.
Defined.

(** C4 does not hold when the copy back fails as well: the target is
    left with the partial bytes of the failed restore. *)
Lemma restoreBackup_broken_rollback_counterexample :
  nodes brokenWorld !! save = Some (File (Raw bytesB)) ∧
  nodes brokenWorld !! archivePath (store 2) recordA = Some (File (Raw bytesA)) ∧
  ∃ w',
    restoreBackup (store 2) (id recordA) save brokenWorld = (Ok false, w') ∧
    nodes w' !! save = Some (File (Raw partial)) ∧
    nodes w' !! save ≠ nodes brokenWorld !! save.
Proof.
  split; [vm_compute; reflexivity|]. split; [vm_compute; reflexivity|].
  exists (worldAfter (restoreBackup (store 2) (id recordA) save brokenWorld)).
  split; [|split]; try (vm_compute; reflexivity). vm_compute. discriminate.
Qed.

(** A restore that fails never loses the content the target had: it is
    still in the target or, when the copy back failed, in the temporary
    sibling. *)
Lemma restoreBackup_keeps_original self backupId targetPath w c w' :
  nodes w !! targetPath = Some (File c) →
  restoreBackup self backupId targetPath w = (Ok false, w') →
  nodes w' !! targetPath = Some (File c) ∨
  nodes w' !! (targetPath +:+ ".temp_backup") = Some (File c).
Proof.
  intros Ht H.
  assert (Htt : targetPath +:+ ".temp_backup" ≠ targetPath) by apply temp_backup_ne.
  unfold restoreBackup in H. unfold try_catch at 1 in H.
  match type of H with
  | match ?b w with _ => _ end = _ => destruct (b w) as [[r|e] s0] eqn:Hbody
  end.
  { exfalso. injection H as -> ->. 
    inv_bind Hbody as metadata s1 H1. destruct metadata; [|done].
    destruct (find _ _); [|done].
    inv_bind Hbody as archived s2 H2. destruct (negb archived); [done|].
    inv_bind Hbody as targetExists s3 H3. inv_bind Hbody as [] s4 H4. done. }
  injection H as <-.
  destruct (getMetadata_total self w) as (v & w1 & Hmeta & Hn1).
  erewrite bind_run in Hbody by exact Hmeta. cbn beta iota in Hbody.
  destruct v as [backups|]; [|injection Hbody as _ <-; left; by rewrite Hn1].
  destruct (find _ backups) as [backup|];
    [|injection Hbody as _ <-; left; by rewrite Hn1].
  set (archive := path_join (backupPath self) (backupFileName backup)) in *.
  set (temp := targetPath +:+ ".temp_backup") in *.
  erewrite bind_run in Hbody by reflexivity. cbn beta iota in Hbody.
  destruct (negb _); [injection Hbody as _ <-; left; by rewrite Hn1|].
  erewrite bind_run in Hbody by (eapply fs_existsSync_true; rewrite Hn1; exact Ht).
  cbn beta iota in Hbody.
  destruct (fs_copy targetPath temp w1) as [[[]|e1] w2] eqn:Hc1;
    destruct (fs_copy_frame _ _ _ _ _ Hc1) as [Hfr1 Hok1].
  2:{ erewrite bind_throw in Hbody by (apply bind_throw; exact Hc1).
      injection Hbody as _ <-. left. rewrite Hfr1 by done. by rewrite Hn1. }
  assert (nodes w2 !! temp = Some (File c)) as Htemp2
    by (rewrite Hok1 by done; by rewrite Hn1).
  destruct ((fs_copy archive targetPath ≫= λ _, fs_removeSync temp) w2)
    as [[[]|e2] w3] eqn:Hin.
  { erewrite bind_run in Hbody
      by (erewrite bind_run by exact Hc1; by apply try_catch_run).
    discriminate. }
  assert (nodes w3 !! temp = Some (File c)) as Htemp3.
  { destruct (fs_copy archive targetPath w2) as [[[]|e3] w2'] eqn:Hc2;
      destruct (fs_copy_frame _ _ _ _ _ Hc2) as [Hfr2 _].
    - erewrite bind_run in Hin by exact Hc2. cbn beta in Hin.
      apply fs_removeSync_frame in Hin as [_ Hsame].
      rewrite (Hsame e2 eq_refl). by rewrite Hfr2.
    - erewrite bind_throw in Hin by exact Hc2. injection Hin as _ <-.
      by rewrite Hfr2. }
  destruct (fs_copy temp targetPath w3) as [[[]|e4] w4] eqn:Hc3;
    destruct (fs_copy_frame _ _ _ _ _ Hc3) as [Hfr3 Hok3].
  - destruct (fs_removeSync temp w4) as [r5 w5] eqn:Hrm.
    destruct (fs_removeSync_frame _ _ _ _ Hrm) as [Hfr5 _].
    assert (∃ e', (fs_removeSync temp ≫= λ _ : (), throw e2) w4 = (@Throw unit e', w5))
      as [e' He'].
    { destruct r5 as [[]|e5].
      - erewrite bind_run by exact Hrm. by eexists.
      - erewrite bind_throw by exact Hrm. by eexists. }
    erewrite bind_throw in Hbody.
    2:{ erewrite bind_run by exact Hc1. cbn beta.
        erewrite try_catch_throw by exact Hin.
        erewrite bind_run by exact Hc3. exact He'. }
    injection Hbody as _ <-. left.
    rewrite Hfr5 by done. rewrite Hok3 by done. exact Htemp3.
  - erewrite bind_throw in Hbody.
    2:{ erewrite bind_run by exact Hc1. cbn beta.
        erewrite try_catch_throw by exact Hin.
        apply bind_throw. exact Hc3. }
    injection Hbody as _ <-. right. rewrite Hfr3 by done. exact Htemp3.
Qed.

Lemma restoreBackup_keeps_original_witness :
  nodes brokenWorld !! save = Some (File (Raw bytesB)) ∧
  restoreBackup (store 2) (id recordA) save brokenWorld
  = (Ok false, worldAfter (restoreBackup (store 2) (id recordA) save brokenWorld)) ∧
  nodes (worldAfter (restoreBackup (store 2) (id recordA) save brokenWorld))
    !! (save +:+ ".temp_backup") = Some (File (Raw bytesB)).
Proof.
  assert (H1 : nodes brokenWorld !! save = Some (File (Raw bytesB)))
    by (vm_compute; reflexivity).
  assert (H2 : restoreBackup (store 2) (id recordA) save brokenWorld
               = (Ok false,
                  worldAfter (restoreBackup (store 2) (id recordA) save brokenWorld)))
    by (vm_compute; reflexivity).
  split; [exact H1|]. split; [exact H2|].
  destruct (restoreBackup_keeps_original (store 2) (id recordA) save brokenWorld
              (Raw bytesB) _ H1 H2) as [Htarget|Htemp]; [|exact Htemp].
  exfalso. revert Htarget. vm_compute. discriminate.
Defined.

(** ** Captures when no I/O call fails *)

Lemma ensureBackupDir_present self w :
  is_Some (nodes w !! backupPath self) →
  is_Some (nodes w !! metadataFile self) →
  ensureBackupDir self w = (Ok tt, w).
Proof.
  intros [d Hd] [m Hm]. unfold ensureBackupDir. apply try_catch_run.
  run_step by (by eapply fs_existsSync_true). cbn [negb].
  run_step by reflexivity.
  run_step by (by eapply fs_existsSync_true). reflexivity.
Qed.

Lemma fs_copy_free src dest w c :
  copyFaults w = [] →
  nodes w !! src = Some (File c) →
  src ≠ dest →
  (∀ sz, nodes w !! dest ≠ Some (Dir sz)) →
  fs_copy src dest w = (Ok tt, set_nodes <[dest := File c]> w).
Proof.
  intros Hf Hs Hne Hd. unfold fs_copy. rewrite Hs, Hf.
  rewrite bool_decide_eq_false_2 by done.
  destruct (nodes w !! dest) as [[c'|sz]|]; try (by destruct w; cbn in *; subst).
  by destruct (Hd sz).
Qed.

Lemma calculateFileHash_free p w c :
  readFaults w = [] →
  nodes w !! p = Some (File c) →
  calculateFileHash p w = (Ok (MD5.hexdigest (content_bytes c)), w).
Proof.
  intros Hf Hp. erewrite calculateFileHash_run; [|done|by rewrite Hf].
  by destruct w; cbn in *; subst.
Qed.

Lemma getMetadata_free self w v :
  readFaults w = [] →
  nodes w !! metadataFile self = Some (File (Json v)) →
  getMetadata self w = (Ok v, w).
Proof.
  intros Hf Hm. erewrite getMetadata_readable; [|done|by rewrite Hf].
  by destruct w; cbn in *; subst.
Qed.

Lemma fs_writeJsonSync_free p v w :
  writeFaults w = [] →
  (∀ sz, nodes w !! p ≠ Some (Dir sz)) →
  fs_writeJsonSync p v w = (Ok tt, set_nodes <[p := File (Json v)]> w).
Proof.
  intros Hf Hd. unfold fs_writeJsonSync. rewrite Hf.
  destruct (nodes w !! p) as [[c'|sz]|]; try (by destruct w; cbn in *; subst).
  by destruct (Hd sz).
Qed.

Lemma fs_readJsonSync_free p v w :
  readFaults w = [] →
  nodes w !! p = Some (File (Json v)) →
  fs_readJsonSync p w = (Ok v, w).
Proof.
  intros Hf Hp. unfold fs_readJsonSync. rewrite Hp, Hf.
  by destruct w; cbn in *; subst.
Qed.

(** Eviction when no removal fails: the files left are files that were
    there, and the archive files of the removed records are not among
    them. *)
Lemma cleanupOldBackups_free self l w :
  0 ≤ maxBackups self →
  removeFaults w = [] →
  ∃ kept n',
    cleanupOldBackups self l w = (Ok kept, set_nodes (λ _, n') w) ∧
    (∀ p, n' !! p = None ∨ n' !! p = nodes w !! p) ∧
    (Z.of_nat (length l) ≤ maxBackups self → kept = l ∧ n' = nodes w) ∧
    (maxBackups self < Z.of_nat (length l) →
       Z.of_nat (length kept) = maxBackups self).
Proof.
  intros Hmax Hf. unfold cleanupOldBackups.
  destruct (Z.leb_spec (Z.of_nat (length l)) (maxBackups self)) as [Hle|Hgt].
  - exists l, (nodes w). split; [by destruct w|].
    split; [by right|]. split; [done|lia].
  - destruct (evict_loop self (js_slice_from (js_sort newestFirst l) (maxBackups self)) w)
      as (n' & rf' & Hrun & _ & Hmono & Hgone).
    destruct (Hgone Hf) as [-> _].
    eexists _, n'. split.
    { erewrite bind_run by exact Hrun. cbn. by destruct w; cbn in *; subst. }
    split; [done|]. split; [lia|]. intros _.
    rewrite js_slice_prefix by done. rewrite length_take, js_sort_length. lia.
Qed.

(** A capture whose digest equals the digest of the last element of
    the ledger array, which is the record the duplicate test reads, when no
    I/O call fails and the archive name is fresh: [createBackup] returns the
    new record, the ledger written is the outcome of eviction on the old
    ledger with the record appended, the archive file just written is
    deleted again, and apart from [metadata.json] every file present
    afterwards was present before with the same content. *)
Lemma createBackup_duplicate_run self src w c backups lastBackup :
  let backupId := "backup_" +:+ pretty (clock w) +:+ "_" +:+ random w in
  let fileName := path_basename src in
  let backupFileName := backupId +:+ "_" +:+ fileName in
  let backupFilePath := path_join (backupPath self) backupFileName in
  let fileHash := MD5.hexdigest (content_bytes c) in
  let info :=
    mkBackupInfo backupId fileName backupFileName (clock w)
                 (Z.of_nat (length (content_bytes c))) fileHash src None in
  0 ≤ maxBackups self →
  fault_free w →
  nodes w !! src = Some (File c) →
  is_Some (nodes w !! backupPath self) →
  nodes w !! metadataFile self = Some (File (Json (JLedger backups))) →
  last backups = Some lastBackup →
  hash lastBackup = fileHash →
  nodes w !! backupFilePath = None →
  ∃ persisted w',
    createBackup self src w = (Ok (Some info), w') ∧
    nodes w' !! metadataFile self = Some (File (Json (JLedger persisted))) ∧
    (Z.of_nat (length backups) < maxBackups self → persisted = backups ++ [info]) ∧
    (maxBackups self ≤ Z.of_nat (length backups) →
       Z.of_nat (length persisted) = maxBackups self) ∧
    nodes w' !! backupFilePath = None ∧
    (∀ p n, p ≠ metadataFile self → nodes w' !! p = Some n → nodes w !! p = Some n).
Proof.
  intros backupId fileName backupFileName backupFilePath fileHash info
         Hmax (Hcf & Hwf & Hrmf & Hrdf) Hsrc Hdir Hmeta Hlast Hhash Hfresh.
  assert (Hsb : src ≠ backupFilePath) by congruence.
  assert (Hmb : backupFilePath ≠ metadataFile self) by apply archive_ne_metadata.
  set (w1 := set_nodes <[backupFilePath := File c]> w).
  destruct (cleanupOldBackups_free self (backups ++ [info]) w1 Hmax Hrmf)
    as (kept & n' & Hclean & Hmono & Hsmall & Hfull).
  set (w2 := set_nodes (λ _, n') w1) in *.
  set (w3 := set_nodes <[metadataFile self := File (Json (JLedger kept))]> w2).
  set (w4 := set_nodes (delete backupFilePath) w3).
  exists kept, w4. split.
  { unfold createBackup. apply try_catch_run.
    run_step by (by eapply fs_existsSync_true). cbn [negb].
    run_step by (unfold fs_statSync; by rewrite Hsrc).
    run_step by reflexivity.
    run_step by reflexivity.
    run_step by (by apply ensureBackupDir_present).
    run_step by (apply fs_copy_free; [done|done|done|]; intros sz;
                 change (nodes w !! backupFilePath ≠ Some (Dir sz)); by rewrite Hfresh).
    fold backupId fileName backupFileName backupFilePath w1.
    run_step by (by eapply fs_existsSync_true; apply lookup_insert_eq). cbn [negb].
    run_step by (apply calculateFileHash_free; [done|];
                 cbn; by rewrite lookup_insert_ne).
    run_step by (apply getMetadata_free; [done|];
                 cbn; by rewrite lookup_insert_ne).
    rewrite Hlast, Hhash. rewrite bool_decide_eq_true_2 by done.
    fold fileHash info.
    run_step by exact Hclean.
    run_step by (apply fs_writeJsonSync_free; [done|]; intros sz; cbn;
                 destruct (Hmono (metadataFile self)) as [-> | ->]; [done|];
                 cbn; rewrite lookup_insert_ne by done; by rewrite Hmeta).
    fold w3.
    run_step by (eapply fs_existsSync_true; apply lookup_insert_eq).
    run_step by (erewrite bind_run
                   by (apply fs_readJsonSync_free; [done|apply lookup_insert_eq]);
                 reflexivity).
    run_step by (apply try_catch_run; by apply fs_removeSync_pass).
    reflexivity. }
  split; [|split; [|split; [|split]]].
  - cbn. rewrite lookup_delete_ne by done. apply lookup_insert_eq.
  - intros Hlt. apply Hsmall. rewrite length_app. simpl. lia.
  - intros Hge. apply Hfull. rewrite length_app. simpl. lia.
  - cbn. apply lookup_delete_eq.
  - intros p n Hp. cbn. intros Hn.
    destruct (decide (backupFilePath = p)) as [<-|Hpb];
      [by rewrite lookup_delete_eq in Hn|].
    rewrite lookup_delete_ne, lookup_insert_ne in Hn by done.
    destruct (Hmono p) as [Hx|Hx]; rewrite Hx in Hn; [done|].
    cbn in Hn. by rewrite lookup_insert_ne in Hn.
Qed.

(** C3, as the code has it. A capture whose digest equals the digest
    of the record appended last, the newest of the ledger, on a ledger that
    still has that record at its end, when no I/O call fails and the
    archive name is fresh: [createBackup] returns the new record, the
    ledger written is the outcome of eviction on the old ledger with the
    record appended (so it has grown by one record when the old ledger held
    fewer than [maxBackups] records, and holds [maxBackups] records
    otherwise), the archive file just written is deleted again, and apart
    from [metadata.json] every file present afterwards was present
    before with the same content: no archive file has been added. *)
Theorem createBackup_duplicate self src w c backups lastBackup :
  let backupId := "backup_" +:+ pretty (clock w) +:+ "_" +:+ random w in
  let fileName := path_basename src in
  let backupFileName := backupId +:+ "_" +:+ fileName in
  let backupFilePath := path_join (backupPath self) backupFileName in
  let fileHash := MD5.hexdigest (content_bytes c) in
  let info :=
    mkBackupInfo backupId fileName backupFileName (clock w)
                 (Z.of_nat (length (content_bytes c))) fileHash src None in
  0 ≤ maxBackups self →
  fault_free w →
  nodes w !! src = Some (File c) →
  is_Some (nodes w !! backupPath self) →
  nodes w !! metadataFile self = Some (File (Json (JLedger backups))) →
  last backups = Some lastBackup →
  Forall (λ b, timestamp b ≤ timestamp lastBackup) backups →
  hash lastBackup = fileHash →
  nodes w !! backupFilePath = None →
  ∃ persisted w',
    createBackup self src w = (Ok (Some info), w') ∧
    nodes w' !! metadataFile self = Some (File (Json (JLedger persisted))) ∧
    (Z.of_nat (length backups) < maxBackups self → persisted = backups ++ [info]) ∧
    (maxBackups self ≤ Z.of_nat (length backups) →
       Z.of_nat (length persisted) = maxBackups self) ∧
    nodes w' !! backupFilePath = None ∧
    (∀ p n, p ≠ metadataFile self → nodes w' !! p = Some n → nodes w !! p = Some n).
Proof.
  intros backupId fileName backupFileName backupFilePath fileHash info
         Hmax Hfree Hsrc Hdir Hmeta Hlast _ Hhash Hfresh.
  by apply (createBackup_duplicate_run self src w c backups lastBackup).
Qed.

Lemma createBackup_duplicate_witness :
  0 ≤ maxBackups (store 3) ∧
  fault_free sameWorld ∧
  nodes sameWorld !! save = Some (File (Raw bytesA)) ∧
  is_Some (nodes sameWorld !! backupPath (store 3)) ∧
  nodes sameWorld !! metadataFile (store 3) = Some (File (Json (JLedger [recordA]))) ∧
  last [recordA] = Some recordA ∧
  Forall (λ b, timestamp b ≤ timestamp recordA) [recordA] ∧
  hash recordA = MD5.hexdigest bytesA ∧
  nodes sameWorld !! archivePath (store 3) (captured bytesA) = None ∧
  ∃ w',
    createBackup (store 3) save sameWorld = (Ok (Some (captured bytesA)), w') ∧
    nodes w' !! metadataFile (store 3)
    = Some (File (Json (JLedger [recordA; captured bytesA]))) ∧
    nodes w' !! archivePath (store 3) (captured bytesA) = None.
Proof.
  assert (H0 : 0 ≤ maxBackups (store 3)) by (vm_compute; discriminate).
  assert (H1 : fault_free sameWorld) by (split; [|split; [|split]]; reflexivity).
  assert (H2 : nodes sameWorld !! save = Some (File (Raw bytesA)))
    by (vm_compute; reflexivity).
  assert (H3 : is_Some (nodes sameWorld !! backupPath (store 3)))
    by (exists (Dir 0); vm_compute; reflexivity).
  assert (H4 : nodes sameWorld !! metadataFile (store 3)
               = Some (File (Json (JLedger [recordA])))) by (vm_compute; reflexivity).
  assert (H5 : last [recordA] = Some recordA) by reflexivity.
  assert (H5' : Forall (λ b, timestamp b ≤ timestamp recordA) [recordA])
    by (constructor; [reflexivity|constructor]).
  assert (H6 : hash recordA = MD5.hexdigest (content_bytes (Raw bytesA))) by reflexivity.
  assert (H7 : nodes sameWorld !! archivePath (store 3) (captured bytesA) = None)
    by (vm_compute; reflexivity).
  split; [exact H0|]. split; [exact H1|]. split; [exact H2|]. split; [exact H3|].
  split; [exact H4|]. split; [exact H5|]. split; [exact H5'|]. split; [exact H6|].
  split; [exact H7|].
  destruct (createBackup_duplicate (store 3) save sameWorld (Raw bytesA) [recordA] recordA
              H0 H1 H2 H3 H4 H5 H5' H6 H7)
    as (persisted & w' & Hrun & Hmeta & Hgrow & _ & Hgone & _).
  exists w'. split; [exact Hrun|]. split; [|exact Hgone].
  rewrite Hmeta, Hgrow; [reflexivity|]. vm_compute. reflexivity.
Defined.

(** C3 does not hold on a full ledger: with [maxBackups = 1] and one
    record, a duplicate capture leaves a ledger of one record. *)
Lemma createBackup_duplicate_full_ledger_counterexample :
  nodes sameWorld !! save = Some (File (Raw bytesA)) ∧
  nodes sameWorld !! metadataFile (store 1) = Some (File (Json (JLedger [recordA]))) ∧
  hash recordA = MD5.hexdigest bytesA ∧
  ∃ w',
    createBackup (store 1) save sameWorld = (Ok (Some (captured bytesA)), w') ∧
    nodes w' !! metadataFile (store 1)
    = Some (File (Json (JLedger [captured bytesA]))) ∧
    length [captured bytesA] = length [recordA].
Proof.
  split; [vm_compute; reflexivity|]. split; [vm_compute; reflexivity|].
  split; [reflexivity|].
  exists (worldAfter (createBackup (store 1) save sameWorld)).
  split; [|split]; vm_compute; reflexivity.
Qed.

(** ** A capture on an archive directory whose ledger is unusable *)

(** A capture when the ledger file is missing or holds text that is not
    JSON, and no I/O call fails: [createBackup] starts a new ledger with the
    new record alone, and the archive file holds the bytes of the source. *)
Lemma createBackup_unusable_ledger self src w c :
  let backupId := "backup_" +:+ pretty (clock w) +:+ "_" +:+ random w in
  let fileName := path_basename src in
  let backupFileName := backupId +:+ "_" +:+ fileName in
  let backupFilePath := path_join (backupPath self) backupFileName in
  let info :=
    mkBackupInfo backupId fileName backupFileName (clock w)
                 (Z.of_nat (length (content_bytes c)))
                 (MD5.hexdigest (content_bytes c)) src None in
  1 ≤ maxBackups self →
  fault_free w →
  nodes w !! src = Some (File c) →
  is_Some (nodes w !! backupPath self) →
  nodes w !! backupFilePath = None →
  (nodes w !! metadataFile self = None ∨
   ∃ bytes, nodes w !! metadataFile self = Some (File (Raw bytes))) →
  ∃ w',
    createBackup self src w = (Ok (Some info), w') ∧
    nodes w' !! metadataFile self = Some (File (Json (JLedger [info]))) ∧
    nodes w' !! backupFilePath = Some (File c).
Proof.
  intros backupId fileName backupFileName backupFilePath info
         Hmax (Hcf & Hwf & Hrmf & Hrdf) Hsrc Hdir Hfresh Hmeta.
  assert (Hsb : src ≠ backupFilePath) by congruence.
  assert (Hmb : backupFilePath ≠ metadataFile self) by apply archive_ne_metadata.
  assert (∃ n0,
    ensureBackupDir self w = (Ok tt, set_nodes (λ _, n0) w) ∧
    n0 !! src = Some (File c) ∧ n0 !! backupFilePath = None ∧
    (∀ n1, n1 !! metadataFile self = n0 !! metadataFile self →
       getMetadata self (set_nodes (λ _, n1) w) = (Ok emptyLedger, set_nodes (λ _, n1) w)) ∧
    (∀ sz, n0 !! metadataFile self ≠ Some (Dir sz)))
    as (n0 & Hens & Hsrc0 & Hfresh0 & Hget & Hnd).
  { destruct Hmeta as [Hm|[bytes Hm]].
    - exists (<[metadataFile self := File (Json emptyLedger)]> (nodes w)).
      assert (src ≠ metadataFile self) by congruence.
      split; [|split; [|split; [|split]]].
      + unfold ensureBackupDir. apply try_catch_run. destruct Hdir as [d Hd].
        run_step by (by eapply fs_existsSync_true). cbn [negb].
        run_step by reflexivity.
        run_step by (by apply fs_existsSync_false). cbn [negb].
        rewrite fs_writeJsonSync_free by (done || (intros sz; by rewrite Hm)).
        by destruct w.
      + by rewrite lookup_insert_ne.
      + by rewrite lookup_insert_ne.
      + intros n1 Hn1. apply getMetadata_free; [done|].
        cbn. rewrite Hn1. apply lookup_insert_eq.
      + intros sz. by rewrite lookup_insert_eq.
    - exists (nodes w). split; [|split; [|split; [|split]]]; try done.
      + rewrite ensureBackupDir_present by eauto. by destruct w.
      + intros n1 Hn1. rewrite getMetadata_run. cbn. rewrite Hn1, Hm.
        unfold fs_readJsonSync. cbn. rewrite Hn1, Hm, Hrdf. cbn.
        by destruct w; cbn in *; subst.
      + intros sz. by rewrite Hm. }
  set (w0 := set_nodes (λ _, n0) w) in *.
  set (w1 := set_nodes <[backupFilePath := File c]> w0).
  set (w2 := set_nodes <[metadataFile self := File (Json (JLedger [info]))]> w1).
  exists w2. split; [|split].
  - unfold createBackup. apply try_catch_run.
    run_step by (by eapply fs_existsSync_true). cbn [negb].
    run_step by (unfold fs_statSync; by rewrite Hsrc).
    run_step by reflexivity.
    run_step by reflexivity.
    run_step by exact Hens.
    run_step by (apply fs_copy_free; [done|exact Hsrc0|done|]; intros sz;
                 change (nodes w0 !! backupFilePath ≠ Some (Dir sz)); cbn;
                 by rewrite Hfresh0).
    fold backupId fileName backupFileName backupFilePath w1.
    run_step by (by eapply fs_existsSync_true; apply lookup_insert_eq). cbn [negb].
    run_step by (apply calculateFileHash_free; [done|];
                 cbn; rewrite lookup_insert_ne by done; exact Hsrc0).
    run_step by (apply (Hget (<[backupFilePath := File c]> n0));
                 by rewrite lookup_insert_ne).
    unfold emptyLedger. cbn beta iota. cbn [last app]. fold info.
    run_step by (unfold cleanupOldBackups;
                 destruct (Z.leb_spec (Z.of_nat (length [info])) (maxBackups self));
                 [reflexivity|simpl in *; lia]).
    run_step by (apply fs_writeJsonSync_free; [done|]; intros sz; cbn;
                 rewrite lookup_insert_ne by done; apply Hnd).
    fold w2.
    run_step by (eapply fs_existsSync_true; apply lookup_insert_eq).
    run_step by (erewrite bind_run
                   by (apply fs_readJsonSync_free; [done|apply lookup_insert_eq]);
                 reflexivity).
    run_step by reflexivity. reflexivity.
  - cbn. apply lookup_insert_eq.
  - cbn. rewrite lookup_insert_ne by done. apply lookup_insert_eq.
Qed.

Lemma createBackup_unusable_ledger_witness :
  1 ≤ maxBackups (store 2) ∧
  fault_free corruptWorld ∧
  nodes corruptWorld !! save = Some (File (Raw bytesA)) ∧
  nodes corruptWorld !! metadataFile (store 2) = Some (File (Raw bytesA)) ∧
  ∃ w',
    createBackup (store 2) save corruptWorld = (Ok (Some (captured bytesA)), w') ∧
    nodes w' !! metadataFile (store 2)
    = Some (File (Json (JLedger [captured bytesA]))).
Proof.
  assert (H0 : 1 ≤ maxBackups (store 2)) by (vm_compute; discriminate).
  assert (H1 : fault_free corruptWorld) by (split; [|split; [|split]]; reflexivity).
  assert (H2 : nodes corruptWorld !! save = Some (File (Raw bytesA)))
    by (vm_compute; reflexivity).
  assert (H3 : is_Some (nodes corruptWorld !! backupPath (store 2)))
    by (exists (Dir 0); vm_compute; reflexivity).
  assert (H4 : nodes corruptWorld !! archivePath (store 2) (captured bytesA) = None)
    by (vm_compute; reflexivity).
  assert (H5 : nodes corruptWorld !! metadataFile (store 2) = Some (File (Raw bytesA)))
    by (vm_compute; reflexivity).
  split; [exact H0|]. split; [exact H1|]. split; [exact H2|]. split; [exact H5|].
  destruct (createBackup_unusable_ledger (store 2) save corruptWorld (Raw bytesA)
              H0 H1 H2 H3 H4 (or_intror (ex_intro _ bytesA H5)))
    as (w' & Hrun & Hm & _).
  exists w'. split; [exact Hrun|exact Hm].
Defined.

(** ** A session from start to the fourth save *)

(** Saves of "AAAA", "BBBB", "CCCC" and "DDDD" under a ceiling of two
    backups leave the records of "DDDD" and "CCCC", and their two archive
    files only. *)
Example story_keeps_two_newest :
  nodes (world story) !! metadataFile (store 2)
  = Some (File (Json (JLedger [recordOf 4000 "r4" bytesD; recordOf 3000 "r3" bytesC]))) ∧
  dom (nodes (world story))
  = {[ save; root; metadataFile (store 2);
       archivePath (store 2) (recordOf 4000 "r4" bytesD);
       archivePath (store 2) (recordOf 3000 "r3" bytesC) ]}.
Proof. split; vm_compute; reflexivity. Qed.

(** After an eviction the ledger is sorted newest-first, so the record
    the duplicate test looks at, the last one, is the oldest: a forced
    backup of unchanged content is then stored as a new backup. *)
Example forced_backup_after_eviction :
  nodes (world again) !! metadataFile (store 2)
  = Some (File (Json (JLedger [recordOf 5000 "r5" bytesD; recordOf 4000 "r4" bytesD]))) ∧
  nodes (world again) !! archivePath (store 2) (recordOf 5000 "r5" bytesD)
  = Some (File (Raw bytesD)) ∧
  nodes (world again) !! archivePath (store 2) (recordOf 4000 "r4" bytesD)
  = Some (File (Raw bytesD)).
Proof. split; [|split]; vm_compute; reflexivity. Qed.

(** * More of the backup store *)

(** ** Listing, looking up and deleting records *)

(** [getBackupList()] never throws and changes no file; the list it
    returns is sorted newest first, and it holds the records of the ledger
    that [getMetadata] reads (none when that is not a ledger). *)
Theorem getBackupList_newest_first self w :
  ∃ l w',
    getBackupList self w = (Ok l, w') ∧
    nodes w' = nodes w ∧
    StronglySorted notOlder l ∧
    (∀ backups w1, getMetadata self w = (Ok (JLedger backups), w1) →
       l ≡ₚ backups ∧ w' = w1) ∧
    (∀ text w1, getMetadata self w = (Ok (JOther text), w1) → l = []).
Proof.
  destruct (getMetadata_total self w) as (v & w1 & Hmeta & Hn).
  unfold getBackupList.
  destruct v as [backups|text].
  - exists (js_sort newestFirst backups), w1.
    split; [apply try_catch_run; by run_step by exact Hmeta|].
    split; [done|]. split; [apply js_sort_newestFirst_sorted|].
    split.
    + intros b' w1' H. rewrite Hmeta in H. injection H as <- <-.
      split; [apply js_sort_perm|done].
    + intros t w1' H. rewrite Hmeta in H. discriminate.
  - exists [], w1.
    split; [erewrite try_catch_throw; [reflexivity|]; by run_step by exact Hmeta|].
    split; [done|]. split; [constructor|].
    split.
    + intros b' w1' H. rewrite Hmeta in H. discriminate.
    + done.
Qed.

(** [deleteBackup(backupId)] when no I/O call fails. Without a record of
    that id it returns [false] and changes nothing. Otherwise it returns
    [true]: the archive file of the first record with that id is removed,
    the ledger is written without that record and no other file changes;
    when the ids of the ledger are distinct, no record with that id is
    left. *)
Theorem deleteBackup_removes self backupId w backups :
  fault_free w →
  nodes w !! metadataFile self = Some (File (Json (JLedger backups))) →
  match list_find (λ b, id b = backupId) backups with
  | None => deleteBackup self backupId w = (Ok false, w)
  | Some (i, backup) =>
      ∃ w',
        deleteBackup self backupId w = (Ok true, w') ∧
        nodes w' = <[metadataFile self := File (Json (JLedger (delete i backups)))]>
                     (delete (archivePath self backup) (nodes w)) ∧
        length (delete i backups) = pred (length backups) ∧
        (NoDup (id <$> backups) → ∀ b, b ∈ delete i backups → id b ≠ backupId)
  end.
Proof.
  intros (Hcf & Hwf & Hrmf & Hrdf) Hmeta.
  destruct (list_find _ backups) as [[i backup]|] eqn:Hfind.
  - set (archive := archivePath self backup).
    assert (∃ w', deleteBackup self backupId w = (Ok true, w') ∧
              nodes w' = <[metadataFile self := File (Json (JLedger (delete i backups)))]>
                           (delete archive (nodes w))) as (w' & Hrun & Hn).
    { unfold deleteBackup.
      destruct (nodes w !! archive) as [n|] eqn:Ha.
      - eexists. split.
        + apply try_catch_run.
          run_step by (by apply getMetadata_free).
          rewrite Hfind.
          run_step by (by eapply fs_existsSync_true).
          run_step by (by apply fs_removeSync_pass).
          run_step by (apply fs_writeJsonSync_free; [done|]; intros sz Hd; cbn in Hd;
                       apply lookup_delete_Some in Hd as [_ Hd]; by rewrite Hmeta in Hd).
          reflexivity.
        + done.
      - eexists. split.
        + apply try_catch_run.
          run_step by (by apply getMetadata_free).
          rewrite Hfind.
          run_step by (by apply fs_existsSync_false).
          run_step by reflexivity.
          run_step by (apply fs_writeJsonSync_free; [done|]; intros sz Hd;
                       by rewrite Hmeta in Hd).
          reflexivity.
        + cbn. by rewrite delete_id. }
    exists w'. split; [done|]. split; [done|]. split.
    + apply list_find_Some in Hfind as (Hi & _ & _).
      rewrite length_delete by eauto. lia.
    + intros Hnd b Hb Hid.
      apply list_find_Some in Hfind as (Hi & Hidb & _).
      apply list_elem_of_lookup in Hb as [j Hj].
      assert (∃ j', j' ≠ i ∧ backups !! j' = Some b) as (j' & Hne & Hj').
      { destruct (decide (j < i)%nat).
        - exists j. split; [lia|]. by rewrite list_lookup_delete_lt in Hj by lia.
        - exists (S j). split; [lia|]. by rewrite list_lookup_delete_ge in Hj by lia. }
      apply Hne. eapply NoDup_lookup; [exact Hnd| |].
      * by rewrite list_lookup_fmap, Hj'.
      * rewrite list_lookup_fmap, Hi. cbn. by rewrite Hid, Hidb.
  - unfold deleteBackup. apply try_catch_run.
    run_step by (by apply getMetadata_free).
    by rewrite Hfind.
Qed.

Lemma deleteBackup_removes_witness :
  fault_free fullWorld ∧
  nodes fullWorld !! metadataFile (store 2)
  = Some (File (Json (JLedger [recordA; recordB; recordC]))) ∧
  ∃ w',
    deleteBackup (store 2) (id recordB) fullWorld = (Ok true, w') ∧
    nodes w' !! archivePath (store 2) recordB = None ∧
    nodes w' !! metadataFile (store 2) = Some (File (Json (JLedger [recordA; recordC]))).
Proof.
  assert (H1 : fault_free fullWorld) by (split; [|split; [|split]]; reflexivity).
  assert (H2 : nodes fullWorld !! metadataFile (store 2)
               = Some (File (Json (JLedger [recordA; recordB; recordC]))))
    by (vm_compute; reflexivity).
  assert (Hfind : list_find (λ b, id b = id recordB) [recordA; recordB; recordC]
                  = Some (1%nat, recordB)) by (vm_compute; reflexivity).
  split; [exact H1|]. split; [exact H2|].
  pose proof (deleteBackup_removes (store 2) (id recordB) fullWorld
                [recordA; recordB; recordC] H1 H2) as H.
  rewrite Hfind in H. destruct H as (w' & Hrun & Hn & _).
  exists w'. split; [exact Hrun|]. rewrite Hn.
  split; vm_compute; reflexivity.
Defined.

(** [deleteBackup] is not undone when it fails half-way: when the
    archive file has been removed and the write of the ledger then fails,
    it returns [false], the archive file is gone and the ledger still lists
    the record. *)
Theorem deleteBackup_failed_write self backupId w backups i backup n part rest :
  readFaults w = [] →
  removeFaults w = [] →
  writeFaults w = Fail part :: rest →
  nodes w !! metadataFile self = Some (File (Json (JLedger backups))) →
  list_find (λ b, id b = backupId) backups = Some (i, backup) →
  nodes w !! archivePath self backup = Some n →
  archivePath self backup ≠ metadataFile self →
  ∃ w',
    deleteBackup self backupId w = (Ok false, w') ∧
    nodes w' !! archivePath self backup = None ∧
    (part = None →
       nodes w' !! metadataFile self = Some (File (Json (JLedger backups))) ∧
       backup ∈ backups).
Proof.
  intros Hrdf Hrmf Hwf Hmeta Hfind Ha Hne.
  set (archive := archivePath self backup) in *.
  set (w1 := set_nodes (delete archive) w).
  assert (nodes w1 !! metadataFile self = Some (File (Json (JLedger backups)))) as Hm1.
  { cbn. by rewrite lookup_delete_ne. }
  set (w2 := match part with
             | None => set_writeFaults rest w1
             | Some bytes =>
                 set_nodes <[metadataFile self := File (Raw bytes)]>
                           (set_writeFaults rest w1)
             end).
  assert (fs_writeJsonSync (metadataFile self) (JLedger (delete i backups)) w1
          = (Throw (EIO (metadataFile self)), w2)) as Hw.
  { unfold fs_writeJsonSync. rewrite Hm1. cbn. rewrite Hwf. cbn. by destruct part. }
  exists w2. split; [|split].
  - unfold deleteBackup. erewrite try_catch_throw; [reflexivity|].
    run_step by (by apply getMetadata_free).
    rewrite Hfind.
    run_step by (by eapply fs_existsSync_true).
    run_step by (by apply fs_removeSync_pass).
    apply bind_throw. exact Hw.
  - unfold w2. destruct part; cbn.
    + rewrite lookup_insert_ne by done. apply lookup_delete_eq.
    + apply lookup_delete_eq.
  - intros ->. split; [exact Hm1|].
    apply list_find_Some in Hfind as (Hi & _ & _). by eapply list_elem_of_lookup_2.
Qed.

Lemma deleteBackup_failed_write_witness :
  readFaults failedWriteWorld = [] ∧
  removeFaults failedWriteWorld = [] ∧
  writeFaults failedWriteWorld = [Fail None] ∧
  nodes failedWriteWorld !! metadataFile (store 2) = Some (File (Json (JLedger [recordA]))) ∧
  list_find (λ b, id b = id recordA) [recordA] = Some (0%nat, recordA) ∧
  nodes failedWriteWorld !! archivePath (store 2) recordA = Some (File (Raw bytesA)) ∧
  archivePath (store 2) recordA ≠ metadataFile (store 2) ∧
  ∃ w',
    deleteBackup (store 2) (id recordA) failedWriteWorld = (Ok false, w') ∧
    nodes w' !! archivePath (store 2) recordA = None ∧
    nodes w' !! metadataFile (store 2) = Some (File (Json (JLedger [recordA]))).
Proof.
  assert (H1 : readFaults failedWriteWorld = []) by reflexivity.
  assert (H2 : removeFaults failedWriteWorld = []) by reflexivity.
  assert (H3 : writeFaults failedWriteWorld = [Fail None]) by reflexivity.
  assert (H4 : nodes failedWriteWorld !! metadataFile (store 2)
               = Some (File (Json (JLedger [recordA])))) by (vm_compute; reflexivity).
  assert (H5 : list_find (λ b, id b = id recordA) [recordA] = Some (0%nat, recordA))
    by (vm_compute; reflexivity).
  assert (H6 : nodes failedWriteWorld !! archivePath (store 2) recordA
               = Some (File (Raw bytesA))) by (vm_compute; reflexivity).
  assert (H7 : archivePath (store 2) recordA ≠ metadataFile (store 2))
    by (vm_compute; discriminate).
  split; [exact H1|]. split; [exact H2|]. split; [exact H3|]. split; [exact H4|].
  split; [exact H5|]. split; [exact H6|]. split; [exact H7|].
  destruct (deleteBackup_failed_write (store 2) (id recordA) failedWriteWorld [recordA]
              0%nat recordA (File (Raw bytesA)) None [] H1 H2 H3 H4 H5 H6 H7)
    as (w' & Hrun & Hgone & Hkept).
  exists w'. split; [exact Hrun|]. split; [exact Hgone|].
  exact (proj1 (Hkept eq_refl)).
Defined.

(** ** Restoring *)

(** [restoreBackup] when no I/O call fails, for a record whose archive
    is a file: it returns [true], the target holds the bytes of the archive
    file, no temporary sibling is left, and no other file changes, apart
    from the directory of a target that did not exist, which is created
    when it is missing. *)
Theorem restoreBackup_restores self backupId targetPath w backups backup a :
  let archive := archivePath self backup in
  let temp := targetPath +:+ ".temp_backup" in
  fault_free w →
  nodes w !! metadataFile self = Some (File (Json (JLedger backups))) →
  find (λ b, bool_decide (id b = backupId)) backups = Some backup →
  nodes w !! archive = Some (File a) →
  archive ≠ targetPath →
  archive ≠ temp →
  (∀ sz, nodes w !! targetPath ≠ Some (Dir sz)) →
  (∀ sz, nodes w !! temp ≠ Some (Dir sz)) →
  (nodes w !! targetPath = None →
     ∀ c, nodes w !! path_dirname targetPath ≠ Some (File c)) →
  path_dirname targetPath ≠ targetPath →
  ∃ w',
    restoreBackup self backupId targetPath w = (Ok true, w') ∧
    nodes w' !! targetPath = Some (File a) ∧
    nodes w' !! archive = Some (File a) ∧
    (is_Some (nodes w !! targetPath) → nodes w' !! temp = None) ∧
    (∀ p, p ≠ targetPath → p ≠ temp →
          is_Some (nodes w !! targetPath) ∨ p ≠ path_dirname targetPath →
          nodes w' !! p = nodes w !! p).
Proof.
  intros archive temp (Hcf & Hwf & Hrmf & Hrdf) Hmeta Hfind Ha Hat Hatemp Htd Htempd Hdir Hdt.
  assert (Htt : temp ≠ targetPath) by apply temp_backup_ne.
  unfold restoreBackup.
  destruct (nodes w !! targetPath) as [[c|sz]|] eqn:Ht; [|by destruct (Htd sz)|].
  - set (w1 := set_nodes <[temp := File c]> w).
    set (w2 := set_nodes <[targetPath := File a]> w1).
    set (w3 := set_nodes (delete temp) w2).
    exists w3. split; [|split; [|split; [|split]]].
    + apply try_catch_run.
      run_step by (by apply getMetadata_free).
      rewrite Hfind.
      change (path_join (backupPath self) (backupFileName backup)) with archive.
      run_step by (by eapply fs_existsSync_true). cbn [negb].
      run_step by (by eapply fs_existsSync_true).
      erewrite bind_run; [reflexivity|].
      change (targetPath +:+ ".temp_backup") with temp.
      run_step by (by apply fs_copy_free).
      apply try_catch_run.
      run_step by (apply fs_copy_free; [done| |done|]; cbn;
                   [by rewrite lookup_insert_ne
                   |intros sz; rewrite lookup_insert_ne by done; by rewrite Ht]).
      by apply fs_removeSync_pass.
    + cbn. rewrite lookup_delete_ne by done. apply lookup_insert_eq.
    + cbn. rewrite lookup_delete_ne, !lookup_insert_ne by done. exact Ha.
    + intros _. cbn. apply lookup_delete_eq.
    + intros p Hp1 Hp2 _. cbn. by rewrite lookup_delete_ne, !lookup_insert_ne.
  - set (dir := path_dirname targetPath) in *.
    assert (∃ w1, (dirExists ← fs_existsSync dir;
                   (if negb dirExists then fs_mkdirSync dir else mret tt);;
                   fs_copy archive targetPath) w
                  = (Ok tt, set_nodes <[targetPath := File a]> w1) ∧
                  (∀ p, p ≠ dir → nodes w1 !! p = nodes w !! p))
      as (w1 & Hmk & Hfr1).
    { destruct (nodes w !! dir) as [[c|sz]|] eqn:Hd.
      - by destruct (Hdir eq_refl c).
      - exists w. split; [|done].
        run_step by (by eapply fs_existsSync_true). cbn [negb].
        run_step by reflexivity.
        apply fs_copy_free; [done|done|done|]. intros sz'. by rewrite Ht.
      - exists (set_nodes <[dir := Dir 0]> w).
        split; [|intros; cbn; by rewrite lookup_insert_ne].
        run_step by (by apply fs_existsSync_false). cbn [negb].
        run_step by (unfold fs_mkdirSync; cbn beta; by rewrite Hd).
        apply fs_copy_free; [done| |done|]; cbn.
        + rewrite lookup_insert_ne; [done|]. intros E. congruence.
        + intros sz'. rewrite lookup_insert_ne by done. by rewrite Ht. }
    exists (set_nodes <[targetPath := File a]> w1).
    split; [|split; [|split; [|split]]].
    + apply try_catch_run.
      run_step by (by apply getMetadata_free).
      rewrite Hfind.
      change (path_join (backupPath self) (backupFileName backup)) with archive.
      run_step by (by eapply fs_existsSync_true). cbn [negb].
      run_step by (by apply fs_existsSync_false).
      erewrite bind_run; [reflexivity|].
      change (path_dirname targetPath) with dir. exact Hmk.
    + cbn. apply lookup_insert_eq.
    + cbn. rewrite lookup_insert_ne by done.
      destruct (decide (archive = dir)) as [E|E].
      * exfalso. destruct (nodes w !! dir) as [[c|sz]|] eqn:Hd;
          rewrite <- E, Ha in Hd; try discriminate.
        injection Hd as <-. by eapply (Hdir eq_refl).
      * by rewrite Hfr1.
    + by intros [? ?].
    + intros p Hp1 Hp2 [[? ?]|Hp3]; [done|].
      cbn. rewrite lookup_insert_ne by done. by apply Hfr1.
Qed.

Lemma restoreBackup_restores_witness :
  fault_free changedWorld ∧
  nodes changedWorld !! save = Some (File (Raw bytesB)) ∧
  nodes changedWorld !! archivePath (store 2) recordA = Some (File (Raw bytesA)) ∧
  ∃ w',
    restoreBackup (store 2) (id recordA) save changedWorld = (Ok true, w') ∧
    nodes w' !! save = Some (File (Raw bytesA)) ∧
    nodes w' !! (save +:+ ".temp_backup") = None.
Proof.
  assert (H1 : fault_free changedWorld) by (split; [|split; [|split]]; reflexivity).
  assert (H2 : nodes changedWorld !! metadataFile (store 2)
               = Some (File (Json (JLedger [recordA])))) by (vm_compute; reflexivity).
  assert (H3 : find (λ b, bool_decide (id b = id recordA)) [recordA] = Some recordA)
    by (vm_compute; reflexivity).
  assert (H4 : nodes changedWorld !! archivePath (store 2) recordA
               = Some (File (Raw bytesA))) by (vm_compute; reflexivity).
  assert (H5 : archivePath (store 2) recordA ≠ save) by (vm_compute; discriminate).
  assert (H6 : archivePath (store 2) recordA ≠ save +:+ ".temp_backup")
    by (vm_compute; discriminate).
  assert (H7 : ∀ sz, nodes changedWorld !! save ≠ Some (Dir sz))
    by (intros sz; vm_compute; discriminate).
  assert (H8 : ∀ sz, nodes changedWorld !! (save +:+ ".temp_backup") ≠ Some (Dir sz))
    by (intros sz; vm_compute; discriminate).
  assert (H9 : nodes changedWorld !! save = None →
               ∀ c, nodes changedWorld !! path_dirname save ≠ Some (File c))
    by (intros H; vm_compute in H; discriminate H).
  assert (H10 : path_dirname save ≠ save) by (vm_compute; discriminate).
  assert (Hsave : nodes changedWorld !! save = Some (File (Raw bytesB)))
    by (vm_compute; reflexivity).
  split; [exact H1|]. split; [exact Hsave|]. split; [exact H4|].
  destruct (restoreBackup_restores (store 2) (id recordA) save changedWorld [recordA]
              recordA (Raw bytesA) H1 H2 H3 H4 H5 H6 H7 H8 H9 H10)
    as (w' & Hrun & Htarget & _ & Htemp & _).
  exists w'. split; [exact Hrun|]. split; [exact Htarget|].
  apply Htemp. exists (File (Raw bytesB)). exact Hsave.
Defined.

(** [restoreBackup] refuses without touching a file: it returns [false]
    when the ledger has no record of that id, and when the archive file of
    the record is missing. *)
Theorem restoreBackup_refuses self backupId targetPath w backups w1 :
  getMetadata self w = (Ok (JLedger backups), w1) →
  match find (λ b, bool_decide (id b = backupId)) backups with
  | None => True
  | Some backup => nodes w !! archivePath self backup = None
  end →
  restoreBackup self backupId targetPath w = (Ok false, w1) ∧ nodes w1 = nodes w.
Proof.
  intros Hmeta Hcase.
  destruct (getMetadata_total self w) as (v & w1' & Hmeta' & Hn).
  rewrite Hmeta in Hmeta'. injection Hmeta' as <- <-.
  split; [|done]. unfold restoreBackup.
  destruct (find _ backups) as [backup|] eqn:Hfind.
  - erewrite try_catch_throw; [reflexivity|].
    run_step by exact Hmeta. rewrite Hfind.
    run_step by (apply fs_existsSync_false; rewrite Hn; exact Hcase).
    reflexivity.
  - erewrite try_catch_throw; [reflexivity|].
    run_step by exact Hmeta. by rewrite Hfind.
Qed.

Lemma restoreBackup_refuses_witness :
  getMetadata (store 2) changedWorld = (Ok (JLedger [recordA]), changedWorld) ∧
  find (λ b, bool_decide (id b = "backup_0_none")) [recordA] = None ∧
  restoreBackup (store 2) "backup_0_none" save changedWorld = (Ok false, changedWorld).
Proof.
  assert (H1 : getMetadata (store 2) changedWorld = (Ok (JLedger [recordA]), changedWorld))
    by (vm_compute; reflexivity).
  assert (H2 : find (λ b, bool_decide (id b = "backup_0_none")) [recordA] = None)
    by (vm_compute; reflexivity).
  split; [exact H1|]. split; [exact H2|].
  refine (proj1 (restoreBackup_refuses (store 2) "backup_0_none" save changedWorld
                   [recordA] changedWorld H1 _)).
  rewrite H2. exact I.
Defined.

(** ** Captures *)

(** The run of a capture of new content below the ceiling, when no I/O
    call fails. *)
Lemma createBackup_fresh_run self src w c backups :
  let backupId := "backup_" +:+ pretty (clock w) +:+ "_" +:+ random w in
  let fileName := path_basename src in
  let backupFileName := backupId +:+ "_" +:+ fileName in
  let backupFilePath := path_join (backupPath self) backupFileName in
  let info :=
    mkBackupInfo backupId fileName backupFileName (clock w)
                 (Z.of_nat (length (content_bytes c)))
                 (MD5.hexdigest (content_bytes c)) src None in
  fault_free w →
  nodes w !! src = Some (File c) →
  is_Some (nodes w !! backupPath self) →
  nodes w !! metadataFile self = Some (File (Json (JLedger backups))) →
  (∀ lastBackup, last backups = Some lastBackup →
     hash lastBackup ≠ MD5.hexdigest (content_bytes c)) →
  Z.of_nat (length backups) < maxBackups self →
  nodes w !! backupFilePath = None →
  createBackup self src w
  = (Ok (Some info),
     set_nodes <[metadataFile self := File (Json (JLedger (backups ++ [info])))]>
               (set_nodes <[backupFilePath := File c]> w)).
Proof.
  intros backupId fileName backupFileName backupFilePath info
         (Hcf & Hwf & Hrmf & Hrdf) Hsrc Hdir Hmeta Hlast Hlen Hfresh.
  assert (Hsb : src ≠ backupFilePath) by congruence.
  assert (Hmb : backupFilePath ≠ metadataFile self) by apply archive_ne_metadata.
  set (w1 := set_nodes <[backupFilePath := File c]> w).
  set (w2 := set_nodes <[metadataFile self := File (Json (JLedger (backups ++ [info])))]> w1).
  unfold createBackup. apply try_catch_run.
  run_step by (by eapply fs_existsSync_true). cbn [negb].
  run_step by (unfold fs_statSync; by rewrite Hsrc).
  run_step by reflexivity.
  run_step by reflexivity.
  run_step by (by apply ensureBackupDir_present).
  run_step by (apply fs_copy_free; [done|done|done|]; intros sz;
               change (nodes w !! backupFilePath ≠ Some (Dir sz)); by rewrite Hfresh).
  fold backupId fileName backupFileName backupFilePath w1.
  run_step by (by eapply fs_existsSync_true; apply lookup_insert_eq). cbn [negb].
  run_step by (apply calculateFileHash_free; [done|];
               cbn; by rewrite lookup_insert_ne).
  run_step by (apply getMetadata_free; [done|];
               cbn; by rewrite lookup_insert_ne).
  fold info.
  run_step by (unfold cleanupOldBackups;
               destruct (Z.leb_spec (Z.of_nat (length (backups ++ [info])))
                           (maxBackups self)) as [|Hgt];
               [reflexivity|rewrite length_app in Hgt; simpl in Hgt; lia]).
  run_step by (apply fs_writeJsonSync_free; [done|]; intros sz; cbn;
               rewrite lookup_insert_ne by done; by rewrite Hmeta).
  fold w2.
  run_step by (eapply fs_existsSync_true; apply lookup_insert_eq).
  run_step by (erewrite bind_run
                 by (apply fs_readJsonSync_free; [done|apply lookup_insert_eq]);
               reflexivity).
  destruct (last backups) as [lastBackup|] eqn:Hl.
  - rewrite bool_decide_eq_false_2 by (by apply Hlast).
    run_step by reflexivity. reflexivity.
  - run_step by reflexivity. reflexivity.
Qed.

(** A capture of content that differs from the last record, below the
    retention ceiling and when no I/O call fails: [createBackup] returns
    the new record (its size and digest are those of the source), the
    archive file holds the bytes of the source, the record is appended to
    the ledger, and nothing else changes. *)
Theorem createBackup_archives self src w c backups :
  let backupId := "backup_" +:+ pretty (clock w) +:+ "_" +:+ random w in
  let fileName := path_basename src in
  let backupFileName := backupId +:+ "_" +:+ fileName in
  let backupFilePath := path_join (backupPath self) backupFileName in
  let info :=
    mkBackupInfo backupId fileName backupFileName (clock w)
                 (Z.of_nat (length (content_bytes c)))
                 (MD5.hexdigest (content_bytes c)) src None in
  fault_free w →
  nodes w !! src = Some (File c) →
  is_Some (nodes w !! backupPath self) →
  nodes w !! metadataFile self = Some (File (Json (JLedger backups))) →
  (∀ lastBackup, last backups = Some lastBackup →
     hash lastBackup ≠ MD5.hexdigest (content_bytes c)) →
  Z.of_nat (length backups) < maxBackups self →
  nodes w !! backupFilePath = None →
  ∃ w',
    createBackup self src w = (Ok (Some info), w') ∧
    nodes w' = <[metadataFile self := File (Json (JLedger (backups ++ [info])))]>
                 (<[backupFilePath := File c]> (nodes w)).
Proof.
  intros backupId fileName backupFileName backupFilePath info
         Hfree Hsrc Hdir Hmeta Hlast Hlen Hfresh.
  eexists. split; [by apply createBackup_fresh_run|done].
Qed.

Lemma createBackup_archives_witness :
  fault_free changedWorld ∧
  nodes changedWorld !! save = Some (File (Raw bytesB)) ∧
  nodes changedWorld !! metadataFile (store 2) = Some (File (Json (JLedger [recordA]))) ∧
  ∃ w',
    createBackup (store 2) save changedWorld = (Ok (Some (captured bytesB)), w') ∧
    nodes w' !! archivePath (store 2) (captured bytesB) = Some (File (Raw bytesB)) ∧
    nodes w' !! metadataFile (store 2)
    = Some (File (Json (JLedger [recordA; captured bytesB]))).
Proof.
  assert (H1 : fault_free changedWorld) by (split; [|split; [|split]]; reflexivity).
  assert (H2 : nodes changedWorld !! save = Some (File (Raw bytesB)))
    by (vm_compute; reflexivity).
  assert (H3 : is_Some (nodes changedWorld !! backupPath (store 2)))
    by (exists (Dir 0); vm_compute; reflexivity).
  assert (H4 : nodes changedWorld !! metadataFile (store 2)
               = Some (File (Json (JLedger [recordA])))) by (vm_compute; reflexivity).
  assert (H5 : ∀ lastBackup, last [recordA] = Some lastBackup →
               hash lastBackup ≠ MD5.hexdigest (content_bytes (Raw bytesB)))
    by (intros lastBackup [= <-]; vm_compute; discriminate).
  assert (H6 : Z.of_nat (length [recordA]) < maxBackups (store 2)) by (vm_compute; reflexivity).
  assert (H7 : nodes changedWorld !! archivePath (store 2) (captured bytesB) = None)
    by (vm_compute; reflexivity).
  split; [exact H1|]. split; [exact H2|]. split; [exact H4|].
  destruct (createBackup_archives (store 2) save changedWorld (Raw bytesB) [recordA]
              H1 H2 H3 H4 H5 H6 H7) as (w' & Hrun & Hn).
  exists w'. split; [exact Hrun|]. rewrite Hn. split; vm_compute; reflexivity.
Defined.

(** A capture whose copy fails: [createBackup] returns [null] and the
    ledger is not touched, but the bytes the copy got to write stay in the
    archive directory, in a file that no record refers to. *)
Theorem createBackup_failed_copy self src w c part rest :
  let backupId := "backup_" +:+ pretty (clock w) +:+ "_" +:+ random w in
  let backupFilePath :=
    path_join (backupPath self) (backupId +:+ "_" +:+ path_basename src) in
  nodes w !! src = Some (File c) →
  is_Some (nodes w !! backupPath self) →
  is_Some (nodes w !! metadataFile self) →
  nodes w !! backupFilePath = None →
  copyFaults w = Fail part :: rest →
  ∃ w',
    createBackup self src w = (Ok None, w') ∧
    nodes w' = match part with
               | None => nodes w
               | Some bytes => <[backupFilePath := File (Raw bytes)]> (nodes w)
               end.
Proof.
  intros backupId backupFilePath Hsrc Hdir Hmeta Hfresh Hcf.
  assert (Hsb : src ≠ backupFilePath) by congruence.
  set (w1 := match part with
             | None => set_copyFaults rest w
             | Some bytes =>
                 set_nodes <[backupFilePath := File (Raw bytes)]> (set_copyFaults rest w)
             end).
  assert (fs_copy src backupFilePath w = (Throw (EIO backupFilePath), w1)) as Hcopy.
  { unfold fs_copy. rewrite Hsrc, Hfresh, Hcf.
    rewrite bool_decide_eq_false_2 by done. cbn. by destruct part. }
  exists w1. split; [|by destruct part].
  unfold createBackup. erewrite try_catch_throw; [reflexivity|].
  run_step by (by eapply fs_existsSync_true). cbn [negb].
  run_step by (unfold fs_statSync; by rewrite Hsrc).
  run_step by reflexivity.
  run_step by reflexivity.
  run_step by (by apply ensureBackupDir_present).
  apply bind_throw. exact Hcopy.
Qed.

Lemma createBackup_failed_copy_witness :
  nodes failedCopyWorld !! save = Some (File (Raw bytesB)) ∧
  copyFaults failedCopyWorld = [Fail (Some partial)] ∧
  ∃ w',
    createBackup (store 2) save failedCopyWorld = (Ok None, w') ∧
    nodes w' !! archivePath (store 2) (captured bytesB) = Some (File (Raw partial)) ∧
    nodes w' !! metadataFile (store 2) = Some (File (Json (JLedger [recordA]))).
Proof.
  assert (H1 : nodes failedCopyWorld !! save = Some (File (Raw bytesB)))
    by (vm_compute; reflexivity).
  assert (H2 : is_Some (nodes failedCopyWorld !! backupPath (store 2)))
    by (exists (Dir 0); vm_compute; reflexivity).
  assert (H3 : is_Some (nodes failedCopyWorld !! metadataFile (store 2)))
    by (exists (File (Json (JLedger [recordA]))); vm_compute; reflexivity).
  assert (H4 : nodes failedCopyWorld !! archivePath (store 2) (captured bytesB) = None)
    by (vm_compute; reflexivity).
  assert (H5 : copyFaults failedCopyWorld = [Fail (Some partial)]) by reflexivity.
  split; [exact H1|]. split; [exact H5|].
  destruct (createBackup_failed_copy (store 2) save failedCopyWorld (Raw bytesB)
              (Some partial) [] H1 H2 H3 H4 H5) as (w' & Hrun & Hn).
  exists w'. split; [exact Hrun|]. rewrite Hn. split; vm_compute; reflexivity.
Defined.

(** ** The place of a new record in the sorted ledger *)

Lemma js_sort_newest_last x l :
  Forall (λ b, timestamp b < timestamp x) l →
  js_sort newestFirst (l ++ [x]) = x :: js_sort newestFirst l.
Proof.
  induction 1 as [|y l Hy _ IH]; [done|].
  cbn [app js_sort]. rewrite IH. cbn [js_insert]. unfold newestFirst at 1.
  destruct (Z.leb_spec (timestamp x - timestamp y) 0); [lia|done].
Qed.

Lemma js_insert_snoc y m x :
  timestamp x ≤ timestamp y →
  js_insert newestFirst y (m ++ [x]) = js_insert newestFirst y m ++ [x].
Proof.
  intros Hxy. induction m as [|z m IH]; cbn [app js_insert].
  - unfold newestFirst. destruct (Z.leb_spec (timestamp x - timestamp y) 0); [done|lia].
  - destruct (newestFirst y z <=? 0); [done|]. by rewrite IH.
Qed.

Lemma js_sort_oldest_last x l :
  Forall (λ b, timestamp x ≤ timestamp b) l →
  js_sort newestFirst (l ++ [x]) = js_sort newestFirst l ++ [x].
Proof.
  induction 1 as [|y l Hy _ IH]; [done|].
  cbn [app js_sort]. rewrite IH. by apply js_insert_snoc.
Qed.

(** ** What a capture leaves of the read faults and of the ledger file *)

Lemma metadataFile_ne_backupPath self : backupPath self ≠ metadataFile self.
Proof.
  unfold metadataFile, path_join. intros H. apply (f_equal String.length) in H.
  rewrite append_length in H. simpl in H. lia.
Qed.

Lemma ensureBackupDir_ledger self w r w' :
  is_Some (nodes w !! metadataFile self) →
  ensureBackupDir self w = (r, w') →
  readFaults w' = readFaults w ∧
  nodes w' !! metadataFile self = nodes w !! metadataFile self.
Proof.
  intros [m Hm]. unfold ensureBackupDir, try_catch, mbind, M_bind, fs_existsSync, fs_mkdirSync.
  cbn beta.
  destruct (nodes w !! backupPath self) as [[c|sz]|] eqn:Hd.
  - rewrite bool_decide_eq_true_2 by eauto. cbn.
    rewrite bool_decide_eq_true_2 by eauto. cbn. by intros [= <- <-].
  - rewrite bool_decide_eq_true_2 by eauto. cbn.
    rewrite bool_decide_eq_true_2 by eauto. cbn. by intros [= <- <-].
  - rewrite bool_decide_eq_false_2 by (by intros [? ?]). cbn. rewrite Hd. cbn.
    rewrite lookup_insert_ne by apply metadataFile_ne_backupPath.
    rewrite bool_decide_eq_true_2 by eauto. cbn. intros [= <- <-]. cbn.
    split; [done|]. apply lookup_insert_ne, metadataFile_ne_backupPath.
Qed.

Lemma fs_copy_readFaults src dest w r w' :
  fs_copy src dest w = (r, w') → readFaults w' = readFaults w.
Proof.
  unfold fs_copy. intros H.
  destruct (nodes w !! src) as [n|]; [|by injection H as <- <-].
  destruct (bool_decide (src = dest)); [by injection H as <- <-|].
  destruct (next_fault (copyFaults w)) as [[|[part|]] rest];
    destruct n as [c|sz], (nodes w !! dest) as [[c'|sz']|];
    by injection H as <- <-.
Qed.

Lemma calculateFileHash_readFaults p w h w' :
  readFaults w = [] →
  calculateFileHash p w = (Ok h, w') →
  readFaults w' = [] ∧ nodes w' = nodes w.
Proof.
  intros Hf. unfold calculateFileHash, mbind, M_bind, fs_readStream.
  destruct (nodes w !! p) as [[c|sz]|]; try discriminate.
  rewrite Hf. cbn. by intros [= <- <-].
Qed.

(** The ledger a capture reads, when the ledger file is there and no
    read fails. *)
Lemma createBackup_reads_ledger self src w info w' backups :
  readFaults w = [] →
  nodes w !! metadataFile self = Some (File (Json (JLedger backups))) →
  createBackup self src w = (Ok (Some info), w') →
  timestamp info = clock w ∧
  ∃ persisted w1 w2,
    cleanupOldBackups self (backups ++ [info]) w1 = (Ok persisted, w2) ∧
    nodes w' !! metadataFile self = Some (File (Json (JLedger persisted))).
Proof.
  intros Hrdf Hmeta H. unfold createBackup in H.
  unfold try_catch at 1 in H.
  match type of H with
  | match ?b w with _ => _ end = _ =>
      destruct (b w) as [[r|e] s0] eqn:Hbody; [|discriminate]
  end.
  injection H as -> ->.
  inv_bind Hbody as sourceExists s1 H1. destruct (negb sourceExists); [discriminate|].
  apply fs_existsSync_inv in H1 as [-> _].
  inv_bind Hbody as statsSize s2 H2.
  assert (s2 = w) as ->.
  { unfold fs_statSync in H2. destruct (nodes w !! src) as [[?|?]|]; by injection H2. }
  inv_bind Hbody as now s3 H3. injection H3 as <- <-.
  inv_bind Hbody as backupId s4 H4.
  apply generateBackupId_inv in H4 as [-> [= ->]].
  inv_bind Hbody as [] s5 H5.
  apply ensureBackupDir_ledger in H5 as [Hf5 Hm5]; [|by rewrite Hmeta].
  inv_bind Hbody as [] s6 H6.
  pose proof (fs_copy_readFaults _ _ _ _ _ H6) as Hf6.
  apply fs_copy_frame in H6 as [Hm6 _].
  specialize (Hm6 (metadataFile self) (not_eq_sym (archive_ne_metadata _ _ _ _))).
  inv_bind Hbody as copied s7 H7. destruct (negb copied); [discriminate|].
  apply fs_existsSync_inv in H7 as [-> _].
  inv_bind Hbody as fileHash s8 H8.
  apply calculateFileHash_readFaults in H8 as [Hf8 Hn8]; [|congruence].
  inv_bind Hbody as metadata s9 H9.
  rewrite (getMetadata_free self s8 (JLedger backups)) in H9
    by (done || (rewrite Hn8; congruence)).
  injection H9 as <- <-.
  inv_bind Hbody as persisted s10 H10.
  inv_bind Hbody as [] s11 H11.
  inv_bind Hbody as metaExists s12 H12.
  inv_bind Hbody as [] s13 H13.
  inv_bind Hbody as [] s14 H14.
  injection Hbody as <- <-.
  split; [done|]. exists persisted, s8, s10. split; [exact H10|].
  apply fs_writeJsonSync_ok in H11.
  apply fs_existsSync_inv in H12 as [-> _].
  assert (nodes s13 = nodes s11) as Hs13.
  { destruct (metaExists : bool); [|discriminate].
    inv_bind H13 as saved s12 H12. apply fs_readJsonSync_nodes in H12.
    destruct saved; [|discriminate]. by injection H13 as <-. }
  assert (nodes s14 !! metadataFile self = nodes s13 !! metadataFile self) as ->.
  { destruct (match last backups with Some _ => _ | None => _ end).
    - unfold try_catch in H14.
      match type of H14 with
      | match ?b s13 with _ => _ end = _ =>
          destruct (b s13) as [[r|e] sr] eqn:Hrm
      end.
      + injection H14 as _ <-.
        apply fs_removeSync_nodes in Hrm as [-> | [_ ->]]; [done|].
        rewrite lookup_delete_ne; [done|]. apply archive_ne_metadata.
      + injection H14 as <-.
        by apply fs_removeSync_nodes in Hrm as [-> | [[=] _]].
    - by injection H14 as <-. }
  rewrite Hs13, H11. apply lookup_insert_eq.
Qed.

(** A successful capture is listed: when the ledger file is read without
    a failure and every record in it is older than the clock, the record
    that [createBackup] returns is in the ledger it wrote (at its head, once
    eviction has sorted the ledger), for every ceiling of at least one. *)
Theorem createBackup_lists_new_record self src w info w' backups :
  1 ≤ maxBackups self →
  readFaults w = [] →
  nodes w !! metadataFile self = Some (File (Json (JLedger backups))) →
  Forall (λ b, timestamp b < clock w) backups →
  createBackup self src w = (Ok (Some info), w') →
  ∃ persisted,
    nodes w' !! metadataFile self = Some (File (Json (JLedger persisted))) ∧
    info ∈ persisted ∧
    (maxBackups self ≤ Z.of_nat (length backups) → head persisted = Some info).
Proof.
  intros Hmax Hrdf Hmeta Hold H.
  destruct (createBackup_reads_ledger _ _ _ _ _ _ Hrdf Hmeta H)
    as (Hts & persisted & w1 & w2 & Hclean & Hp).
  exists persisted. split; [done|].
  unfold cleanupOldBackups in Hclean.
  destruct (Z.leb_spec (Z.of_nat (length (backups ++ [info]))) (maxBackups self))
    as [Hle|Hgt].
  - injection Hclean as <- <-. split; [set_solver|].
    rewrite length_app in Hle. simpl in Hle. lia.
  - apply bind_ok in Hclean as (? & s1 & _ & [= <- <-]).
    rewrite js_sort_newest_last by (by rewrite Hts).
    rewrite js_slice_prefix by lia.
    destruct (Z.to_nat (maxBackups self)) as [|n] eqn:Hn; [lia|].
    cbn. split; [set_solver|done].
Qed.

Lemma createBackup_lists_new_record_witness :
  1 ≤ maxBackups (store 2) ∧
  readFaults twoWorld = [] ∧
  nodes twoWorld !! metadataFile (store 2)
  = Some (File (Json (JLedger [recordA; recordB]))) ∧
  Forall (λ b, timestamp b < clock twoWorld) [recordA; recordB] ∧
  createBackup (store 2) save twoWorld
  = (Ok (Some (captured bytesC)), worldAfter (createBackup (store 2) save twoWorld)) ∧
  ∃ persisted,
    nodes (worldAfter (createBackup (store 2) save twoWorld)) !! metadataFile (store 2)
    = Some (File (Json (JLedger persisted))) ∧
    head persisted = Some (captured bytesC).
Proof.
  assert (H1 : 1 ≤ maxBackups (store 2)) by (vm_compute; discriminate).
  assert (H2 : readFaults twoWorld = []) by reflexivity.
  assert (H3 : nodes twoWorld !! metadataFile (store 2)
               = Some (File (Json (JLedger [recordA; recordB]))))
    by (vm_compute; reflexivity).
  assert (H4 : Forall (λ b, timestamp b < clock twoWorld) [recordA; recordB])
    by (repeat constructor).
  assert (H5 : createBackup (store 2) save twoWorld
               = (Ok (Some (captured bytesC)),
                  worldAfter (createBackup (store 2) save twoWorld)))
    by (vm_compute; reflexivity).
  split; [exact H1|]. split; [exact H2|]. split; [exact H3|]. split; [exact H4|].
  split; [exact H5|].
  destruct (createBackup_lists_new_record (store 2) save twoWorld _ _ [recordA; recordB]
              H1 H2 H3 H4 H5) as (persisted & Hp & _ & Hhead).
  exists persisted. split; [exact Hp|]. apply Hhead. vm_compute. discriminate.
Defined.

(** A capture into a full ledger whose records are all dated at or
    after the clock (the clock was set back): [createBackup] returns the new
    record, but eviction has removed it at once. The ledger written is the
    old one, sorted, and the archive file of the new record is deleted: the
    capture leaves no backup. *)
Theorem createBackup_evicts_new_record self src w c backups :
  let backupId := "backup_" +:+ pretty (clock w) +:+ "_" +:+ random w in
  let fileName := path_basename src in
  let backupFileName := backupId +:+ "_" +:+ fileName in
  let backupFilePath := path_join (backupPath self) backupFileName in
  let info :=
    mkBackupInfo backupId fileName backupFileName (clock w)
                 (Z.of_nat (length (content_bytes c)))
                 (MD5.hexdigest (content_bytes c)) src None in
  fault_free w →
  nodes w !! src = Some (File c) →
  is_Some (nodes w !! backupPath self) →
  nodes w !! metadataFile self = Some (File (Json (JLedger backups))) →
  nodes w !! backupFilePath = None →
  Z.of_nat (length backups) = maxBackups self →
  Forall (λ b, clock w ≤ timestamp b) backups →
  ∃ w',
    createBackup self src w = (Ok (Some info), w') ∧
    nodes w' = <[metadataFile self := File (Json (JLedger (js_sort newestFirst backups)))]>
                 (nodes w) ∧
    nodes w' !! backupFilePath = None.
Proof.
  intros backupId fileName backupFileName backupFilePath info
         (Hcf & Hwf & Hrmf & Hrdf) Hsrc Hdir Hmeta Hfresh Hlen Hold.
  assert (Hsb : src ≠ backupFilePath) by congruence.
  assert (Hmb : backupFilePath ≠ metadataFile self) by apply archive_ne_metadata.
  set (sorted := js_sort newestFirst backups).
  set (w1 := set_nodes <[backupFilePath := File c]> w).
  set (w2 := set_nodes (delete backupFilePath) w1).
  set (w3 := set_nodes <[metadataFile self := File (Json (JLedger sorted))]> w2).
  assert (cleanupOldBackups self (backups ++ [info]) w1 = (Ok sorted, w2)) as Hclean.
  { unfold cleanupOldBackups.
    destruct (Z.leb_spec (Z.of_nat (length (backups ++ [info]))) (maxBackups self))
      as [Hle|Hgt]; [rewrite length_app in Hle; simpl in Hle; lia|].
    rewrite js_sort_oldest_last by done. fold sorted.
    assert (Z.to_nat (maxBackups self) = length sorted) as Hn.
    { unfold sorted. rewrite js_sort_length. lia. }
    rewrite js_slice_from_suffix, js_slice_prefix by lia.
    rewrite Hn, drop_app_length, take_app_length. cbn [for_each].
    match goal with |- context [path_join (backupPath self) ?name] =>
      change (path_join (backupPath self) name) with backupFilePath end.
    run_step by (run_step by (apply try_catch_run;
                   run_step by (by eapply fs_existsSync_true; apply lookup_insert_eq);
                   by apply fs_removeSync_pass);
                 reflexivity).
    reflexivity. }
  assert (nodes w3 = <[metadataFile self := File (Json (JLedger sorted))]> (nodes w))
    as Hn3.
  { cbn. f_equal. rewrite delete_insert_eq. by apply delete_id. }
  assert (∃ w4, (if match last backups with
                    | Some lastBackup =>
                        bool_decide (hash lastBackup = MD5.hexdigest (content_bytes c))
                    | None => false
                    end
                 then try_catch (fs_removeSync backupFilePath) (λ _, mret tt)
                 else mret tt) w3 = (Ok tt, w4) ∧ nodes w4 = nodes w3) as (w4 & Hrm & Hn4).
  { destruct (match last backups with Some _ => _ | None => _ end).
    - eexists. split; [apply try_catch_run; apply fs_removeSync_pass; exact Hrmf|].
      cbn. apply delete_id. rewrite lookup_insert_ne by done. apply lookup_delete_eq.
    - by eexists. }
  exists w4. split; [|split].
  - unfold createBackup. apply try_catch_run.
    run_step by (by eapply fs_existsSync_true). cbn [negb].
    run_step by (unfold fs_statSync; by rewrite Hsrc).
    run_step by reflexivity.
    run_step by reflexivity.
    run_step by (by apply ensureBackupDir_present).
    run_step by (apply fs_copy_free; [done|done|done|]; intros sz;
                 change (nodes w !! backupFilePath ≠ Some (Dir sz)); by rewrite Hfresh).
    fold backupId fileName backupFileName backupFilePath w1.
    run_step by (by eapply fs_existsSync_true; apply lookup_insert_eq). cbn [negb].
    run_step by (apply calculateFileHash_free; [done|];
                 cbn; by rewrite lookup_insert_ne).
    run_step by (apply getMetadata_free; [done|];
                 cbn; by rewrite lookup_insert_ne).
    fold info.
    run_step by exact Hclean.
    run_step by (apply fs_writeJsonSync_free; [done|]; intros sz; cbn;
                 rewrite lookup_delete_ne, lookup_insert_ne by done; by rewrite Hmeta).
    fold w3.
    run_step by (eapply fs_existsSync_true; apply lookup_insert_eq).
    run_step by (erewrite bind_run
                   by (apply fs_readJsonSync_free; [done|apply lookup_insert_eq]);
                 reflexivity).
    run_step by exact Hrm. reflexivity.
  - by rewrite Hn4.
  - rewrite Hn4, Hn3. by rewrite lookup_insert_ne.
Qed.

Lemma createBackup_evicts_new_record_witness :
  fault_free futureWorld ∧
  nodes futureWorld !! save = Some (File (Raw bytesB)) ∧
  nodes futureWorld !! metadataFile (store 1) = Some (File (Json (JLedger [recordF]))) ∧
  Z.of_nat (length [recordF]) = maxBackups (store 1) ∧
  Forall (λ b, clock futureWorld ≤ timestamp b) [recordF] ∧
  ∃ w',
    createBackup (store 1) save futureWorld = (Ok (Some (captured bytesB)), w') ∧
    nodes w' !! metadataFile (store 1) = Some (File (Json (JLedger [recordF]))) ∧
    nodes w' !! archivePath (store 1) (captured bytesB) = None.
Proof.
  assert (H1 : fault_free futureWorld) by (split; [|split; [|split]]; reflexivity).
  assert (H2 : nodes futureWorld !! save = Some (File (Raw bytesB)))
    by (vm_compute; reflexivity).
  assert (H3 : is_Some (nodes futureWorld !! backupPath (store 1)))
    by (exists (Dir 0); vm_compute; reflexivity).
  assert (H4 : nodes futureWorld !! metadataFile (store 1)
               = Some (File (Json (JLedger [recordF])))) by (vm_compute; reflexivity).
  assert (H5 : nodes futureWorld !! archivePath (store 1) (captured bytesB) = None)
    by (vm_compute; reflexivity).
  assert (H6 : Z.of_nat (length [recordF]) = maxBackups (store 1)) by reflexivity.
  assert (H7 : Forall (λ b, clock futureWorld ≤ timestamp b) [recordF]).
  { repeat constructor. vm_compute. discriminate. }
  split; [exact H1|]. split; [exact H2|]. split; [exact H4|]. split; [exact H6|].
  split; [exact H7|].
  destruct (createBackup_evicts_new_record (store 1) save futureWorld (Raw bytesB) [recordF]
              H1 H2 H3 H4 H5 H6 H7) as (w' & Hrun & Hn & Hgone).
  exists w'. split; [exact Hrun|]. split; [|exact Hgone].
  rewrite Hn. vm_compute. reflexivity.
Defined.

(** A capture during which the read of the ledger fails: [getMetadata]
    answers with the empty ledger, so the ledger that is written holds the
    new record alone. The records it held are forgotten, while their
    archive files stay where they are. *)
Theorem createBackup_forgets_on_read_failure self src w c backups part :
  let backupId := "backup_" +:+ pretty (clock w) +:+ "_" +:+ random w in
  let fileName := path_basename src in
  let backupFileName := backupId +:+ "_" +:+ fileName in
  let backupFilePath := path_join (backupPath self) backupFileName in
  let info :=
    mkBackupInfo backupId fileName backupFileName (clock w)
                 (Z.of_nat (length (content_bytes c)))
                 (MD5.hexdigest (content_bytes c)) src None in
  1 ≤ maxBackups self →
  copyFaults w = [] → writeFaults w = [] →
  readFaults w = [Pass; Fail part] →
  nodes w !! src = Some (File c) →
  is_Some (nodes w !! backupPath self) →
  nodes w !! metadataFile self = Some (File (Json (JLedger backups))) →
  nodes w !! backupFilePath = None →
  ∃ w',
    createBackup self src w = (Ok (Some info), w') ∧
    nodes w' = <[metadataFile self := File (Json (JLedger [info]))]>
                 (<[backupFilePath := File c]> (nodes w)).
Proof.
  intros backupId fileName backupFileName backupFilePath info
         Hmax Hcf Hwf Hrdf Hsrc Hdir Hmeta Hfresh.
  assert (Hsb : src ≠ backupFilePath) by congruence.
  assert (Hmb : backupFilePath ≠ metadataFile self) by apply archive_ne_metadata.
  set (w1 := set_nodes <[backupFilePath := File c]> w).
  set (w2 := set_readFaults [Fail part] w1).
  set (w3 := set_readFaults [] w2).
  set (w4 := set_nodes <[metadataFile self := File (Json (JLedger [info]))]> w3).
  exists w4. split; [|done].
  unfold createBackup. apply try_catch_run.
  run_step by (by eapply fs_existsSync_true). cbn [negb].
  run_step by (unfold fs_statSync; by rewrite Hsrc).
  run_step by reflexivity.
  run_step by reflexivity.
  run_step by (by apply ensureBackupDir_present).
  run_step by (apply fs_copy_free; [done|done|done|]; intros sz;
               change (nodes w !! backupFilePath ≠ Some (Dir sz)); by rewrite Hfresh).
  fold backupId fileName backupFileName backupFilePath w1.
  run_step by (by eapply fs_existsSync_true; apply lookup_insert_eq). cbn [negb].
  run_step by (apply (calculateFileHash_run src w1 c [Fail part]);
               [cbn; by rewrite lookup_insert_ne|cbn; by rewrite Hrdf]).
  fold w2.
  run_step by (rewrite getMetadata_run; cbn; rewrite lookup_insert_ne by done;
               rewrite Hmeta; unfold fs_readJsonSync; cbn;
               rewrite lookup_insert_ne by done; rewrite Hmeta; reflexivity).
  fold w3. unfold emptyLedger. cbn beta iota. cbn [last app]. fold info.
  run_step by (unfold cleanupOldBackups;
               destruct (Z.leb_spec (Z.of_nat (length [info])) (maxBackups self));
               [reflexivity|simpl in *; lia]).
  run_step by (apply fs_writeJsonSync_free; [done|]; intros sz; cbn;
               rewrite lookup_insert_ne by done; by rewrite Hmeta).
  fold w4.
  run_step by (eapply fs_existsSync_true; apply lookup_insert_eq).
  run_step by (erewrite bind_run
                 by (apply fs_readJsonSync_free; [done|apply lookup_insert_eq]);
               reflexivity).
  run_step by reflexivity. reflexivity.
Qed.

Lemma createBackup_forgets_on_read_failure_witness :
  1 ≤ maxBackups (store 3) ∧
  readFaults flakyWorld = [Pass; Fail None] ∧
  nodes flakyWorld !! metadataFile (store 3)
  = Some (File (Json (JLedger [recordA; recordB]))) ∧
  ∃ w',
    createBackup (store 3) save flakyWorld = (Ok (Some (captured bytesC)), w') ∧
    nodes w' !! metadataFile (store 3)
    = Some (File (Json (JLedger [captured bytesC]))) ∧
    nodes w' !! archivePath (store 3) recordA = Some (File (Raw bytesA)).
Proof.
  assert (H0 : 1 ≤ maxBackups (store 3)) by (vm_compute; discriminate).
  assert (H1 : copyFaults flakyWorld = []) by reflexivity.
  assert (H2 : writeFaults flakyWorld = []) by reflexivity.
  assert (H3 : readFaults flakyWorld = [Pass; Fail None]) by reflexivity.
  assert (H4 : nodes flakyWorld !! save = Some (File (Raw bytesC)))
    by (vm_compute; reflexivity).
  assert (H5 : is_Some (nodes flakyWorld !! backupPath (store 3)))
    by (exists (Dir 0); vm_compute; reflexivity).
  assert (H6 : nodes flakyWorld !! metadataFile (store 3)
               = Some (File (Json (JLedger [recordA; recordB]))))
    by (vm_compute; reflexivity).
  assert (H7 : nodes flakyWorld !! archivePath (store 3) (captured bytesC) = None)
    by (vm_compute; reflexivity).
  split; [exact H0|]. split; [exact H3|]. split; [exact H6|].
  destruct (createBackup_forgets_on_read_failure (store 3) save flakyWorld (Raw bytesC)
              [recordA; recordB] None H0 H1 H2 H3 H4 H5 H6 H7) as (w' & Hrun & Hn).
  exists w'. split; [exact Hrun|]. rewrite Hn. split; vm_compute; reflexivity.
Defined.

(** ** The archive directory *)

(** [ensureBackupDir()], when it returns: the archive directory and the
    ledger file exist afterwards, a ledger file that was there is left as
    it was, a missing one is created with the empty ledger, and no other
    path changes. *)
Theorem ensureBackupDir_keeps_ledger self w w' :
  ensureBackupDir self w = (Ok tt, w') →
  is_Some (nodes w' !! backupPath self) ∧
  (∀ n, nodes w !! metadataFile self = Some n →
        nodes w' !! metadataFile self = Some n) ∧
  (nodes w !! metadataFile self = None →
     nodes w' !! metadataFile self = Some (File (Json (JLedger [])))) ∧
  (∀ p, p ≠ backupPath self → p ≠ metadataFile self →
        nodes w' !! p = nodes w !! p).
Proof.
  intros H.
  pose proof (metadataFile_ne_backupPath self) as Hne.
  unfold ensureBackupDir, try_catch in H.
  match type of H with
  | match ?b w with _ => _ end = _ => destruct (b w) as [[[]|e] s0] eqn:Hbody
  end; [|discriminate].
  injection H as ->.
  inv_bind Hbody as dirExists s1 H1. apply fs_existsSync_inv in H1 as [-> [= ->]].
  inv_bind Hbody as [] s2 H2.
  assert (is_Some (nodes s2 !! backupPath self) ∧
          ∀ p, p ≠ backupPath self → nodes s2 !! p = nodes w !! p) as [Hd2 Hfr2].
  { destruct (nodes w !! backupPath self) as [n|] eqn:Hd.
    - rewrite bool_decide_eq_true_2 in H2 by eauto. injection H2 as <-.
      by rewrite Hd.
    - rewrite bool_decide_eq_false_2 in H2 by (by intros [? ?]). cbn in H2.
      unfold fs_mkdirSync in H2. rewrite Hd in H2. injection H2 as <-. cbn.
      rewrite lookup_insert_eq. split; [eauto|]. intros. by rewrite lookup_insert_ne. }
  inv_bind Hbody as metaExists s3 H3. apply fs_existsSync_inv in H3 as [-> [= ->]].
  destruct (nodes s2 !! metadataFile self) as [n|] eqn:Hm.
  - rewrite bool_decide_eq_true_2 in Hbody by eauto. injection Hbody as <-.
    rewrite Hfr2 in Hm by done.
    split; [done|]. split; [intros n' Hn'; rewrite Hfr2 by done; congruence|].
    split; [congruence|]. intros. by apply Hfr2.
  - rewrite bool_decide_eq_false_2 in Hbody by (by intros [? ?]). cbn in Hbody.
    apply fs_writeJsonSync_ok in Hbody. rewrite Hbody.
    rewrite Hfr2 in Hm by done.
    split; [by rewrite lookup_insert_ne|].
    split; [congruence|]. split; [intros _; apply lookup_insert_eq|].
    intros. rewrite lookup_insert_ne by done. by apply Hfr2.
Qed.

Lemma ensureBackupDir_keeps_ledger_witness :
  ensureBackupDir (store 2) bareWorld
  = (Ok tt, worldAfter (ensureBackupDir (store 2) bareWorld)) ∧
  is_Some (nodes (worldAfter (ensureBackupDir (store 2) bareWorld)) !! root) ∧
  nodes (worldAfter (ensureBackupDir (store 2) bareWorld)) !! metadataFile (store 2)
  = Some (File (Json (JLedger []))).
Proof.
  assert (H : ensureBackupDir (store 2) bareWorld
              = (Ok tt, worldAfter (ensureBackupDir (store 2) bareWorld)))
    by (vm_compute; reflexivity).
  split; [exact H|].
  destruct (ensureBackupDir_keeps_ledger (store 2) bareWorld _ H) as (Hd & _ & Hm & _).
  split; [exact Hd|]. apply Hm. vm_compute. reflexivity.
Defined.

(** ** Statistics and screenshots *)

Lemma fold_min_spec l x :
  let lo := fold_left Z.min l x in
  lo ∈ x :: l ∧ ∀ y, y ∈ x :: l → lo ≤ y.
Proof.
  revert x. induction l as [|z l IH]; intros x; cbn.
  - split; [left|]. intros y Hy. apply list_elem_of_singleton in Hy. lia.
  - destruct (IH (Z.min x z)) as [Hin Hle].
    assert (fold_left Z.min l (Z.min x z) ≤ Z.min x z) as Hm by (apply Hle; left).
    split.
    + apply elem_of_cons in Hin as [Hin|Hin]; [|by do 2 right].
      rewrite Hin. destruct (Z.min_spec x z) as [[_ ->]|[_ ->]]; [left|right; left].
    + intros y Hy. rewrite !elem_of_cons in Hy.
      destruct Hy as [->|[->|Hy]]; [lia|lia|]. apply Hle. by right.
Qed.

Lemma fold_max_spec l x :
  let hi := fold_left Z.max l x in
  hi ∈ x :: l ∧ ∀ y, y ∈ x :: l → y ≤ hi.
Proof.
  revert x. induction l as [|z l IH]; intros x; cbn.
  - split; [left|]. intros y Hy. apply list_elem_of_singleton in Hy. lia.
  - destruct (IH (Z.max x z)) as [Hin Hle].
    assert (Z.max x z ≤ fold_left Z.max l (Z.max x z)) as Hm by (apply Hle; left).
    split.
    + apply elem_of_cons in Hin as [Hin|Hin]; [|by do 2 right].
      rewrite Hin. destruct (Z.max_spec x z) as [[_ ->]|[_ ->]]; [right; left|left].
    + intros y Hy. rewrite !elem_of_cons in Hy.
      destruct Hy as [->|[->|Hy]]; [lia|lia|]. apply Hle. by right.
Qed.

Lemma fold_sum_sizes (l : list BackupInfo) acc :
  fold_left (λ sum backup, sum + size backup) l acc = acc + foldr Z.add 0 (size <$> l).
Proof.
  revert acc. induction l as [|b l IH]; intros acc; cbn; [lia|]. rewrite IH. lia.
Qed.

(** [getBackupStats()] on the ledger that [getMetadata] reads: the number
    of records and the sum of their sizes; for a ledger that is not empty,
    the oldest and the newest time stamp are time stamps of records and
    bound every record's time stamp; for an empty ledger both are [null].
    On a JSON value that is no ledger it throws a [TypeError]. *)
Theorem getBackupStats_bounds self w v w1 :
  getMetadata self w = (Ok v, w1) →
  match v with
  | JOther _ => getBackupStats self w = (Throw TypeErr, w1)
  | JLedger backups =>
      ∃ stats,
        getBackupStats self w = (Ok stats, w1) ∧
        totalBackups stats = length backups ∧
        totalSize stats = foldr Z.add 0 (size <$> backups) ∧
        (backups = [] → oldestBackup stats = None ∧ newestBackup stats = None) ∧
        (backups ≠ [] →
           ∃ lo hi,
             oldestBackup stats = Some lo ∧ newestBackup stats = Some hi ∧
             lo ∈ timestamp <$> backups ∧ hi ∈ timestamp <$> backups ∧
             ∀ b, b ∈ backups → lo ≤ timestamp b ≤ hi)
  end.
Proof.
  intros Hmeta. unfold getBackupStats. destruct v as [backups|text].
  - eexists. split; [by run_step by exact Hmeta|]. cbn.
    split; [done|]. split; [by rewrite fold_sum_sizes|].
    split; [by intros ->|]. intros Hne.
    destruct backups as [|b0 l]; [done|]. cbn.
    destruct (fold_min_spec (timestamp <$> l) (timestamp b0)) as [Hlo1 Hlo2].
    destruct (fold_max_spec (timestamp <$> l) (timestamp b0)) as [Hhi1 Hhi2].
    eexists _, _. split; [done|]. split; [done|].
    split; [done|]. split; [done|].
    intros b Hb.
    assert (timestamp b ∈ timestamp b0 :: (timestamp <$> l)) as Hin.
    { change (timestamp b ∈ timestamp <$> (b0 :: l)). by apply list_elem_of_fmap_2. }
    split; [by apply Hlo2|by apply Hhi2].
  - by run_step by exact Hmeta.
Qed.

Lemma getBackupStats_bounds_witness :
  getMetadata (store 2) fullWorld = (Ok (JLedger [recordA; recordB; recordC]), fullWorld) ∧
  ∃ stats,
    getBackupStats (store 2) fullWorld = (Ok stats, fullWorld) ∧
    totalBackups stats = 3%nat ∧
    totalSize stats = 12 ∧
    ∃ lo hi,
      oldestBackup stats = Some lo ∧ newestBackup stats = Some hi ∧
      lo ≤ timestamp recordB ≤ hi.
Proof.
  assert (H : getMetadata (store 2) fullWorld
              = (Ok (JLedger [recordA; recordB; recordC]), fullWorld))
    by (vm_compute; reflexivity).
  split; [exact H|].
  destruct (getBackupStats_bounds (store 2) fullWorld _ _ H)
    as (stats & Hrun & Hcount & Hsize & _ & Hbounds).
  exists stats. split; [exact Hrun|]. split; [exact Hcount|]. split; [exact Hsize|].
  destruct Hbounds as (lo & hi & Hlo & Hhi & _ & _ & Hall); [discriminate|].
  exists lo, hi. split; [exact Hlo|]. split; [exact Hhi|].
  apply Hall. right. left.
Defined.

Lemma find_insert_first (backups : list BackupInfo) i backup backup' backupId :
  list_find (λ b, id b = backupId) backups = Some (i, backup) →
  id backup' = backupId →
  find (λ b, bool_decide (id b = backupId)) (<[i := backup']> backups) = Some backup'.
Proof.
  intros Hfind Hid'. apply list_find_Some in Hfind as (Hi & Hid & Hbefore).
  revert i Hi Hbefore. induction backups as [|b l IH]; intros i Hi Hbefore; [done|].
  destruct i as [|i]; cbn in *.
  - by rewrite bool_decide_eq_true_2.
  - rewrite bool_decide_eq_false_2 by (eapply (Hbefore 0%nat); [done|lia]).
    apply IH; [done|]. intros j y Hj Hlt. apply (Hbefore (S j)); [done|lia].
Qed.

(** [updateBackupScreenshot] when no I/O call fails. Without a record of
    that id it returns [false] and changes nothing. Otherwise it returns
    [true], and afterwards [getBackupInfo] finds for that id the first
    record with it, with the screenshot path set and nothing else changed;
    the ledger keeps its length and every other record. *)
Theorem updateBackupScreenshot_recorded self backupId screenshotPath w backups :
  fault_free w →
  nodes w !! metadataFile self = Some (File (Json (JLedger backups))) →
  match list_find (λ b, id b = backupId) backups with
  | None => updateBackupScreenshot self backupId screenshotPath w = (Ok false, w)
  | Some (i, backup) =>
      ∃ w' ledger,
        updateBackupScreenshot self backupId screenshotPath w = (Ok true, w') ∧
        nodes w' = <[metadataFile self := File (Json (JLedger ledger))]> (nodes w) ∧
        getBackupInfo self backupId w'
        = (Ok (Some (set_screenshot (Some screenshotPath) backup)), w') ∧
        length ledger = length backups ∧
        (∀ j, j ≠ i → ledger !! j = backups !! j)
  end.
Proof.
  intros (Hcf & Hwf & Hrmf & Hrdf) Hmeta.
  destruct (list_find _ backups) as [[i backup]|] eqn:Hfind.
  - set (backup' := set_screenshot (Some screenshotPath) backup).
    set (ledger := <[i := backup']> backups).
    set (w' := set_nodes <[metadataFile self := File (Json (JLedger ledger))]> w).
    exists w', ledger. split; [|split; [done|split; [|split]]].
    + unfold updateBackupScreenshot. apply try_catch_run.
      run_step by (by apply getMetadata_free).
      rewrite Hfind.
      run_step by (apply fs_writeJsonSync_free; [done|]; intros sz; by rewrite Hmeta).
      reflexivity.
    + unfold getBackupInfo.
      run_step by (apply getMetadata_free; [done|]; cbn; apply lookup_insert_eq).
      cbn beta iota. unfold ledger.
      erewrite find_insert_first; [reflexivity|exact Hfind|].
      apply list_find_Some in Hfind as (_ & Hid & _). exact Hid.
    + apply length_insert.
    + intros j Hj. by apply list_lookup_insert_ne.
  - unfold updateBackupScreenshot. apply try_catch_run.
    run_step by (by apply getMetadata_free).
    by rewrite Hfind.
Qed.

Lemma updateBackupScreenshot_recorded_witness :
  fault_free sameWorld ∧
  nodes sameWorld !! metadataFile (store 2) = Some (File (Json (JLedger [recordA]))) ∧
  ∃ w',
    updateBackupScreenshot (store 2) (id recordA) "/backups/screenshots/a.png" sameWorld
    = (Ok true, w') ∧
    getBackupInfo (store 2) (id recordA) w'
    = (Ok (Some (set_screenshot (Some "/backups/screenshots/a.png") recordA)), w').
Proof.
  assert (H1 : fault_free sameWorld) by (split; [|split; [|split]]; reflexivity).
  assert (H2 : nodes sameWorld !! metadataFile (store 2)
               = Some (File (Json (JLedger [recordA])))) by (vm_compute; reflexivity).
  assert (Hfind : list_find (λ b, id b = id recordA) [recordA] = Some (0%nat, recordA))
    by (vm_compute; reflexivity).
  split; [exact H1|]. split; [exact H2|].
  pose proof (updateBackupScreenshot_recorded (store 2) (id recordA)
                "/backups/screenshots/a.png" sameWorld [recordA] H1 H2) as H.
  rewrite Hfind in H. destruct H as (w' & ledger & Hrun & _ & Hget & _).
  exists w'. split; [exact Hrun|exact Hget].
Defined.

(** ** Duplicates and eviction *)

(** A duplicate capture into a full ledger costs a backup: the record of
    the duplicate takes the head of the ledger although its archive file is
    deleted, and the oldest record is evicted together with its archive
    file. *)
Theorem createBackup_duplicate_evicts self src w c backups lastBackup :
  let backupId := "backup_" +:+ pretty (clock w) +:+ "_" +:+ random w in
  let fileName := path_basename src in
  let backupFileName := backupId +:+ "_" +:+ fileName in
  let backupFilePath := path_join (backupPath self) backupFileName in
  let fileHash := MD5.hexdigest (content_bytes c) in
  let info :=
    mkBackupInfo backupId fileName backupFileName (clock w)
                 (Z.of_nat (length (content_bytes c))) fileHash src None in
  fault_free w →
  nodes w !! src = Some (File c) →
  is_Some (nodes w !! backupPath self) →
  nodes w !! metadataFile self = Some (File (Json (JLedger backups))) →
  last backups = Some lastBackup →
  hash lastBackup = fileHash →
  nodes w !! backupFilePath = None →
  1 ≤ maxBackups self →
  Z.of_nat (length backups) = maxBackups self →
  Forall (λ b, timestamp b < clock w) backups →
  ∃ w' kept oldest,
    js_sort newestFirst backups = kept ++ [oldest] ∧
    (∀ b, b ∈ backups → timestamp oldest ≤ timestamp b) ∧
    createBackup self src w = (Ok (Some info), w') ∧
    nodes w' !! metadataFile self = Some (File (Json (JLedger (info :: kept)))) ∧
    nodes w' !! backupFilePath = None ∧
    (archivePath self oldest ≠ metadataFile self →
     nodes w' !! archivePath self oldest = None).
Proof.
  intros backupId fileName backupFileName backupFilePath fileHash info
         (Hcf & Hwf & Hrmf & Hrdf) Hsrc Hdir Hmeta Hlast Hhash Hfresh Hmax Hlen Hold.
  assert (Hsb : src ≠ backupFilePath) by congruence.
  assert (Hmb : backupFilePath ≠ metadataFile self) by apply archive_ne_metadata.
  set (sorted := js_sort newestFirst backups).
  set (n := Z.to_nat (maxBackups self)).
  assert (length sorted = n) as Hsl by (unfold sorted; rewrite js_sort_length; lia).
  assert (∃ oldest, drop (n - 1) sorted = [oldest]) as [oldest Hdrop].
  { assert (length (drop (n - 1) sorted) = 1%nat) as Hd by (rewrite length_drop; lia).
    destruct (drop (n - 1) sorted) as [|x [|y l]]; try discriminate. by exists x. }
  set (kept := take (n - 1) sorted).
  assert (sorted = kept ++ [oldest]) as Hsplit.
  { rewrite <- Hdrop. symmetry. apply take_drop. }
  set (w1 := set_nodes <[backupFilePath := File c]> w).
  destruct (evict_loop self [oldest] w1) as (n' & rf' & Hloop & Hother & Hmono & Hgone).
  destruct (Hgone Hrmf) as [-> Hgone'].
  set (w2 := set_removeFaults [] (set_nodes (λ _, n') w1)) in *.
  assert (cleanupOldBackups self (backups ++ [info]) w1 = (Ok (info :: kept), w2))
    as Hclean.
  { unfold cleanupOldBackups.
    destruct (Z.leb_spec (Z.of_nat (length (backups ++ [info]))) (maxBackups self))
      as [Hle|Hgt]; [rewrite length_app in Hle; simpl in Hle; lia|].
    rewrite js_sort_newest_last by done. fold sorted.
    rewrite js_slice_from_suffix, js_slice_prefix by lia. fold n.
    assert (drop n (info :: sorted) = [oldest] ∧ take n (info :: sorted) = info :: kept)
      as [-> ->].
    { unfold kept. rewrite <- Hdrop.
      assert (∃ k, n = S k) as [k Hk] by (exists (n - 1)%nat; lia).
      rewrite Hk. cbn [drop take]. by rewrite Nat.sub_succ, Nat.sub_0_r. }
    by run_step by exact Hloop. }
  set (w3 := set_nodes <[metadataFile self := File (Json (JLedger (info :: kept)))]> w2).
  set (w4 := set_nodes (delete backupFilePath) w3).
  exists w4, kept, oldest. split; [exact Hsplit|]. split; [|split; [|split; [|split]]].
  - intros b Hb.
    pose proof (js_sort_newestFirst_sorted backups) as Hs. fold sorted in Hs.
    rewrite Hsplit in Hs.
    assert (b ∈ kept ++ [oldest]) as Hin.
    { rewrite <- Hsplit. unfold sorted. by rewrite js_sort_perm. }
    apply elem_of_app in Hin as [Hin|Hin].
    + eapply (StronglySorted_app_1_elem_of notOlder); [exact Hs|exact Hin|left].
    + apply list_elem_of_singleton in Hin as ->. lia.
  - unfold createBackup. apply try_catch_run.
    run_step by (by eapply fs_existsSync_true). cbn [negb].
    run_step by (unfold fs_statSync; by rewrite Hsrc).
    run_step by reflexivity.
    run_step by reflexivity.
    run_step by (by apply ensureBackupDir_present).
    run_step by (apply fs_copy_free; [done|done|done|]; intros sz;
                 change (nodes w !! backupFilePath ≠ Some (Dir sz)); by rewrite Hfresh).
    fold backupId fileName backupFileName backupFilePath w1.
    run_step by (by eapply fs_existsSync_true; apply lookup_insert_eq). cbn [negb].
    run_step by (apply calculateFileHash_free; [done|];
                 cbn; by rewrite lookup_insert_ne).
    run_step by (apply getMetadata_free; [done|];
                 cbn; by rewrite lookup_insert_ne).
    rewrite Hlast, Hhash. rewrite bool_decide_eq_true_2 by done.
    fold fileHash info.
    run_step by exact Hclean.
    run_step by (apply fs_writeJsonSync_free; [done|]; intros sz; cbn;
                 destruct (Hmono (metadataFile self)) as [-> | ->]; [done|];
                 cbn; rewrite lookup_insert_ne by done; by rewrite Hmeta).
    fold w3.
    run_step by (eapply fs_existsSync_true; apply lookup_insert_eq).
    run_step by (erewrite bind_run
                   by (apply fs_readJsonSync_free; [done|apply lookup_insert_eq]);
                 reflexivity).
    run_step by (apply try_catch_run; by apply fs_removeSync_pass).
    reflexivity.
  - cbn. rewrite lookup_delete_ne by done. apply lookup_insert_eq.
  - cbn. apply lookup_delete_eq.
  - intros Hne. cbn.
    destruct (decide (backupFilePath = archivePath self oldest)) as [<-|Hne'];
      [apply lookup_delete_eq|].
    rewrite lookup_delete_ne, lookup_insert_ne by done.
    apply Hgone'. cbn. left.
Qed.

Lemma createBackup_duplicate_evicts_witness :
  fault_free restartWorld ∧
  nodes restartWorld !! save = Some (File (Raw bytesB)) ∧
  nodes restartWorld !! metadataFile (store 2)
  = Some (File (Json (JLedger [recordA; recordB]))) ∧
  last [recordA; recordB] = Some recordB ∧
  hash recordB = MD5.hexdigest bytesB ∧
  ∃ w' kept oldest,
    js_sort newestFirst [recordA; recordB] = kept ++ [oldest] ∧
    createBackup (store 2) save restartWorld = (Ok (Some (captured bytesB)), w') ∧
    nodes w' !! metadataFile (store 2)
    = Some (File (Json (JLedger (captured bytesB :: kept)))) ∧
    nodes w' !! archivePath (store 2) (captured bytesB) = None.
Proof.
  assert (H1 : fault_free restartWorld) by (split; [|split; [|split]]; reflexivity).
  assert (H2 : nodes restartWorld !! save = Some (File (Raw bytesB)))
    by (vm_compute; reflexivity).
  assert (H3 : is_Some (nodes restartWorld !! backupPath (store 2)))
    by (exists (Dir 0); vm_compute; reflexivity).
  assert (H4 : nodes restartWorld !! metadataFile (store 2)
               = Some (File (Json (JLedger [recordA; recordB]))))
    by (vm_compute; reflexivity).
  assert (H5 : last [recordA; recordB] = Some recordB) by reflexivity.
  assert (H6 : hash recordB = MD5.hexdigest (content_bytes (Raw bytesB))) by reflexivity.
  assert (H7 : nodes restartWorld !! archivePath (store 2) (captured bytesB) = None)
    by (vm_compute; reflexivity).
  assert (H8 : 1 ≤ maxBackups (store 2)) by (vm_compute; discriminate).
  assert (H9 : Z.of_nat (length [recordA; recordB]) = maxBackups (store 2))
    by reflexivity.
  assert (H10 : Forall (λ b, timestamp b < clock restartWorld) [recordA; recordB])
    by (repeat constructor).
  split; [exact H1|]. split; [exact H2|]. split; [exact H4|]. split; [exact H5|].
  split; [exact H6|].
  destruct (createBackup_duplicate_evicts (store 2) save restartWorld (Raw bytesB)
              [recordA; recordB] recordB H1 H2 H3 H4 H5 H6 H7 H8 H9 H10)
    as (w' & kept & oldest & Hsplit & _ & Hrun & Hmeta & Hgone & _).
  exists w', kept, oldest.
  split; [exact Hsplit|]. split; [exact Hrun|]. split; [exact Hmeta|exact Hgone].
Defined.

(** Started twice on a save file that has not changed, under a ceiling
    of two backups: the ledger holds the records of the two duplicates, and
    not one archive file is left. *)
Example restarts_lose_every_backup :
  nodes restartedTwice !! metadataFile (store 2)
  = Some (File (Json (JLedger [recordOf 2000 "r2" bytesB; captured bytesB]))) ∧
  dom (nodes restartedTwice) = {[ save; root; metadataFile (store 2) ]}.
Proof.
  split; vm_compute; reflexivity.
Qed.

(** ** The digest of a file *)

(** The digest that [calculateFileHash] reports is the MD5 of all the
    bytes of the file, however the stream cut them into chunks, written as
    32 hexadecimal characters; the monitor and the backup store compute the
    same digest, and computing it changes no file. *)
Theorem calculateFileHash_whole_file p w h w' :
  calculateFileHash p w = (Ok h, w') →
  ∃ c,
    nodes w !! p = Some (File c) ∧
    h = MD5.hexdigest (content_bytes c) ∧
    String.length h = 32%nat ∧
    Monitor.calculateFileHash p w = (Ok h, w') ∧
    nodes w' = nodes w.
Proof.
  intros H. destruct (calculateFileHash_ok _ _ _ _ H) as (c & Hp & -> & Hn).
  exists c. split; [done|]. split; [done|].
  split; [apply hexdigest_length|]. split; [|done].
  by rewrite Monitor_calculateFileHash_eq.
Qed.

Lemma calculateFileHash_whole_file_witness :
  calculateFileHash save sameWorld = (Ok (MD5.hexdigest bytesA), sameWorld) ∧
  String.length (MD5.hexdigest bytesA) = 32%nat ∧
  Monitor.calculateFileHash save sameWorld = (Ok (MD5.hexdigest bytesA), sameWorld).
Proof.
  assert (H : calculateFileHash save sameWorld = (Ok (MD5.hexdigest bytesA), sameWorld))
    by (vm_compute; reflexivity).
  split; [exact H|].
  destruct (calculateFileHash_whole_file save sameWorld _ _ H)
    as (c & _ & _ & Hlen & Hmon & _).
  split; [exact Hlen|exact Hmon].
Defined.

(** The digests of RFC 1321 for the empty text, for [a] and for [abc]. *)
Example md5_test_suite :
  MD5.hexdigest [] = "d41d8cd98f00b204e9800998ecf8427e" ∧
  MD5.hexdigest (list_byte_of_string "a") = "0cc175b9c0f1b6a831c399e269772661" ∧
  MD5.hexdigest (list_byte_of_string "abc") = "900150983cd24fb0d6963f7d28e17f72" ∧
  MD5.hexdigest (list_byte_of_string "message digest")
  = "f96b697d7cb7938d525a2f31aaf161d0".
Proof. repeat split; vm_compute; reflexivity. Qed.

(** * More of the monitor *)

(** ** What the file operations leave alone *)

(** Whatever part of the world does not depend on the files and on the
    scheduled faults is left alone by the file operations, and so by every
    method of the backup store. *)
Section Frame.
Context {X : Type} (f : World → X).
Hypothesis f_nodes : ∀ g w, f (set_nodes g w) = f w.
Hypothesis f_copyFaults : ∀ l w, f (set_copyFaults l w) = f w.
Hypothesis f_writeFaults : ∀ l w, f (set_writeFaults l w) = f w.
Hypothesis f_removeFaults : ∀ l w, f (set_removeFaults l w) = f w.
Hypothesis f_readFaults : ∀ l w, f (set_readFaults l w) = f w.

Ltac framed :=
  rewrite ?f_nodes, ?f_copyFaults, ?f_writeFaults, ?f_removeFaults, ?f_readFaults;
  reflexivity.

Lemma preserves_ret {A} (a : A) : preserves f (mret a).
Proof. by intros w r w' [= <- <-]. Qed.

Lemma preserves_throw {A} e : preserves f (@throw World A e).
Proof. by intros w r w' [= <- <-]. Qed.

Lemma preserves_bind {A B} (m : M World A) (k : A → M World B) :
  preserves f m → (∀ a, preserves f (k a)) → preserves f (m ≫= k).
Proof.
  intros Hm Hk w r w'. unfold mbind, M_bind.
  destruct (m w) as [[a|e] w1] eqn:H1; intros H2.
  - etrans; [by eapply Hk|by eapply Hm].
  - injection H2 as <- <-. by eapply Hm.
Qed.

Lemma preserves_try_catch {A} (m : M World A) h :
  preserves f m → (∀ e, preserves f (h e)) → preserves f (try_catch m h).
Proof.
  intros Hm Hh w r w'. unfold try_catch.
  destruct (m w) as [[a|e] w1] eqn:H1; intros H2.
  - injection H2 as <- <-. by eapply Hm.
  - etrans; [by eapply Hh|by eapply Hm].
Qed.

Lemma preserves_for_each {A} (l : list A) (body : A → M World unit) :
  (∀ x, preserves f (body x)) → preserves f (for_each l body).
Proof.
  intros Hb. induction l as [|x l IH]; cbn [for_each]; [apply preserves_ret|].
  apply preserves_bind; [apply Hb|by intros _].
Qed.

Lemma preserves_existsSync p : preserves f (fs_existsSync p).
Proof. by intros w r w' [= <- <-]. Qed.

Lemma preserves_statSync p : preserves f (fs_statSync p).
Proof.
  intros w r w'. unfold fs_statSync.
  destruct (nodes w !! p) as [[c|sz]|]; by intros [= <- <-].
Qed.

Lemma preserves_mkdirSync p : preserves f (fs_mkdirSync p).
Proof.
  intros w r w'. unfold fs_mkdirSync.
  destruct (nodes w !! p) as [[c|sz]|]; intros [= <- <-]; framed.
Qed.

Lemma preserves_copy src dest : preserves f (fs_copy src dest).
Proof.
  intros w r w'. unfold fs_copy. intros H.
  destruct (nodes w !! src) as [n|]; [|by injection H as <- <-].
  destruct (bool_decide (src = dest)); [by injection H as <- <-|].
  destruct (next_fault (copyFaults w)) as [[|[part|]] rest];
    destruct n as [c|sz], (nodes w !! dest) as [[c'|sz']|];
    injection H as <- <-; framed.
Qed.

Lemma preserves_removeSync p : preserves f (fs_removeSync p).
Proof.
  intros w r w'. unfold fs_removeSync.
  destruct (next_fault (removeFaults w)) as [[|part] rest]; intros [= <- <-]; framed.
Qed.

Lemma preserves_writeJsonSync p v : preserves f (fs_writeJsonSync p v).
Proof.
  intros w r w'. unfold fs_writeJsonSync. intros H.
  destruct (next_fault (writeFaults w)) as [[|[part|]] rest];
    destruct (nodes w !! p) as [[c|sz]|]; injection H as <- <-; framed.
Qed.

Lemma preserves_readJsonSync p : preserves f (fs_readJsonSync p).
Proof.
  intros w r w'. unfold fs_readJsonSync. intros H.
  destruct (nodes w !! p) as [[c|sz]|]; try by injection H as <- <-.
  destruct (next_fault (readFaults w)) as [[|part] rest], c;
    injection H as <- <-; framed.
Qed.

Lemma preserves_readStream p : preserves f (fs_readStream p).
Proof.
  intros w r w'. unfold fs_readStream. intros H.
  destruct (nodes w !! p) as [[c|sz]|]; try by injection H as <- <-.
  destruct (next_fault (readFaults w)) as [[|part] rest];
    injection H as <- <-; framed.
Qed.

Lemma preserves_ensureBackupDir self : preserves f (ensureBackupDir self).
Proof.
  unfold ensureBackupDir.
  apply preserves_try_catch; [|intros e; apply preserves_throw].
  apply preserves_bind; [apply preserves_existsSync|]. intros dirExists.
  apply preserves_bind; [destruct (negb dirExists);
                         [apply preserves_mkdirSync|apply preserves_ret]|]. intros _.
  apply preserves_bind; [apply preserves_existsSync|]. intros metaExists.
  destruct (negb metaExists); [apply preserves_writeJsonSync|apply preserves_ret].
Qed.

Lemma preserves_getMetadata self : preserves f (getMetadata self).
Proof.
  unfold getMetadata.
  apply preserves_try_catch; [|intros e; apply preserves_ret].
  apply preserves_bind; [apply preserves_existsSync|]. intros metaExists.
  destruct metaExists; [apply preserves_readJsonSync|apply preserves_ret].
Qed.

Lemma preserves_calculateFileHash p : preserves f (calculateFileHash p).
Proof.
  unfold calculateFileHash.
  apply preserves_bind; [apply preserves_readStream|]. intros data. apply preserves_ret.
Qed.

Lemma preserves_cleanupOldBackups self l : preserves f (cleanupOldBackups self l).
Proof.
  unfold cleanupOldBackups. destruct (_ <=? _); [apply preserves_ret|].
  apply preserves_bind; [|intros _; apply preserves_ret].
  apply preserves_for_each. intros backup.
  apply preserves_try_catch; [|intros e; apply preserves_ret].
  apply preserves_bind; [apply preserves_existsSync|]. intros fileExists.
  destruct fileExists; [apply preserves_removeSync|apply preserves_ret].
Qed.

Lemma preserves_createBackup self src : preserves f (createBackup self src).
Proof.
  unfold createBackup.
  apply preserves_try_catch; [|intros e; apply preserves_ret].
  apply preserves_bind; [apply preserves_existsSync|]. intros sourceExists.
  destruct (negb sourceExists); [apply preserves_throw|].
  apply preserves_bind; [apply preserves_statSync|]. intros statsSize.
  apply preserves_bind; [by intros w r w' [= <- <-]|]. intros now.
  apply preserves_bind; [by intros w r w' [= <- <-]|]. intros backupId.
  apply preserves_bind; [apply preserves_ensureBackupDir|]. intros _.
  apply preserves_bind; [apply preserves_copy|]. intros _.
  apply preserves_bind; [apply preserves_existsSync|]. intros copied.
  destruct (negb copied); [apply preserves_throw|].
  apply preserves_bind; [apply preserves_calculateFileHash|]. intros fileHash.
  apply preserves_bind; [apply preserves_getMetadata|]. intros [backups|text];
    [|apply preserves_throw].
  apply preserves_bind; [apply preserves_cleanupOldBackups|]. intros backups'.
  apply preserves_bind; [apply preserves_writeJsonSync|]. intros _.
  apply preserves_bind; [apply preserves_existsSync|]. intros metaExists.
  apply preserves_bind.
  { destruct metaExists; [|apply preserves_throw].
    apply preserves_bind; [apply preserves_readJsonSync|].
    intros [?|?]; [apply preserves_ret|apply preserves_throw]. }
  intros _. apply preserves_bind; [|intros _; apply preserves_ret].
  destruct (match last backups with Some _ => _ | None => _ end); [|apply preserves_ret].
  apply preserves_try_catch; [apply preserves_removeSync|intros e; apply preserves_ret].
Qed.

End Frame.

Lemma quiet_existsSync p : quiet (fs_existsSync p).
Proof. by apply preserves_existsSync. Qed.

Lemma quiet_statSync p : quiet (fs_statSync p).
Proof. by apply preserves_statSync. Qed.

Lemma quiet_calculateFileHash p : quiet (calculateFileHash p).
Proof. by apply preserves_calculateFileHash. Qed.

Lemma quiet_createBackup self src : quiet (createBackup self src).
Proof. by apply preserves_createBackup. Qed.

Lemma quiet_emit e : quiet (emit e).
Proof.
  intros w r w'. unfold emit.
  destruct e; try (by intros [= <- <-]).
  destruct (bool_decide _); by intros [= <- <-].
Qed.

(** No method of the backup store emits an event. *)
Lemma createBackup_silent self src : preserves emitted (createBackup self src).
Proof. by apply preserves_createBackup. Qed.

Lemma calm_ret {A} (a : A) : calm (mret a).
Proof. by intros s r s' [= <- <-]. Qed.

Lemma calm_this : calm this.
Proof. by intros s r s' [= <- <-]. Qed.

Lemma calm_update_this f : calm (update_this f).
Proof. by intros s r s' [= <- <-]. Qed.

Lemma calm_liftW {A} (m : M World A) : quiet m → calm (liftW m).
Proof.
  intros Hm s r s'. unfold liftW. destruct (m (world s)) as [r' w'] eqn:E.
  intros [= <- <-]. by eapply Hm.
Qed.

Lemma calm_bind {A B} (m : M Session A) (f : A → M Session B) :
  calm m → (∀ a, calm (f a)) → calm (m ≫= f).
Proof.
  intros Hm Hf s r s'. unfold mbind, M_bind.
  destruct (m s) as [[a|e] s1] eqn:H1; intros H2.
  - etrans; [by eapply Hf|by eapply Hm].
  - injection H2 as <- <-. by eapply Hm.
Qed.

Lemma calm_try_catch {A} (m : M Session A) h :
  calm m → (∀ e, calm (h e)) → calm (try_catch m h).
Proof.
  intros Hm Hh s r s'. unfold try_catch.
  destruct (m s) as [[a|e] s1] eqn:H1; intros H2.
  - injection H2 as <- <-. by eapply Hm.
  - etrans; [by eapply Hh|by eapply Hm].
Qed.

Lemma calm_createBackupIfNeeded : calm Monitor.createBackupIfNeeded.
Proof.
  unfold Monitor.createBackupIfNeeded.
  apply calm_try_catch;
    [|intros e; apply calm_bind; [apply calm_liftW, quiet_emit|intros _; apply calm_ret]].
  apply calm_bind; [apply calm_this|]. intros self.
  apply calm_bind; [apply calm_liftW, quiet_statSync|]. intros statsSize.
  destruct (statsSize <? 1); [apply calm_ret|].
  apply calm_bind; [apply calm_liftW, quiet_createBackup|]. intros [info|];
    [|apply calm_ret].
  apply calm_bind; [apply calm_liftW, quiet_emit|]. intros _. apply calm_ret.
Qed.

Lemma calm_checkFileChanges : calm Monitor.checkFileChanges.
Proof.
  unfold Monitor.checkFileChanges.
  apply calm_try_catch; [|intros e; apply calm_liftW, quiet_emit].
  apply calm_bind; [apply calm_this|]. intros self.
  apply calm_bind; [apply calm_liftW, quiet_existsSync|]. intros fileExists.
  destruct (negb fileExists); [apply calm_liftW, quiet_emit|].
  apply calm_bind; [apply calm_liftW, quiet_calculateFileHash|]. intros currentHash.
  apply calm_bind; [apply calm_this|]. intros self'.
  destruct (negb _); [|apply calm_ret].
  apply calm_bind; [apply calm_update_this|]. intros _.
  apply calm_bind; [apply calm_createBackupIfNeeded|]. intros b.
  destruct b; apply calm_ret.
Qed.

Lemma calm_forceCheck : calm Monitor.forceCheck.
Proof.
  unfold Monitor.forceCheck.
  apply calm_bind; [apply calm_this|]. intros self.
  destruct (isMonitoring self); [|apply calm_ret].
  apply calm_bind; [apply calm_checkFileChanges|]. intros _. apply calm_ret.
Qed.

Lemma calm_forceBackup : calm Monitor.forceBackup.
Proof.
  unfold Monitor.forceBackup.
  apply calm_bind; [apply calm_this|]. intros self.
  destruct (isMonitoring self); [|apply calm_ret].
  apply calm_try_catch; [|intros e; apply calm_ret].
  apply calm_bind; [apply calm_createBackupIfNeeded|]. intros b.
  destruct b; apply calm_ret.
Qed.

(** ** Starting a monitor *)

Lemma calculateFileHash_fail p w c part rest :
  nodes w !! p = Some (File c) →
  next_fault (readFaults w) = (Fail part, rest) →
  calculateFileHash p w = (Throw (EIO p), set_readFaults rest w).
Proof.
  intros Hp Hf. unfold calculateFileHash, mbind, M_bind, fs_readStream.
  by rewrite Hp, Hf.
Qed.

Lemma calculateFileHash_dir p w sz :
  nodes w !! p = Some (Dir sz) →
  calculateFileHash p w = (Throw (EISDIR p), w).
Proof.
  intros Hp. unfold calculateFileHash, mbind, M_bind, fs_readStream. by rewrite Hp.
Qed.

(** A handler that tells of the error and returns. *)
Lemma report_run {A} message (a : A) s :
  (liftW (emit (ErrorEvent message));; mret a) s
  = reported message a (monitor s) (world s).
Proof.
  unfold reported, mbind, M_bind, liftW.
  by destruct (emit _ (world s)) as [[[]|e] w'].
Qed.

Lemma reported_inv {A} message (a b : A) self w s' :
  reported message a self w = (Ok b, s') →
  b = a ∧ "error" ∈ listeners w ∧
  s' = mkSession self (push_event (ErrorEvent message) w).
Proof.
  unfold reported, emit. destruct (bool_decide _) eqn:Hl; [|discriminate].
  intros [= <- <-]. by apply bool_decide_eq_true in Hl.
Qed.

Lemma reported_frame {A} message (a : A) self w r s' :
  reported message a self w = (r, s') →
  monitor s' = self ∧ nodes (world s') = nodes w ∧ runtime (world s') = runtime w.
Proof.
  unfold reported, emit. destruct (bool_decide _); by intros [= <- <-].
Qed.

(** [start()] is its two parts, one after the other. *)
Lemma start_in_two_parts s :
  Monitor.start s
  = (r ← start_enter; match r with Some b => mret b | None => start_resume end) s.
Proof.
  destruct s as [m w].
  unfold Monitor.start, start_enter, start_resume, mbind, M_bind, try_catch, this, liftW,
    fs_existsSync, throw, mret, M_ret.
  cbn [monitor world].
  destruct (isMonitoring m); [reflexivity|].
  destruct (bool_decide _); cbn [negb]; [reflexivity|].
  unfold emit. by destruct (bool_decide _).
Qed.

(** A call of [start()] on a monitor that is not running, whose save
    file is there, passes the guard without changing anything, and goes on
    with the second part. *)
Lemma start_after_guard s n :
  isMonitoring (monitor s) = false →
  nodes (world s) !! saveFilePath (monitor s) = Some n →
  start_enter s = (Ok None, s) ∧ Monitor.start s = start_resume s.
Proof.
  intros Hoff Hp. destruct s as [m w]. cbn [monitor world] in *.
  unfold start_enter, Monitor.start, start_resume.
  rewrite !(bind_run this _ _ m (mkSession m w)) by reflexivity. cbn beta.
  rewrite Hoff. unfold try_catch.
  rewrite !(bind_run (liftW (fs_existsSync (saveFilePath m))) _ _ true (mkSession m w))
    by (apply (liftW_run _ (mkSession m w)); by eapply fs_existsSync_true).
  cbn [negb]. done.
Qed.

(** The second part of [start()] on a save file that can be read,
    whether or not the monitor is running by then: the monitor and the
    world before the first capture, and what the capture leaves of them. *)
Lemma start_resume_run s c rest :
  let path := saveFilePath (monitor s) in
  nodes (world s) !! path = Some (File c) →
  next_fault (readFaults (world s)) = (Pass, rest) →
  let h := nextHandle (world s) in
  let m1 :=
    set_isMonitoring true
      (set_checkInterval (Some (S h))
         (set_watcher (Some h)
            (set_lastHash (Some (MD5.hexdigest (content_bytes c))) (monitor s)))) in
  let w1 :=
    push_event (MonitoringStarted path)
      (set_nextHandle (S (S h))
         (set_timers (union {[S h]})
            (set_nextHandle (S h)
               (set_watchers (union {[h]}) (set_readFaults rest (world s)))))) in
  ∃ b s',
    Monitor.createBackupIfNeeded (mkSession m1 w1) = (Ok b, s') ∧
    start_resume s = (Ok true, s') ∧
    monitor s' = m1 ∧ runtime (world s') = runtime w1.
Proof.
  intros path Hp Hf h m1 w1.
  destruct (createBackupIfNeeded_returns (mkSession m1 w1)) as (b & s' & Hb & Hm);
    [left; cbn; fold path; rewrite Hp; eauto|].
  pose proof (calm_createBackupIfNeeded _ _ _ Hb) as Hr.
  exists b, s'. split; [exact Hb|]. split; [|split; [exact Hm|exact Hr]].
  unfold start_resume.
  erewrite (bind_run this) by reflexivity. cbn beta.
  apply try_catch_run.
  run_step by (apply liftW_run; rewrite Monitor_calculateFileHash_eq;
               by apply calculateFileHash_run).
  run_step by reflexivity.
  run_step by reflexivity.
  run_step by reflexivity.
  run_step by reflexivity.
  run_step by reflexivity.
  run_step by reflexivity.
  run_step by reflexivity.
  run_step by exact Hb. reflexivity.
Qed.

(** [start()] on a monitor that is not running, by cases. *)
Lemma start_run s :
  isMonitoring (monitor s) = false →
  let path := saveFilePath (monitor s) in
  match nodes (world s) !! path with
  | Some (File c) =>
      match next_fault (readFaults (world s)) with
      | (Pass, rest) =>
          let h := nextHandle (world s) in
          let m1 :=
            set_isMonitoring true
              (set_checkInterval (Some (S h))
                 (set_watcher (Some h)
                    (set_lastHash (Some (MD5.hexdigest (content_bytes c))) (monitor s)))) in
          let w1 :=
            push_event (MonitoringStarted path)
              (set_nextHandle (S (S h))
                 (set_timers (union {[S h]})
                    (set_nextHandle (S h)
                       (set_watchers (union {[h]}) (set_readFaults rest (world s)))))) in
          ∃ b s',
            Monitor.createBackupIfNeeded (mkSession m1 w1) = (Ok b, s') ∧
            Monitor.start s = (Ok true, s') ∧
            monitor s' = m1 ∧ runtime (world s') = runtime w1
      | (Fail _, rest) =>
          Monitor.start s
          = reported (exn_message (EIO path)) false (monitor s)
                     (set_readFaults rest (world s))
      end
  | Some (Dir _) =>
      Monitor.start s = reported (exn_message (EISDIR path)) false (monitor s) (world s)
  | None =>
      Monitor.start s = reported "save file does not exist" false (monitor s) (world s)
  end.
Proof.
  intros Hoff path.
  destruct (nodes (world s) !! path) as [[c|sz]|] eqn:Hp.
  - destruct (next_fault (readFaults (world s))) as [[|part] rest] eqn:Hf.
    + cbn zeta. destruct (start_after_guard s _ Hoff Hp) as [_ ->].
      by apply start_resume_run.
    + unfold Monitor.start.
      erewrite (bind_run this) by reflexivity. cbn beta. rewrite Hoff.
      erewrite try_catch_throw
        by (run_step by (apply liftW_run; by eapply fs_existsSync_true); cbn [negb];
            apply bind_throw; apply liftW_run;
            rewrite Monitor_calculateFileHash_eq; by eapply calculateFileHash_fail).
      by rewrite report_run.
  - unfold Monitor.start.
    erewrite (bind_run this) by reflexivity. cbn beta. rewrite Hoff.
    erewrite try_catch_throw
      by (run_step by (apply liftW_run; by eapply fs_existsSync_true); cbn [negb];
          apply bind_throw; apply liftW_run;
          rewrite Monitor_calculateFileHash_eq; by eapply calculateFileHash_dir).
    rewrite report_run. by destruct s.
  - unfold Monitor.start.
    erewrite (bind_run this) by reflexivity. cbn beta. rewrite Hoff.
    erewrite try_catch_throw
      by (run_step by (apply liftW_run; by apply fs_existsSync_false); reflexivity).
    rewrite report_run. by destruct s.
Qed.

(** [start()] on a monitor that is not running, whose save file can be
    read: it returns [true]; the monitor is running, [lastHash] is the
    digest of the save file, the monitor holds a new watcher and a new poll
    timer, both are open in the runtime, and the first capture is attempted
    once all this is done and [monitoring-started] has been emitted. *)
Theorem start_opens s c rest :
  isMonitoring (monitor s) = false →
  nodes (world s) !! saveFilePath (monitor s) = Some (File c) →
  next_fault (readFaults (world s)) = (Pass, rest) →
  ∃ s',
    Monitor.start s = (Ok true, s') ∧
    isMonitoring (monitor s') = true ∧
    lastHash (monitor s') = Some (MD5.hexdigest (content_bytes c)) ∧
    watcher (monitor s') = Some (nextHandle (world s)) ∧
    checkInterval (monitor s') = Some (S (nextHandle (world s))) ∧
    debounceTimeout (monitor s') = debounceTimeout (monitor s) ∧
    watchers (world s') = {[nextHandle (world s)]} ∪ watchers (world s) ∧
    timers (world s') = {[S (nextHandle (world s))]} ∪ timers (world s) ∧
    ∃ b w1,
      Monitor.createBackupIfNeeded (mkSession (monitor s') w1) = (Ok b, s') ∧
      nodes w1 = nodes (world s) ∧
      emitted w1 = emitted (world s) ++ [MonitoringStarted (saveFilePath (monitor s))].
Proof.
  intros Hoff Hp Hf. pose proof (start_run s Hoff) as H. cbn zeta in H.
  rewrite Hp, Hf in H. destruct H as (b & s' & Hb & Hstart & Hm & Hr).
  exists s'. split; [exact Hstart|]. rewrite Hm.
  injection Hr as Hw Ht _. cbn in Hw, Ht.
  repeat (split; [done|]).
  eexists b, _. split; [exact Hb|]. by split.
Qed.

Lemma start_opens_witness :
  isMonitoring (monitor fresh) = false ∧
  nodes (world fresh) !! saveFilePath (monitor fresh) = Some (File (Raw bytesA)) ∧
  next_fault (readFaults (world fresh)) = (Pass, []) ∧
  ∃ s',
    Monitor.start fresh = (Ok true, s') ∧
    isMonitoring (monitor s') = true ∧
    lastHash (monitor s') = Some (MD5.hexdigest bytesA) ∧
    watcher (monitor s') = Some 0%nat ∧
    checkInterval (monitor s') = Some 1%nat.
Proof.
  assert (H1 : isMonitoring (monitor fresh) = false) by reflexivity.
  assert (H2 : nodes (world fresh) !! saveFilePath (monitor fresh)
               = Some (File (Raw bytesA))) by (vm_compute; reflexivity).
  assert (H3 : next_fault (readFaults (world fresh)) = (Pass, []))
    by (vm_compute; reflexivity).
  split; [exact H1|]. split; [exact H2|]. split; [exact H3|].
  destruct (start_opens fresh (Raw bytesA) [] H1 H2 H3)
    as (s' & Hrun & Hon & Hlast & Hw & Hc & _).
  exists s'. split; [exact Hrun|]. split; [exact Hon|]. split; [exact Hlast|].
  split; [rewrite Hw|rewrite Hc]; vm_compute; reflexivity.
Defined.

(** A [start()] that returns [false] has opened nothing: the monitor
    object, the files, the watchers and the timers are as they were. On a
    monitor that is running nothing at all changes; otherwise one [error]
    event has been emitted. *)
Theorem start_refused s s' :
  Monitor.start s = (Ok false, s') →
  monitor s' = monitor s ∧
  nodes (world s') = nodes (world s) ∧
  runtime (world s') = runtime (world s) ∧
  (isMonitoring (monitor s) = true → s' = s) ∧
  (isMonitoring (monitor s) = false →
     ∃ message, emitted (world s') = emitted (world s) ++ [ErrorEvent message]).
Proof.
  intros H. destruct (isMonitoring (monitor s)) eqn:Hrun.
  - unfold Monitor.start in H.
    erewrite (bind_run this) in H by reflexivity. cbn beta in H.
    rewrite Hrun in H. injection H as <-. by repeat split.
  - pose proof (start_run s Hrun) as Hcases. cbn zeta in Hcases.
    destruct (nodes (world s) !! saveFilePath (monitor s)) as [[c|sz]|].
    + destruct (next_fault (readFaults (world s))) as [[|part] rest].
      * destruct Hcases as (b & s1 & _ & Hstart & _). congruence.
      * rewrite Hcases in H. apply reported_inv in H as (_ & _ & ->). cbn.
        repeat split; [done|]. intros _. by eexists.
    + rewrite Hcases in H. apply reported_inv in H as (_ & _ & ->). cbn.
      repeat split; [done|]. intros _. by eexists.
    + rewrite Hcases in H. apply reported_inv in H as (_ & _ & ->). cbn.
      repeat split; [done|]. intros _. by eexists.
Qed.

Lemma start_refused_witness :
  Monitor.start heardSession = (Ok false, after Monitor.start heardSession) ∧
  monitor (after Monitor.start heardSession) = monitor heardSession ∧
  runtime (world (after Monitor.start heardSession)) = runtime (world heardSession) ∧
  ∃ message,
    emitted (world (after Monitor.start heardSession)) = [ErrorEvent message].
Proof.
  assert (H : Monitor.start heardSession = (Ok false, after Monitor.start heardSession))
    by (vm_compute; reflexivity).
  split; [exact H|].
  destruct (start_refused heardSession _ H) as (Hm & _ & Hr & _ & He).
  split; [exact Hm|]. split; [exact Hr|].
  destruct (He eq_refl) as [message Hmsg]. exists message. exact Hmsg.
Defined.

(** ** Change signals *)

(** A change signal that finds the digest it saw last makes no backup:
    nothing changes but the read that has been consumed. *)
Theorem checkFileChanges_unchanged s c rest :
  nodes (world s) !! saveFilePath (monitor s) = Some (File c) →
  next_fault (readFaults (world s)) = (Pass, rest) →
  lastHash (monitor s) = Some (MD5.hexdigest (content_bytes c)) →
  Monitor.checkFileChanges s
  = (Ok tt, mkSession (monitor s) (set_readFaults rest (world s))).
Proof.
  intros Hp Hf Hlast. unfold Monitor.checkFileChanges.
  apply try_catch_run.
  erewrite (bind_run this) by reflexivity. cbn beta.
  run_step by (apply liftW_run; by eapply fs_existsSync_true). cbn [negb].
  run_step by (apply liftW_run; rewrite Monitor_calculateFileHash_eq;
               by apply calculateFileHash_run).
  erewrite (bind_run this) by reflexivity. cbn beta. cbn [monitor].
  by rewrite bool_decide_eq_true_2.
Qed.

Lemma checkFileChanges_unchanged_witness :
  nodes (world started) !! saveFilePath (monitor started) = Some (File (Raw bytesA)) ∧
  next_fault (readFaults (world started)) = (Pass, []) ∧
  lastHash (monitor started) = Some (MD5.hexdigest bytesA) ∧
  Monitor.checkFileChanges started
  = (Ok tt, mkSession (monitor started) (set_readFaults [] (world started))).
Proof.
  assert (H1 : nodes (world started) !! saveFilePath (monitor started)
               = Some (File (Raw bytesA))) by (vm_compute; reflexivity).
  assert (H2 : next_fault (readFaults (world started)) = (Pass, []))
    by (vm_compute; reflexivity).
  assert (H3 : lastHash (monitor started)
               = Some (MD5.hexdigest (content_bytes (Raw bytesA))))
    by (vm_compute; reflexivity).
  split; [exact H1|]. split; [exact H2|]. split; [exact H3|].
  exact (checkFileChanges_unchanged started (Raw bytesA) [] H1 H2 H3).
Defined.

(** The run of a capture that succeeds, as [createBackupIfNeeded] sees
    it. *)
Lemma createBackupIfNeeded_created m w c info w' :
  nodes w !! saveFilePath m = Some (File c) →
  content_bytes c ≠ [] →
  createBackup (backupManager m) (saveFilePath m) w = (Ok (Some info), w') →
  Monitor.createBackupIfNeeded (mkSession m w)
  = (Ok true,
     mkSession m (push_event (BackupCreated (id info) (timestamp info) (size info)
                                            (hash info) (saveFilePath m)) w')).
Proof.
  intros Hp Hc Hrun. rewrite createBackupIfNeeded_run. cbn zeta. cbn [monitor world].
  rewrite Hp. cbn [node_size].
  destruct (content_bytes c) as [|x l]; [done|].
  destruct (_ <? 1) eqn:Hlt; [apply Z.ltb_lt in Hlt; simpl in Hlt; lia|].
  by rewrite Hrun.
Qed.

(** A change signal that finds new content, when no I/O call fails and
    the ledger is below its ceiling: the content is archived under a new
    name, its record is appended to the ledger, [lastHash] becomes its
    digest and [backup-created] is emitted with the record's data. Nothing
    else changes. *)
Theorem checkFileChanges_captures s c backups :
  let self := backupManager (monitor s) in
  let src := saveFilePath (monitor s) in
  let w := world s in
  let backupId := "backup_" +:+ pretty (clock w) +:+ "_" +:+ random w in
  let backupFileName := backupId +:+ "_" +:+ path_basename src in
  let backupFilePath := path_join (backupPath self) backupFileName in
  let digest := MD5.hexdigest (content_bytes c) in
  let info :=
    mkBackupInfo backupId (path_basename src) backupFileName (clock w)
                 (Z.of_nat (length (content_bytes c))) digest src None in
  fault_free w →
  nodes w !! src = Some (File c) →
  content_bytes c ≠ [] →
  lastHash (monitor s) ≠ Some digest →
  is_Some (nodes w !! backupPath self) →
  nodes w !! metadataFile self = Some (File (Json (JLedger backups))) →
  (∀ lastBackup, last backups = Some lastBackup → hash lastBackup ≠ digest) →
  Z.of_nat (length backups) < maxBackups self →
  nodes w !! backupFilePath = None →
  Monitor.checkFileChanges s
  = (Ok tt,
     mkSession
       (set_lastHash (Some digest) (monitor s))
       (push_event (BackupCreated backupId (clock w)
                                  (Z.of_nat (length (content_bytes c))) digest src)
          (set_nodes <[metadataFile self := File (Json (JLedger (backups ++ [info])))]>
             (set_nodes <[backupFilePath := File c]> w)))).
Proof.
  intros self src w backupId backupFileName backupFilePath digest info
         Hfree Hsrc Hne Hlast Hdir Hmeta Hdup Hlen Hfresh.
  pose proof Hfree as (Hcf & Hwf & Hrmf & Hrdf).
  unfold Monitor.checkFileChanges. apply try_catch_run.
  erewrite (bind_run this) by reflexivity. cbn beta.
  run_step by (apply liftW_run; by eapply fs_existsSync_true). cbn [negb].
  run_step by (apply liftW_run; rewrite Monitor_calculateFileHash_eq;
               by apply calculateFileHash_free).
  erewrite (bind_run this) by reflexivity. cbn beta. cbn [monitor].
  rewrite bool_decide_eq_false_2 by (intros E; by apply Hlast).
  cbn [negb].
  run_step by reflexivity.
  run_step by (apply createBackupIfNeeded_created with (c := c) (info := info);
               [exact Hsrc|exact Hne|];
               by apply (createBackup_fresh_run self src w c backups)).
  reflexivity.
Qed.

Lemma checkFileChanges_captures_witness :
  fault_free (world changedSession) ∧
  nodes (world changedSession) !! save = Some (File (Raw bytesB)) ∧
  lastHash (monitor changedSession) = Some (MD5.hexdigest bytesA) ∧
  ∃ s',
    Monitor.checkFileChanges changedSession = (Ok tt, s') ∧
    lastHash (monitor s') = Some (MD5.hexdigest bytesB) ∧
    nodes (world s') !! archivePath (store 2) (captured bytesB)
    = Some (File (Raw bytesB)) ∧
    nodes (world s') !! metadataFile (store 2)
    = Some (File (Json (JLedger [recordA; captured bytesB]))).
Proof.
  assert (H1 : fault_free (world changedSession))
    by (split; [|split; [|split]]; reflexivity).
  assert (H2 : nodes (world changedSession) !! saveFilePath (monitor changedSession)
               = Some (File (Raw bytesB))) by (vm_compute; reflexivity).
  assert (H3 : content_bytes (Raw bytesB) ≠ []) by (vm_compute; discriminate).
  assert (H4 : lastHash (monitor changedSession)
               ≠ Some (MD5.hexdigest (content_bytes (Raw bytesB))))
    by (vm_compute; discriminate).
  assert (H5 : is_Some (nodes (world changedSession)
                          !! backupPath (backupManager (monitor changedSession))))
    by (exists (Dir 0); vm_compute; reflexivity).
  assert (H6 : nodes (world changedSession)
                 !! metadataFile (backupManager (monitor changedSession))
               = Some (File (Json (JLedger [recordA])))) by (vm_compute; reflexivity).
  assert (H7 : ∀ lastBackup, last [recordA] = Some lastBackup →
               hash lastBackup ≠ MD5.hexdigest (content_bytes (Raw bytesB)))
    by (intros lastBackup [= <-]; vm_compute; discriminate).
  assert (H8 : Z.of_nat (length [recordA])
               < maxBackups (backupManager (monitor changedSession)))
    by (vm_compute; reflexivity).
  assert (H9 : nodes (world changedSession) !! archivePath (store 2) (captured bytesB)
               = None) by (vm_compute; reflexivity).
  split; [exact H1|]. split; [exact H2|]. split; [reflexivity|].
  pose proof (checkFileChanges_captures changedSession (Raw bytesB) [recordA]
                H1 H2 H3 H4 H5 H6 H7 H8 H9) as Hrun.
  eexists. split; [exact Hrun|].
  split; [reflexivity|]. split; vm_compute; reflexivity.
Defined.

(** ** Debouncing *)

Lemma handleFileChange_run s :
  let t := nextHandle (world s) in
  let cleared :=
    match debounceTimeout (monitor s) with
    | Some old => timers (world s) ∖ {[old]}
    | None => timers (world s)
    end in
  Monitor.handleFileChange s
  = (Ok tt,
     mkSession (set_debounceTimeout (Some t) (monitor s))
               (set_nextHandle (S t) (set_timers (λ _, {[t]} ∪ cleared) (world s)))).
Proof.
  destruct s as [[path mgr wt running lh ci db dd] w].
  destruct db as [hd|]; cbn; reflexivity.
Qed.

(** One ['change'] event of the watcher: the callback tells the
    listeners of it and sets the debounce timer anew. *)
Lemma watcherChange_run s :
  let t := nextHandle (world s) in
  let cleared :=
    match debounceTimeout (monitor s) with
    | Some old => timers (world s) ∖ {[old]}
    | None => timers (world s)
    end in
  perform WatcherChange s
  = (Ok tt,
     mkSession (set_debounceTimeout (Some t) (monitor s))
               (set_nextHandle (S t)
                  (set_timers (λ _, {[t]} ∪ cleared)
                     (push_event (FileChangeDetected (saveFilePath (monitor s)))
                                 (world s))))).
Proof.
  destruct s as [[path mgr wt running lh ci db dd] w].
  destruct db as [hd|]; cbn; reflexivity.
Qed.

Lemma watcherChange_step s :
  let s' := snd (perform WatcherChange s) in
  ∃ t,
    monitor s' = set_debounceTimeout (Some t) (monitor s) ∧
    t ∈ timers (world s') ∧
    (∀ u, u ∈ timers (world s') → u ≠ t →
          u ∈ timers (world s) ∧ debounceTimeout (monitor s) ≠ Some u) ∧
    watchers (world s') = watchers (world s) ∧
    nodes (world s') = nodes (world s) ∧
    emitted (world s')
    = emitted (world s) ++ [FileChangeDetected (saveFilePath (monitor s))].
Proof.
  cbn zeta. rewrite watcherChange_run. cbn.
  exists (nextHandle (world s)). split; [done|].
  split; [apply elem_of_union_l; by apply elem_of_singleton|].
  split; [|done]. intros u Hu Hne.
  apply elem_of_union in Hu as [Hu|Hu]; [by apply elem_of_singleton in Hu|].
  destruct (debounceTimeout (monitor s)) as [old|]; [|done].
  apply elem_of_difference in Hu as [Hu Hold]. split; [done|].
  intros [= ->]. apply Hold. by apply elem_of_singleton.
Qed.

(** However many change events the watcher delivers in a row, one
    debounce timer is pending afterwards: the monitor holds its handle, and
    every other pending timer was pending before the events and is not the
    debounce timer the monitor held then. The listeners have been told of
    every one of the events. Nothing else of the session changes: no file,
    no watcher, nothing else of the monitor. *)
Theorem handleFileChange_debounces n s :
  let s' := burst (S n) s in
  ∃ t,
    monitor s' = set_debounceTimeout (Some t) (monitor s) ∧
    t ∈ timers (world s') ∧
    (∀ u, u ∈ timers (world s') → u ≠ t →
          u ∈ timers (world s) ∧ debounceTimeout (monitor s) ≠ Some u) ∧
    watchers (world s') = watchers (world s) ∧
    nodes (world s') = nodes (world s) ∧
    emitted (world s')
    = emitted (world s)
      ++ replicate (S n) (FileChangeDetected (saveFilePath (monitor s))).
Proof.
  cbn zeta. induction n as [|n IH].
  - apply (watcherChange_step s).
  - destruct IH as (t0 & Hm0 & Hin0 & Hothers & Hw & Hn & He).
    change (burst (S (S n)) s) with (snd (perform WatcherChange (burst (S n) s))).
    destruct (watcherChange_step (burst (S n) s))
      as (t & Hm & Hin & Hstep & Hw' & Hn' & He').
    exists t. split; [by rewrite Hm, Hm0|]. split; [done|].
    split; [|split; [congruence|split; [congruence|]]].
    + intros u Hu Hne. destruct (Hstep u Hu Hne) as [Hu' Hold].
      apply Hothers; [done|]. intros ->. apply Hold. by rewrite Hm0.
    + rewrite He', He, Hm0. cbn [saveFilePath set_debounceTimeout].
      by rewrite <- app_assoc, <- replicate_S_end.
Qed.

(** ** Watchers and timers that are kept, and some that are lost *)

Lemma no_leak_same s s' :
  same_handles (monitor s) (monitor s') →
  runtime (world s') = runtime (world s) →
  no_leak s → no_leak s'.
Proof.
  unfold no_leak, heldWatchers, heldTimers.
  intros (Hw & Hc & Hd & _) [= Hrw Hrt _]. by rewrite Hw, Hc, Hd, Hrw, Hrt.
Qed.

Lemma start_no_leak s r s' :
  Monitor.start s = (r, s') → handles_ok (monitor s) → no_leak s → no_leak s'.
Proof.
  intros Hrun Hok Hleak.
  destruct (isMonitoring (monitor s)) eqn:Hon.
  - unfold Monitor.start in Hrun.
    erewrite (bind_run this) in Hrun by reflexivity. cbn beta in Hrun.
    rewrite Hon in Hrun. by injection Hrun as <- <-.
  - assert (∀ message w,
              runtime w = runtime (world s) →
              reported message false (monitor s) w = (r, s') → no_leak s') as Hfail.
    { intros message w Hw Hrep. apply reported_frame in Hrep as (Hm & _ & Hr).
      eapply no_leak_same; [|by rewrite Hr, Hw|exact Hleak].
      rewrite Hm. apply same_handles_refl. }
    destruct (Hok Hon) as (Hnw & Hnc & Hnd).
    pose proof (start_run s Hon) as Hcases. cbn zeta in Hcases.
    destruct (nodes (world s) !! saveFilePath (monitor s)) as [[c|sz]|].
    + destruct (next_fault (readFaults (world s))) as [[|part] rest].
      * destruct Hleak as [Hlw Hlt]. unfold heldWatchers, heldTimers in *.
        rewrite Hnw in Hlw. rewrite Hnc, Hnd in Hlt.
        destruct Hcases as (b & s1 & _ & Hstart & Hm & Hr).
        rewrite Hstart in Hrun. injection Hrun as <- <-.
        injection Hr as Hrw Hrt _. cbn in Hrw, Hrt.
        split; unfold heldWatchers, heldTimers; rewrite Hm; cbn.
        -- rewrite Hrw. intros x Hx. apply elem_of_union in Hx as [Hx|Hx]; [done|].
           by apply Hlw in Hx.
        -- rewrite Hrt, Hnd. intros x Hx. apply elem_of_union in Hx as [Hx|Hx].
           ++ by apply elem_of_union_l.
           ++ by apply Hlt in Hx.
      * rewrite Hcases in Hrun. eapply Hfail; [|exact Hrun]. reflexivity.
    + rewrite Hcases in Hrun. eapply Hfail; [|exact Hrun]. reflexivity.
    + rewrite Hcases in Hrun. eapply Hfail; [|exact Hrun]. reflexivity.
Qed.

(** Nothing is left of a set of handles once the handles that bound it
    are taken out. *)
Ltac none_left :=
  apply elem_of_equiv_empty_L; intros ? ?;
  repeat match goal with
         | H : _ ∈ _ ∖ _ |- _ => apply elem_of_difference in H as [? ?]
         end;
  match goal with
  | H : ?x ∈ ?X, L : ?X ⊆ _ |- _ => apply L in H
  end;
  repeat match goal with
         | H : _ ∈ _ ∪ _ |- _ => apply elem_of_union in H as [?|?]
         | H : _ ∈ ∅ |- _ => by apply elem_of_empty in H
         end;
  done.

(** [stop()] in a session without lost handles leaves no watcher open
    and no timer pending. *)
Lemma stop_releases s r s' :
  Monitor.stop s = (r, s') →
  handles_ok (monitor s) → no_leak s →
  watchers (world s') = ∅ ∧ timers (world s') = ∅ ∧ idle (monitor s').
Proof.
  destruct s as [[path mgr wt running lh ci db dd] w].
  unfold handles_ok, no_leak, heldWatchers, heldTimers, idle. cbn.
  intros Hrun Hok [Hlw Hlt].
  destruct running.
  - destruct wt as [hw|], ci as [hc|], db as [hd|]; cbn in *;
      injection Hrun as <- <-; cbn;
      (split; [none_left|split; [none_left|done]]).
  - injection Hrun as <- <-. cbn. destruct (Hok eq_refl) as (-> & -> & ->).
    split; [none_left|split; [none_left|done]].
Qed.

Lemma reachable_no_leak_inv s : reachable s → no_leak s.
Proof.
  induction 1 as [path mgr w Hw Ht|c s Hs IH Hen|s w Hs IH Hw Ht].
  - split; cbn; [by rewrite Hw|by rewrite Ht].
  - pose proof (reachable_handles_ok s Hs) as Hok.
    destruct c; cbn [perform enabled] in *.
    + match goal with |- no_leak (snd ((?m;; mret tt) s)) =>
        replace (snd ((m;; mret tt) s)) with (snd (m s))
          by (unfold mbind, M_bind; by destruct (m s) as [[a|e] s1]) end.
      destruct (Monitor.start s) as [r s'] eqn:Hrun. by eapply start_no_leak.
    + match goal with |- no_leak (snd ((?m;; mret tt) s)) =>
        replace (snd ((m;; mret tt) s)) with (snd (m s))
          by (unfold mbind, M_bind; by destruct (m s) as [[a|e] s1]) end.
      destruct (Monitor.stop s) as [r s'] eqn:Hrun.
      destruct (stop_releases _ _ _ Hrun Hok IH) as (Hw & Ht & _).
      split; cbn; [rewrite Hw|rewrite Ht]; apply empty_subseteq.
    + match goal with |- no_leak (snd ((?m;; mret tt) s)) =>
        replace (snd ((m;; mret tt) s)) with (snd (m s))
          by (unfold mbind, M_bind; by destruct (m s) as [[a|e] s1]) end.
      destruct (Monitor.forceCheck s) as [r s'] eqn:Hrun.
      eapply no_leak_same; [by eapply keeps_forceCheck|by eapply calm_forceCheck|done].
    + match goal with |- no_leak (snd ((?m;; mret tt) s)) =>
        replace (snd ((m;; mret tt) s)) with (snd (m s))
          by (unfold mbind, M_bind; by destruct (m s) as [[a|e] s1]) end.
      destruct (Monitor.forceBackup s) as [r s'] eqn:Hrun.
      eapply no_leak_same; [by eapply keeps_forceBackup|by eapply calm_forceBackup|done].
    + erewrite (bind_run this) by reflexivity. cbn beta.
      erewrite bind_run by (apply liftW_run; reflexivity). cbn beta.
      rewrite handleFileChange_run. cbn.
      destruct IH as [Hlw Hlt]. split; [exact Hlw|].
      unfold heldTimers in *. cbn.
      intros x Hx. apply elem_of_union in Hx as [Hx|Hx]; [by apply elem_of_union_r|].
      destruct (debounceTimeout (monitor s)) as [old|].
      * apply elem_of_difference in Hx as [Hx Hne]. apply Hlt in Hx.
        apply elem_of_union in Hx as [Hx|Hx]; [by apply elem_of_union_l|done].
      * apply Hlt in Hx. rewrite union_empty_r_L in Hx. by apply elem_of_union_l.
    + destruct (liftW _ s) as [r s'] eqn:Hrun.
      eapply no_leak_same;
        [by eapply keeps_liftW|by eapply (calm_liftW _ (quiet_emit _))|done].
    + destruct (Monitor.checkFileChanges s) as [r s'] eqn:Hrun.
      eapply no_leak_same;
        [by eapply keeps_checkFileChanges|by eapply calm_checkFileChanges|done].
    + erewrite (bind_run this) by reflexivity. cbn beta.
      set (s1 := match debounceTimeout (monitor s) with
                 | Some t => mkSession (monitor s)
                               (set_timers (λ ts, ts ∖ {[t]}) (world s))
                 | None => s
                 end).
      assert (no_leak s1 ∧ monitor s1 = monitor s) as [Hl1 Hm1].
      { unfold s1. destruct (debounceTimeout (monitor s)) as [t|]; [|done].
        split; [|done]. destruct IH as [Hlw Hlt]. split; [exact Hlw|]. cbn.
        intros x Hx. apply elem_of_difference in Hx as [Hx _]. by apply Hlt. }
      erewrite bind_run.
      2:{ instantiate (1 := s1). instantiate (1 := tt). unfold s1.
          destruct (debounceTimeout (monitor s)); reflexivity. }
      destruct (Monitor.checkFileChanges s1) as [r s'] eqn:Hrun.
      eapply no_leak_same;
        [by eapply keeps_checkFileChanges|by eapply calm_checkFileChanges|done].
  - destruct IH as [Hlw Hlt]. split; cbn; [by rewrite Hw|by rewrite Ht].
Qed.

(** With calls that are made one after the other, every open watcher
    and every pending timer is one the monitor still holds the handle of,
    and after [stop()] no watcher is open and no timer is pending. *)
Lemma sequential_no_leak s :
  reachable s →
  no_leak s ∧
  ∃ r s',
    Monitor.stop s = (Ok r, s') ∧
    watchers (world s') = ∅ ∧ timers (world s') = ∅ ∧ idle (monitor s').
Proof.
  intros Hs. pose proof (reachable_no_leak_inv s Hs) as Hleak.
  split; [done|].
  destruct (Monitor.stop s) as [r s'] eqn:Hrun.
  destruct (stop_releases _ _ _ Hrun (reachable_handles_ok s Hs) Hleak)
    as (Hw & Ht & Hidle).
  destruct (isMonitoring (monitor s)) eqn:Hon.
  - destruct (stop_running s Hon) as (s1 & Hstop & _). rewrite Hstop in Hrun.
    injection Hrun as <- <-. by exists true, s1.
  - rewrite (stop_not_running s Hon) in Hrun. injection Hrun as <- <-.
    by exists false, s.
Qed.

(** [stop()] closes the watcher and clears the timers the monitor holds
    the handles of, and no other. *)
Lemma stop_keeps_others s r s' :
  Monitor.stop s = (r, s') →
  (∀ x, x ∈ watchers (world s) → watcher (monitor s) ≠ Some x →
        x ∈ watchers (world s')) ∧
  (∀ x, x ∈ timers (world s) → checkInterval (monitor s) ≠ Some x →
        debounceTimeout (monitor s) ≠ Some x → x ∈ timers (world s')).
Proof.
  destruct s as [[path mgr wt running lh ci db dd] w]. cbn.
  destruct running; [|by intros [= <- <-]].
  destruct wt as [hw|], ci as [hc|], db as [hd|]; cbn;
    intros [= <- <-]; cbn; (split; [intros x Hx Hw|intros x Hx Hc Hd]);
    repeat (apply elem_of_difference; split;
            [|intros ->%elem_of_singleton; congruence]);
    done.
Qed.

(** Two calls of [start()] that overlap, on a monitor that holds no
    handle. Both pass the guard while the monitor is not running, and
    passing it changes nothing. When the first call goes on, it starts the
    monitor. When the second goes on, it starts the monitor once more, over
    the first: the monitor then holds a second watcher and a second poll
    timer, while the first ones stay open and pending. No handle of them is
    left, so a [stop()] after that does not close them. *)
Theorem start_overlap_leaks s c rest r1 s1 c1 rest1 :
  let path := saveFilePath (monitor s) in
  let h := nextHandle (world s) in
  isMonitoring (monitor s) = false →
  idle (monitor s) →
  nodes (world s) !! path = Some (File c) →
  next_fault (readFaults (world s)) = (Pass, rest) →
  start_resume s = (r1, s1) →
  nodes (world s1) !! path = Some (File c1) →
  next_fault (readFaults (world s1)) = (Pass, rest1) →
  start_enter s = (Ok None, s) ∧
  Monitor.start s = (Ok true, s1) ∧
  r1 = Ok true ∧
  watcher (monitor s1) = Some h ∧
  checkInterval (monitor s1) = Some (S h) ∧
  ∃ s2 s3,
    start_resume s1 = (Ok true, s2) ∧
    watcher (monitor s2) = Some (S (S h)) ∧
    checkInterval (monitor s2) = Some (S (S (S h))) ∧
    h ∈ watchers (world s2) ∧
    S h ∈ timers (world s2) ∧
    ¬ no_leak s2 ∧
    Monitor.stop s2 = (Ok true, s3) ∧
    idle (monitor s3) ∧
    h ∈ watchers (world s3) ∧
    S h ∈ timers (world s3).
Proof.
  intros path h Hoff (_ & _ & Hnd) Hp Hf Hres Hp1 Hf1.
  destruct (start_after_guard s _ Hoff Hp) as [Henter Hstart].
  destruct (start_resume_run s c rest Hp Hf) as (b & s1' & _ & Hr & Hm & Hrt).
  cbn zeta in Hm, Hrt. fold h in Hm, Hrt.
  rewrite Hr in Hres. injection Hres as <- <-.
  split; [exact Henter|]. split; [by rewrite Hstart|]. split; [done|].
  split; [by rewrite Hm|]. split; [by rewrite Hm|].
  assert (saveFilePath (monitor s1') = path) as Hpath by (by rewrite Hm).
  injection Hrt as Hw Ht Hn. cbn in Hw, Ht, Hn.
  destruct (start_resume_run s1' c1 rest1) as (b2 & s2 & _ & Hr2 & Hm2 & Hrt2);
    [by rewrite Hpath|done|].
  cbn zeta in Hm2, Hrt2. rewrite Hn in Hm2, Hrt2.
  injection Hrt2 as Hw2 Ht2 _. cbn in Hw2, Ht2.
  assert (h ∈ watchers (world s2)) as Hin.
  { rewrite Hw2, Hw. apply elem_of_union_r, elem_of_union_l. by apply elem_of_singleton. }
  assert (S h ∈ timers (world s2)) as Hin'.
  { rewrite Ht2, Ht. apply elem_of_union_r, elem_of_union_l. by apply elem_of_singleton. }
  destruct (stop_running s2) as (s3 & Hstop & Hidle & _); [by rewrite Hm2|].
  destruct (stop_keeps_others _ _ _ Hstop) as [Hkw Hkt].
  exists s2, s3. split; [exact Hr2|].
  split; [by rewrite Hm2|]. split; [by rewrite Hm2|].
  split; [exact Hin|]. split; [exact Hin'|]. split.
  { intros [Hlw _]. apply Hlw in Hin. unfold heldWatchers in Hin. rewrite Hm2 in Hin.
    cbn in Hin. apply elem_of_singleton in Hin. lia. }
  split; [exact Hstop|]. split; [exact Hidle|]. split.
  - apply Hkw; [exact Hin|]. rewrite Hm2. cbn. intros [= E]. lia.
  - apply Hkt; [exact Hin'|rewrite Hm2; cbn; intros [= E]; lia|].
    rewrite Hm2, Hm. cbn. by rewrite Hnd.
Qed.

Lemma start_overlap_leaks_witness :
  isMonitoring (monitor fresh) = false ∧
  idle (monitor fresh) ∧
  start_enter fresh = (Ok None, fresh) ∧
  Monitor.start fresh = (Ok true, started) ∧
  ∃ s2 s3,
    start_resume started = (Ok true, s2) ∧
    watcher (monitor s2) = Some 2%nat ∧
    checkInterval (monitor s2) = Some 3%nat ∧
    (0 ∈ watchers (world s2))%nat ∧
    (1 ∈ timers (world s2))%nat ∧
    Monitor.stop s2 = (Ok true, s3) ∧
    idle (monitor s3) ∧
    (0 ∈ watchers (world s3))%nat ∧
    (1 ∈ timers (world s3))%nat.
Proof.
  assert (H1 : isMonitoring (monitor fresh) = false) by reflexivity.
  assert (H2 : idle (monitor fresh)) by (by repeat split).
  assert (H3 : nodes (world fresh) !! saveFilePath (monitor fresh)
               = Some (File (Raw bytesA))) by (vm_compute; reflexivity).
  assert (H4 : next_fault (readFaults (world fresh)) = (Pass, []))
    by (vm_compute; reflexivity).
  assert (H5 : start_resume fresh = (Ok true, started)) by (vm_compute; reflexivity).
  assert (H6 : nodes (world started) !! saveFilePath (monitor fresh)
               = Some (File (Raw bytesA))) by (vm_compute; reflexivity).
  assert (H7 : next_fault (readFaults (world started)) = (Pass, []))
    by (vm_compute; reflexivity).
  split; [exact H1|]. split; [exact H2|].
  destruct (start_overlap_leaks fresh (Raw bytesA) [] (Ok true) started (Raw bytesA) []
              H1 H2 H3 H4 H5 H6 H7)
    as (Henter & Hstart & _ & _ & _ & s2 & s3 & Hr2 & Hw2 & Hc2 & Hin & Hin' & _ &
        Hstop & Hidle & Hleft & Hleft').
  split; [exact Henter|]. split; [exact Hstart|].
  exists s2, s3. split; [exact Hr2|].
  split; [exact Hw2|]. split; [exact Hc2|].
  split; [exact Hin|]. split; [exact Hin'|].
  split; [exact Hstop|]. split; [exact Hidle|]. split; [exact Hleft|exact Hleft'].
Defined.

(** ** The events of a capture *)

(** [createBackupIfNeeded] never changes the monitor object, and tells
    its listeners exactly what it returns. When it returns [true] it has
    emitted one [backup-created] event, with the data of the record that
    [createBackup] returned. When it returns [false] it has emitted nothing,
    or one [error] event that a listener was there for. It throws only when
    the save file is missing and no listener for [error] is registered, and
    then it has emitted nothing and changed no file. *)
Theorem createBackupIfNeeded_events s :
  ∃ r s',
    Monitor.createBackupIfNeeded s = (r, s') ∧
    monitor s' = monitor s ∧
    match r with
    | Ok true =>
        ∃ info w',
          createBackup (backupManager (monitor s)) (saveFilePath (monitor s)) (world s)
          = (Ok (Some info), w') ∧
          emitted (world s')
          = emitted (world s) ++ [BackupCreated (id info) (timestamp info) (size info)
                                                (hash info) (saveFilePath (monitor s))]
    | Ok false =>
        emitted (world s') = emitted (world s) ∨
        ∃ message,
          "error" ∈ listeners (world s) ∧
          emitted (world s') = emitted (world s) ++ [ErrorEvent message]
    | Throw e =>
        nodes (world s) !! saveFilePath (monitor s) = None ∧
        ("error" ∉ listeners (world s)) ∧
        s' = s
    end.
Proof.
  destruct (nodes (world s) !! saveFilePath (monitor s)) as [n|] eqn:Hp.
  - rewrite createBackupIfNeeded_run. cbn zeta. rewrite Hp.
    destruct (node_size n <? 1); [eexists (Ok false), _; split; [done|]; by split; [|left]|].
    destruct (createBackup_total (backupManager (monitor s)) (saveFilePath (monitor s))
                (world s)) as (info & w' & Hrun).
    rewrite Hrun. pose proof (createBackup_silent _ _ _ _ _ Hrun) as Hsilent.
    destruct info as [info|].
    + eexists (Ok true), _. split; [done|]. split; [done|].
      exists info, w'. split; [done|]. cbn. by rewrite Hsilent.
    + eexists (Ok false), _. split; [done|]. split; [done|]. by left.
  - destruct (decide ("error" ∈ listeners (world s))) as [Hl|Hl].
    + rewrite createBackupIfNeeded_run. cbn zeta. rewrite Hp.
      rewrite reported_heard by done.
      eexists (Ok false), _. split; [done|]. split; [done|]. right. by eexists.
    + rewrite createBackupIfNeeded_throws by done.
      eexists (Throw _), _. split; [done|]. by split.
Qed.

(** * The configuration *)

Section Configuration.
Import Config.

(** A value that came out of a JSON text goes through a JSON text
    unchanged. *)
Lemma reparse_value_fixed v v' :
  reparse_value v = Some v' → reparse_value v' = Some v'.
Proof.
  revert v'.
  induction v using jsval_mutual
    with (P0 := λ l, reparse_fields (reparse_fields l) = reparse_fields l);
    cbn; intros; simplify_eq; cbn; try done.
  - by rewrite IHv.
  - destruct (reparse_value v) as [y|] eqn:Hy; [|done].
    cbn. rewrite (IHv _ eq_refl). by rewrite IHv0.
Qed.

Lemma settled_defaultConfig : settled defaultConfig.
Proof.
  intros k v Hk. apply (reparse_value_fixed v). revert k v Hk.
  apply map_Forall_lookup.
  unfold defaultConfig. cbn [list_to_map foldr uncurry].
  repeat (apply map_Forall_insert_2; [reflexivity|]).
  apply map_Forall_empty.
Qed.

Lemma settled_reparse obj : settled (reparse obj).
Proof.
  intros k v Hk. unfold reparse in Hk. rewrite lookup_omap in Hk.
  destruct (obj !! k) as [v0|]; [|done]. cbn in Hk.
  by eapply reparse_value_fixed.
Qed.

Lemma settled_spread a b : settled a → settled b → settled (spread a b).
Proof.
  intros Ha Hb k v Hk. unfold spread in Hk.
  apply lookup_union_Some_raw in Hk as [Hk|[_ Hk]]; eauto.
Qed.

Lemma reparse_settled cfg : settled cfg → reparse cfg = cfg.
Proof.
  intros Hs. apply map_eq. intros k. unfold reparse. rewrite lookup_omap.
  destruct (cfg !! k) as [v|] eqn:Hk; [|done]. cbn. by apply (Hs k).
Qed.

Lemma spread_same (a : settings) : spread a a = a.
Proof. apply map_union_idemp. Qed.

Lemma spread_twice (a b : settings) : spread a (spread a b) = spread a b.
Proof. unfold spread. by rewrite <- map_union_assoc, map_union_idemp. Qed.

(** What [getConfig()] returns, by the state of the file. *)
Lemma getConfig_run self d :
  getConfig self d =
  match file d with
  | None => (Ok defaultConfig, d)
  | Some c =>
      let (f, rest) := next_fault (cfgReadFaults d) in
      let d1 := mkDisk (dirPresent d) (file d) (mkdirFaults d) (cfgWriteFaults d)
                       (cfgRemoveFaults d) rest in
      match f, c with
      | Pass, CObject obj => (Ok (spread defaultConfig (reparse obj)), d1)
      | Pass, CScalar => (Ok (spread defaultConfig ∅), d1)
      | _, _ => (Ok defaultConfig, d1)
      end
  end.
Proof.
  unfold getConfig, try_catch, mbind, M_bind, existsFile, readJsonSync.
  destruct (file d) as [c|] eqn:Hf.
  - rewrite bool_decide_eq_true_2 by eauto. cbn beta iota. rewrite Hf.
    destruct (next_fault (cfgReadFaults d)) as [[|part] rest]; destruct c; reflexivity.
  - by rewrite bool_decide_eq_false_2 by (by intros [? ?]).
Qed.

Lemma getConfig_total self d :
  ∃ cfg d',
    getConfig self d = (Ok cfg, d') ∧
    file d' = file d ∧ dirPresent d' = dirPresent d ∧
    mkdirFaults d' = mkdirFaults d ∧ cfgWriteFaults d' = cfgWriteFaults d ∧
    cfgRemoveFaults d' = cfgRemoveFaults d ∧
    settled cfg ∧
    (∀ k, is_Some (defaultConfig !! k) → is_Some (cfg !! k)).
Proof.
  assert (∀ obj : settings, settled obj →
            settled (spread defaultConfig obj) ∧
            ∀ k, is_Some (defaultConfig !! k) →
                 is_Some (spread defaultConfig obj !! k)) as Hmerge.
  { intros obj Hobj. split.
    - apply settled_spread; [apply settled_defaultConfig|done].
    - intros k [v Hk]. unfold spread. apply lookup_union_is_Some. right. eauto. }
  rewrite getConfig_run.
  destruct (file d) as [c|] eqn:Hfile.
  - destruct (next_fault (cfgReadFaults d)) as [[|part] rest]; cbn zeta;
      [destruct c as [bytes|obj|]|].
    + eexists _, _. split; [reflexivity|]. cbn.
      do 5 (split; [reflexivity|]). split; [apply settled_defaultConfig|done].
    + eexists _, _. split; [reflexivity|]. cbn.
      do 5 (split; [reflexivity|]). apply Hmerge, settled_reparse.
    + eexists _, _. split; [reflexivity|]. cbn.
      do 5 (split; [reflexivity|]). by apply Hmerge.
    + eexists _, _. split; [reflexivity|]. cbn.
      do 5 (split; [reflexivity|]). split; [apply settled_defaultConfig|done].
  - eexists _, _. split; [reflexivity|]. split; [exact Hfile|].
    do 4 (split; [reflexivity|]). split; [apply settled_defaultConfig|done].
Qed.

(** [getConfig()] never throws and changes neither the file nor the
    directory. Every setting of the defaults is present in what it returns,
    with a value that JSON can hold. A file that holds an object and can be
    read gives each of its properties (as JSON reads it back), and the
    default for a setting it lacks; a file that is missing, that cannot be
    read or does not parse gives the defaults. *)
Theorem getConfig_defaults self d :
  ∃ cfg d',
    getConfig self d = (Ok cfg, d') ∧
    file d' = file d ∧ dirPresent d' = dirPresent d ∧
    (∀ k, is_Some (defaultConfig !! k) → is_Some (cfg !! k)) ∧
    (∀ k v, cfg !! k = Some v → reparse_value v = Some v) ∧
    (∀ obj rest,
       file d = Some (CObject obj) →
       next_fault (cfgReadFaults d) = (Pass, rest) →
       ∀ k, cfg !! k = match obj !! k ≫= reparse_value with
                       | Some v => Some v
                       | None => defaultConfig !! k
                       end) ∧
    (file d = None ∨ (∃ bytes, file d = Some (CText bytes)) ∨
     (∃ part rest, next_fault (cfgReadFaults d) = (Fail part, rest)) →
     cfg = defaultConfig).
Proof.
  destruct (getConfig_total self d) as (cfg & d' & Hrun & Hf & Hd & _ & _ & _ & Hs & Hk).
  exists cfg, d'. split; [done|]. split; [done|]. split; [done|].
  split; [done|]. split; [done|].
  rewrite getConfig_run in Hrun. split.
  - intros obj rest Hfile Hfault k. rewrite Hfile, Hfault in Hrun.
    cbn beta iota zeta in Hrun. injection Hrun as <- _. unfold spread, reparse.
    rewrite lookup_union, lookup_omap.
    destruct (obj !! k ≫= reparse_value) as [v|]; by destruct (defaultConfig !! k).
  - intros [Hnone|[[bytes Htext]|(part & rest & Hfault)]].
    + rewrite Hnone in Hrun. by injection Hrun as <- _.
    + rewrite Htext in Hrun.
      destruct (next_fault (cfgReadFaults d)) as [[|part] rest];
        cbn beta iota zeta in Hrun; by injection Hrun as <- _.
    + destruct (file d) as [c|]; [|by injection Hrun as <- _].
      rewrite Hfault in Hrun. cbn beta iota zeta in Hrun. by injection Hrun as <- _.
Qed.


(** [saveConfig] is the write of the merged settings, and its result
    tells whether the write went through. *)
Lemma saveConfig_run self c d cur d1 :
  getConfig self d = (Ok cur, d1) →
  saveConfig self c d =
  match writeJsonSync self (spread cur c) d1 with
  | (Ok _, d2) => (Ok true, d2)
  | (Throw _, d2) => (Ok false, d2)
  end.
Proof.
  intros Hget. unfold saveConfig, try_catch.
  erewrite bind_run by exact Hget. cbn beta zeta.
  unfold mbind at 1, M_bind at 1.
  by destruct (writeJsonSync self (spread cur c) d1) as [[[]|e] d2].
Qed.

Lemma writeJsonSync_ok self obj d d' :
  writeJsonSync self obj d = (Ok tt, d') →
  dirPresent d = true ∧
  d' = mkDisk true (Some (CObject obj)) (mkdirFaults d) (snd (next_fault (cfgWriteFaults d)))
              (cfgRemoveFaults d) (cfgReadFaults d).
Proof.
  unfold writeJsonSync. destruct (dirPresent d); [|discriminate]. cbn [negb].
  destruct (next_fault (cfgWriteFaults d)) as [[|[part|]] rest]; [|discriminate..].
  by intros [= <-].
Qed.

(** What was saved is what is read: after a [saveConfig] that returned
    [true], [getConfig] gives for every setting that was passed its value
    as JSON reads it back ([NaN] has become [null]; a setting passed as
    [undefined] has its default again), and for every other setting the
    value it had before. *)
Theorem saveConfig_roundtrip self c d d' old d0 rest :
  getConfig self d = (Ok old, d0) →
  saveConfig self c d = (Ok true, d') →
  next_fault (cfgReadFaults d') = (Pass, rest) →
  ∃ cfg d'',
    getConfig self d' = (Ok cfg, d'') ∧
    ∀ k, cfg !! k = match c !! k with
                    | Some v =>
                        match reparse_value v with
                        | Some v' => Some v'
                        | None => defaultConfig !! k
                        end
                    | None => old !! k
                    end.
Proof.
  intros Hget Hsave Hread.
  destruct (getConfig_total self d) as (old' & d0' & Hget' & _ & _ & _ & _ & _ & Hs & Hk).
  rewrite Hget in Hget'. injection Hget' as <- <-.
  rewrite (saveConfig_run _ _ _ _ _ Hget) in Hsave.
  destruct (writeJsonSync self (spread old c) d0) as [[[]|e] d2] eqn:Hw; [|discriminate].
  injection Hsave as <-. apply writeJsonSync_ok in Hw as [_ ->].
  cbn in Hread. rewrite getConfig_run. cbn. rewrite Hread.
  eexists _, _. split; [reflexivity|]. intros k.
  unfold spread, reparse. rewrite lookup_union, lookup_omap, lookup_union.
  destruct (c !! k) as [v|] eqn:Hc.
  - rewrite union_Some_l. cbn.
    destruct (reparse_value v); by destruct (defaultConfig !! k).
  - rewrite (left_id_L None _).
    destruct (old !! k) as [v|] eqn:Ho; cbn.
    + rewrite (Hs k v Ho). by destruct (defaultConfig !! k).
    + destruct (defaultConfig !! k) as [v|] eqn:Hdef; [|done].
      destruct (Hk k) as [v' Hv']; [by eauto|]. congruence.
Qed.

Lemma saveConfig_roundtrip_witness :
  Config.getConfig home emptyHome = (Ok Config.defaultConfig, emptyHome) ∧
  Config.saveConfig home formSettings emptyHome
  = (Ok true, snd (Config.saveConfig home formSettings emptyHome)) ∧
  ∃ cfg d'',
    Config.getConfig home (snd (Config.saveConfig home formSettings emptyHome))
    = (Ok cfg, d'') ∧
    cfg !! "maxBackups" = Some Config.VNull ∧
    cfg !! "backupPath" = Some (Config.VStr "/backups") ∧
    cfg !! "firstRun" = Some (Config.VBool true).
Proof.
  assert (H1 : Config.getConfig home emptyHome = (Ok Config.defaultConfig, emptyHome))
    by reflexivity.
  assert (H2 : Config.saveConfig home formSettings emptyHome
               = (Ok true, snd (Config.saveConfig home formSettings emptyHome)))
    by reflexivity.
  assert (H3 : next_fault (Config.cfgReadFaults
                             (snd (Config.saveConfig home formSettings emptyHome)))
               = (Pass, [])) by reflexivity.
  split; [exact H1|]. split; [exact H2|].
  destruct (saveConfig_roundtrip home formSettings emptyHome _ _ _ _ H1 H2 H3)
    as (cfg & d'' & Hget & Hk).
  exists cfg, d''. split; [exact Hget|].
  split; [|split]; rewrite Hk; reflexivity.
Defined.

Lemma getConfig_free self d :
  cfgReadFaults d = [] →
  ∃ cfg, getConfig self d = (Ok cfg, d) ∧ settled cfg ∧
         (∀ k, is_Some (defaultConfig !! k) → is_Some (cfg !! k)).
Proof.
  intros Hf.
  destruct (getConfig_total self d) as (cfg & d' & Hget & _ & _ & _ & _ & _ & Hs & Hk).
  exists cfg. split; [|done]. rewrite Hget. f_equal.
  rewrite getConfig_run in Hget. destruct d as [dp f mk wr rm rd]. cbn in *. subst rd.
  destruct f as [[bytes|obj|]|]; cbn in Hget; by injection Hget as _ <-.
Qed.

Lemma updateConfig_free self updates d :
  cfgReadFaults d = [] →
  updateConfig self updates d = saveConfig self updates d.
Proof.
  intros Hf. destruct (getConfig_free self d Hf) as (cur & Hget & _).
  unfold updateConfig. erewrite bind_run by exact Hget. cbn beta zeta.
  rewrite !(saveConfig_run _ _ _ _ _ Hget). by rewrite spread_twice.
Qed.

(** [updateConfig] does what [saveConfig] does with the same settings,
    when no read of the file fails: merging the settings into the current
    ones twice is merging them once. *)
Theorem updateConfig_saveConfig self updates d :
  cfgReadFaults d = [] →
  updateConfig self updates d = saveConfig self updates d.
Proof. apply updateConfig_free. Qed.

(** [resetConfig()] never throws. When it returns [true] the settings
    read afterwards are the defaults, whether or not the file could be
    written again; when it returns [false] the file could not be removed
    and is as it was. *)
Theorem resetConfig_defaults self d :
  ∃ b d',
    resetConfig self d = (Ok b, d') ∧
    (b = true → ∃ d'', getConfig self d' = (Ok defaultConfig, d'')) ∧
    (b = false → file d' = file d).
Proof.
  unfold resetConfig, try_catch.
  destruct (removeSync self d) as [[[]|e] d1] eqn:Hrm.
  - erewrite bind_run by exact Hrm. cbn beta.
    assert (file d1 = None) as Hnone.
    { unfold removeSync in Hrm.
      destruct (next_fault (cfgRemoveFaults d)) as [[|part] rest]; [|discriminate].
      by injection Hrm as <-. }
    assert (getConfig self d1 = (Ok defaultConfig, d1)) as Hget
      by (by rewrite getConfig_run, Hnone).
    unfold mbind, M_bind.
    rewrite (saveConfig_run _ _ _ _ _ Hget), spread_same.
    assert (∀ d2, (file d2 = None ∨ file d2 = Some (CObject defaultConfig) ∨
                   ∃ bytes, file d2 = Some (CText bytes)) →
                  ∃ d'', getConfig self d2 = (Ok defaultConfig, d'')) as Hread.
    { intros d2 Hfile. rewrite getConfig_run.
      destruct Hfile as [->|[->|[bytes ->]]]; [by eexists| |].
      - destruct (next_fault (cfgReadFaults d2)) as [[|part] rest]; cbn zeta;
          [|by eexists].
        rewrite (reparse_settled _ settled_defaultConfig), spread_same. by eexists.
      - destruct (next_fault (cfgReadFaults d2)) as [[|part] rest]; by eexists. }
    unfold writeJsonSync. destruct (dirPresent d1); cbn [negb].
    + destruct (next_fault (cfgWriteFaults d1)) as [[|[part|]] rest];
        eexists _, _; (split; [reflexivity|]); (split; [|done]); intros _;
        apply Hread; cbn; eauto.
    + eexists _, _. split; [reflexivity|]. split; [|done]. intros _.
      apply Hread. by left.
  - erewrite bind_throw by exact Hrm. eexists _, _. split; [reflexivity|].
    split; [done|]. intros _. unfold removeSync in Hrm.
    destruct (next_fault (cfgRemoveFaults d)) as [[|part] rest]; [discriminate|].
    by injection Hrm as _ <-.
Qed.

Lemma updateConfig_saveConfig_witness :
  Config.cfgReadFaults usedHome = [] ∧
  Config.updateConfig home formSettings usedHome
  = Config.saveConfig home formSettings usedHome.
Proof.
  assert (H : Config.cfgReadFaults usedHome = []) by reflexivity.
  split; [exact H|]. exact (updateConfig_saveConfig home formSettings usedHome H).
Defined.

Lemma updateConfig_total self u d :
  ∃ b d', updateConfig self u d = (Ok b, d') ∧ dirPresent d' = dirPresent d.
Proof.
  destruct (getConfig_total self d) as (cur & d1 & Hget & _ & Hd1 & _).
  destruct (getConfig_total self d1) as (cur' & d2 & Hget' & _ & Hd2 & _).
  unfold updateConfig. erewrite bind_run by exact Hget. cbn beta zeta.
  rewrite (saveConfig_run _ _ _ _ _ Hget').
  unfold writeJsonSync. destruct (dirPresent d2) eqn:Hdp; cbn [negb].
  - destruct (next_fault (cfgWriteFaults d2)) as [[|[part|]] rest];
      eexists _, _; (split; [reflexivity|]); cbn; congruence.
  - eexists _, _. split; [reflexivity|]. congruence.
Qed.

Lemma truthy_path_join dir name : truthy (VStr (path_join dir name)) = true.
Proof. unfold path_join. by destruct dir. Qed.

(** [getBackupPath()] never throws and never returns a falsy value: it
    returns the configured [backupPath] when that is truthy, and otherwise
    the directory [backups] in the configuration directory. When it had to
    fall back and no I/O call fails, the fallback has been saved: the next
    call returns the same path and leaves the disk alone. *)
Theorem getBackupPath_truthy self d :
  ∃ v d',
    getBackupPath self d = (Ok v, d') ∧
    truthy v = true ∧
    (∀ cfg d0, getConfig self d = (Ok cfg, d0) →
       v = if truthy (prop cfg "backupPath") then prop cfg "backupPath"
           else VStr (path_join (configDir self) "backups")) ∧
    (dirPresent d = true → cfgReadFaults d = [] → cfgWriteFaults d = [] →
     getBackupPath self d' = (Ok v, d')).
Proof.
  destruct (getConfig_total self d) as (cfg & d0 & Hget & Hf0 & Hd0 & _ & Hw0 & _ & Hs & Hk).
  unfold getBackupPath at 1. erewrite bind_run by exact Hget. cbn beta.
  destruct (truthy (prop cfg "backupPath")) eqn:Htruthy; cbn [negb].
  - exists (prop cfg "backupPath"), d0. split; [reflexivity|]. split; [done|].
    split; [intros cfg' d0' H; rewrite Hget in H; injection H as <- <-;
            by rewrite Htruthy|].
    intros Hdp Hrf Hwf.
    destruct (getConfig_free self d Hrf) as (cfg' & Hget' & _).
    rewrite Hget in Hget'. injection Hget' as <- ->.
    unfold getBackupPath. erewrite bind_run by exact Hget. cbn beta.
    by rewrite Htruthy.
  - set (defaultPath := path_join (configDir self) "backups").
    destruct (updateConfig_total self {[ "backupPath" := VStr defaultPath ]} d0)
      as (b & d1 & Hup & _).
    exists (VStr defaultPath), d1.
    split; [by erewrite bind_run by exact Hup|].
    split; [apply truthy_path_join|].
    split; [intros cfg' d0' H; rewrite Hget in H; injection H as <- <-;
            by rewrite Htruthy|].
    intros Hdp Hrf Hwf.
    destruct (getConfig_free self d Hrf) as (cfg' & Hget' & _).
    rewrite Hget in Hget'. injection Hget' as <- ->.
    rewrite (updateConfig_free _ _ _ Hrf) in Hup.
    rewrite (saveConfig_run _ _ _ _ _ Hget) in Hup.
    unfold writeJsonSync in Hup. rewrite Hdp, Hwf in Hup. cbn in Hup.
    injection Hup as <- <-.
    match goal with |- getBackupPath self ?d2 = _ => set (d1 := d2) end.
    assert (getConfig self d1
            = (Ok (spread defaultConfig
                     (reparse (spread cfg {["backupPath" := VStr defaultPath]}))), d1))
      as Hget1.
    { rewrite getConfig_run. unfold d1. cbn. rewrite Hrf. cbn. by do 2 f_equal. }
    unfold getBackupPath. erewrite bind_run by exact Hget1. cbn beta.
    assert (prop (spread defaultConfig
                    (reparse (spread cfg {["backupPath" := VStr defaultPath]})))
                 "backupPath" = VStr defaultPath) as ->.
    { unfold prop, spread, reparse.
      rewrite lookup_union, lookup_omap, lookup_union, lookup_singleton_eq.
      rewrite union_Some_l. cbn. by destruct (defaultConfig !! "backupPath"). }
    pose proof (truthy_path_join (configDir self) "backups") as Htrue.
    fold defaultPath in Htrue. by rewrite Htrue.
Qed.

(** [ensureConfigExists()], the body of the constructor, never throws
    and never writes over a configuration file that is there, whatever it
    holds. On a disk where no I/O call fails it leaves the directory in
    place and a file in it: the defaults, when there was none. *)
Theorem ensureConfigExists_keeps_file self d :
  ∃ d',
    ensureConfigExists self d = (Ok tt, d') ∧
    (∀ c, file d = Some c → file d' = Some c) ∧
    (mkdirFaults d = [] → cfgWriteFaults d = [] →
       dirPresent d' = true ∧
       (file d = None → file d' = Some (CObject defaultConfig))).
Proof.
  unfold ensureConfigExists, try_catch, mbind at 1, M_bind at 1, existsDir.
  assert (∃ r d1, (if negb (dirPresent d) then mkdirSync self else mret tt) d = (r, d1) ∧
            file d1 = file d ∧ cfgWriteFaults d1 = cfgWriteFaults d ∧
            (∀ e, r = Throw e → mkdirFaults d ≠ []) ∧
            (r = Ok tt → dirPresent d1 = true)) as (r & d1 & Hmk & Hf1 & Hw1 & Hfail & Hok).
  { destruct (dirPresent d) eqn:Hdp; cbn [negb].
    - eexists _, _. split; [reflexivity|]. by repeat split.
    - unfold mkdirSync.
      destruct (mkdirFaults d) as [|[|part] rest] eqn:Hmf; cbn;
        eexists _, _; (split; [reflexivity|]); repeat split; try done.
      all: by intros ? [=]. }
  unfold mbind at 1, M_bind at 1. rewrite Hmk.
  destruct r as [[]|e].
  - unfold mbind at 1, M_bind at 1, existsFile. cbn beta iota.
    destruct (file d1) as [c|] eqn:Hfile.
    + rewrite bool_decide_eq_true_2 by eauto. cbn [negb].
      exists d1. split; [reflexivity|]. split; [intros c' Hc'; congruence|].
      intros _ _. split; [by apply Hok|]. intros Hnone. congruence.
    + rewrite bool_decide_eq_false_2 by (by intros [? ?]). cbn [negb].
      assert (getConfig self d1 = (Ok defaultConfig, d1)) as Hget
        by (by rewrite getConfig_run, Hfile).
      unfold mbind, M_bind.
      rewrite (saveConfig_run _ _ _ _ _ Hget), spread_same.
      unfold writeJsonSync. rewrite (Hok eq_refl). cbn [negb].
      destruct (next_fault (cfgWriteFaults d1)) as [[|[part|]] rest] eqn:Hwf;
        eexists; (split; [reflexivity|]); (split; [intros c Hc; congruence|]);
        intros _ Hwf0; rewrite Hw1, Hwf0 in Hwf; try discriminate Hwf.
      by cbn.
  - exists d1. split; [reflexivity|]. split; [intros c Hc; congruence|].
    intros Hmf _. by destruct (Hfail e eq_refl).
Qed.

End Configuration.
